(** * Elevator dispatch: a shallow embedding of [elevator_model.py]

    The development follows the two Python modules of the core:
    - [database.py]: the SQLite-backed event sink, modelled by its tables
      (lists of rows in insertion order) and one pure function per method;
    - [elevator_model.py]: the [Elevator] and [ElevatorSystem] classes,
      modelled in a state-and-exception monad.  A method of [Elevator]
      runs on the object and the database it holds; a method of
      [ElevatorSystem] runs on the system object.  [Elevator] objects are
      shared references in Python (the loop variable, [assigned_elevator]
      and the entries of [self.elevators] alias the same object), so the
      system addresses an elevator by its position in [elevators] and a
      method call writes the object back at that position.

    Every mutation (a sink call or an attribute assignment) appends the
    state it produces to a trace, so the instants between two mutations of
    one call can be inspected.

    Integers are Python's.  SQLite keeps 64-bit integers and its driver
    raises [OverflowError] beyond them; floors, ids and keys are taken to
    fit, and that error is outside the model. *)

From stdpp Require Import base list numbers.
From Stdlib Require Import ZArith Lia.

Local Open Scope Z_scope.

(** ** Values *)

(** The three status strings of the source, ["idle"], ["moving_up"] and
    ["moving_down"]. *)
Inductive Status := idle | moving_up | moving_down.

Definition status_eqb (a b : Status) : bool :=
  match a, b with
  | idle, idle | moving_up, moving_up | moving_down, moving_down => true
  | _, _ => false
  end.

(** [min_distance] starts as [float("inf")] and is then an integer. *)
Inductive Distance := Inf | Fin (z : Z).

(** [distance < min_distance], for an integer on the left. *)
Definition dist_ltb (distance : Z) (min_distance : Distance) : bool :=
  match min_distance with
  | Inf => true
  | Fin m => distance <? m
  end.

(** Python truthiness of a row handle: [None] and [0] are falsy. *)
Definition truthy (h : option Z) : bool :=
  match h with
  | Some z => negb (z =? 0)
  | None => false
  end.

(** The exceptions the model can raise.  The two [ValueError] messages of
    [request_elevator] and the one of [move_elevator_to_resting_floor] are
    kept apart; the formatted ones carry the value of [num_floors - 1].
    [TimeDataFormat] is the [ValueError] of [datetime.strptime] for a text
    that does not match the format.
    [AttributeError] is what [assigned_elevator.id] raises when
    [assigned_elevator] is still [None].  [DanglingReference] stands for a
    position outside the store: Python references cannot dangle, the case is
    there to keep the model total. *)
Inductive ValueErrorMsg :=
| SameFloors
| FloorsBetween (top : Z)
| FloorBetween (top : Z)
| TimeDataFormat.

Inductive Exn :=
| ValueError (msg : ValueErrorMsg)
| AttributeError
| DanglingReference.

Inductive Outcome (A : Type) :=
| Ok (a : A)
| Raise (e : Exn).
Arguments Ok {A} a.
Arguments Raise {A} e.

(** ** database.py *)

(** Rows of the four populated tables.  Of the timestamps
    ([datetime.now()]) the model keeps what the code reads back:
    [end_time] as "is it set", and of the [start_time] of a resting period
    whether it fell on a whole second.  SQLite stores a [datetime] as the
    text of [isoformat(" ")], which has a fraction of a second unless the
    microseconds are 0, and [end_resting_period] parses that text.  The
    other timestamps and [duration_seconds] are write-only and dropped.
    The table [hourly_stats] is never written after it is cleared. *)
Record ElevatorRow := {
  er_id : Z;
  er_current_floor : Z;
  er_status : Status
}.

Record DemandRow := {
  d_id : Z;
  d_origin_floor : Z;
  d_destination_floor : Z;
  d_elevator_id : Z;
  d_wait_time_seconds : Distance
}.

Record JourneyRow := {
  j_id : Z;
  j_elevator_id : Z;
  j_end_time : bool;
  j_start_floor : Z;
  j_end_floor : option Z;
  j_passenger_count : Z
}.

Record RestingRow := {
  r_id : Z;
  r_elevator_id : Z;
  r_floor : Z;
  r_start_whole_second : bool;
  r_end_time : bool
}.

(** The database object: its tables, and the wall clock as far as the
    code can observe it.  [clock 0] tells whether the next resting period
    to be opened starts on a whole second, [clock 1] the one after it, and
    so on; [tick] is the clock after one such reading. *)
Record ElevatorDatabase := {
  tbl_elevators : list ElevatorRow;
  tbl_demands : list DemandRow;
  tbl_journeys : list JourneyRow;
  tbl_resting_periods : list RestingRow;
  clock : nat -> bool
}.

Definition tick (c : nat -> bool) : nat -> bool := fun k => c (S k).

(** What [get_elevator_status] returns: [fetchone()], a row or [None],
    when it queries one id; [fetchall()], every row, otherwise.  A row is
    the tuple (id, current_floor, status). *)
Inductive StatusRows :=
| FetchOne (row : option (Z * Z * Status))
| FetchAll (rows : list (Z * Z * Status)).

Module Database.

(** [cursor.lastrowid] after an INSERT into a table whose key is an
    INTEGER PRIMARY KEY: one more than the largest key in use, 1 for an
    empty table. *)
Definition lastrowid (keys : list Z) : Z := 1 + foldr Z.max 0 keys.

(** A database with nothing in it, read at instants that never fall on a
    whole second. *)
Definition empty : ElevatorDatabase :=
  {| tbl_elevators := []; tbl_demands := [];
     tbl_journeys := []; tbl_resting_periods := [];
     clock := fun _ => false |}.

(** DELETE FROM every table, then one row per elevator at floor 0. *)
Definition initialize_elevators (num_elevators num_floors : Z)
    (db : ElevatorDatabase) : unit * ElevatorDatabase :=
  (tt, {| tbl_elevators :=
            (fun i => {| er_id := i; er_current_floor := 0;
                         er_status := idle |}) <$> seqZ 1 num_elevators;
          tbl_demands := [];
          tbl_journeys := [];
          tbl_resting_periods := [];
          clock := clock db |}).

(** UPDATE elevators SET current_floor, status WHERE id = ?. *)
Definition update_elevator_status (elevator_id floor : Z) (st : Status)
    (db : ElevatorDatabase) : unit * ElevatorDatabase :=
  (tt, {| tbl_elevators :=
            (fun r => if er_id r =? elevator_id
                      then {| er_id := er_id r; er_current_floor := floor;
                              er_status := st |}
                      else r) <$> tbl_elevators db;
          tbl_demands := tbl_demands db;
          tbl_journeys := tbl_journeys db;
          tbl_resting_periods := tbl_resting_periods db;
          clock := clock db |}).

Definition record_demand (origin_floor destination_floor elevator_id : Z)
    (wait_time : Distance) (db : ElevatorDatabase) : Z * ElevatorDatabase :=
  let demand_id := lastrowid (d_id <$> tbl_demands db) in
  (demand_id,
   {| tbl_elevators := tbl_elevators db;
      tbl_demands := tbl_demands db ++
        [{| d_id := demand_id; d_origin_floor := origin_floor;
            d_destination_floor := destination_floor;
            d_elevator_id := elevator_id;
            d_wait_time_seconds := wait_time |}];
      tbl_journeys := tbl_journeys db;
      tbl_resting_periods := tbl_resting_periods db;
      clock := clock db |}).

Definition start_journey (elevator_id start_floor passenger_count : Z)
    (db : ElevatorDatabase) : Z * ElevatorDatabase :=
  let journey_id := lastrowid (j_id <$> tbl_journeys db) in
  (journey_id,
   {| tbl_elevators := tbl_elevators db;
      tbl_demands := tbl_demands db;
      tbl_journeys := tbl_journeys db ++
        [{| j_id := journey_id; j_elevator_id := elevator_id;
            j_end_time := false; j_start_floor := start_floor;
            j_end_floor := None;
            j_passenger_count := passenger_count |}];
      tbl_resting_periods := tbl_resting_periods db;
      clock := clock db |}).

(** UPDATE journeys SET end_time, end_floor WHERE id = ?. *)
Definition end_journey (journey_id end_floor : Z)
    (db : ElevatorDatabase) : unit * ElevatorDatabase :=
  (tt, {| tbl_elevators := tbl_elevators db;
          tbl_demands := tbl_demands db;
          tbl_journeys :=
            (fun r => if j_id r =? journey_id
                      then {| j_id := j_id r;
                              j_elevator_id := j_elevator_id r;
                              j_end_time := true;
                              j_start_floor := j_start_floor r;
                              j_end_floor := Some end_floor;
                              j_passenger_count := j_passenger_count r |}
                      else r) <$> tbl_journeys db;
          tbl_resting_periods := tbl_resting_periods db;
          clock := clock db |}).

(** INSERT a row whose start_time is [datetime.now()]: the clock is
    read. *)
Definition start_resting_period (elevator_id floor : Z)
    (db : ElevatorDatabase) : Z * ElevatorDatabase :=
  let resting_id := lastrowid (r_id <$> tbl_resting_periods db) in
  (resting_id,
   {| tbl_elevators := tbl_elevators db;
      tbl_demands := tbl_demands db;
      tbl_journeys := tbl_journeys db;
      tbl_resting_periods := tbl_resting_periods db ++
        [{| r_id := resting_id; r_elevator_id := elevator_id;
            r_floor := floor; r_start_whole_second := clock db 0%nat;
            r_end_time := false |}];
      clock := tick (clock db) |}).

(** The statement
    UPDATE resting_periods SET end_time, duration_seconds WHERE id = ?
    of [end_resting_period]. *)
Definition close_resting_period (resting_id : Z)
    (db : ElevatorDatabase) : ElevatorDatabase :=
  {| tbl_elevators := tbl_elevators db;
     tbl_demands := tbl_demands db;
     tbl_journeys := tbl_journeys db;
     tbl_resting_periods :=
       (fun r => if r_id r =? resting_id
                 then {| r_id := r_id r;
                         r_elevator_id := r_elevator_id r;
                         r_floor := r_floor r;
                         r_start_whole_second := r_start_whole_second r;
                         r_end_time := true |}
                 else r) <$> tbl_resting_periods db;
     clock := clock db |}.

(** [end_resting_period]: SELECT start_time of the row ([fetchone], the
    first row with the key).  When there is none nothing is written.
    Otherwise the text is parsed with the format
    ["%Y-%m-%d %H:%M:%S.%f"], which asks for a fraction of a second:
    [strptime] raises [ValueError] for a start on a whole second, before
    the UPDATE.  The returned duration is a wall-clock difference, which no
    caller in the core reads. *)
Definition end_resting_period (resting_id : Z)
    (db : ElevatorDatabase) : Outcome unit * ElevatorDatabase :=
  match List.find (fun r => r_id r =? resting_id) (tbl_resting_periods db) with
  | Some row =>
      if r_start_whole_second row
      then (Raise (ValueError TimeDataFormat), db)
      else (Ok tt, close_resting_period resting_id db)
  | None => (Ok tt, db)
  end.

(** [get_elevator_status]: the test [if elevator_id:] sends [None] and
    [0] to the query of all rows; any other id gets the first row with
    that id.  The method only reads. *)
Definition get_elevator_status (elevator_id : option Z)
    (db : ElevatorDatabase) : StatusRows :=
  let tuple := fun r => (er_id r, er_current_floor r, er_status r) in
  match elevator_id with
  | Some i =>
      if negb (i =? 0)
      then FetchOne (tuple <$> List.find (fun r => er_id r =? i)
                                 (tbl_elevators db))
      else FetchAll (tuple <$> tbl_elevators db)
  | None => FetchAll (tuple <$> tbl_elevators db)
  end.

End Database.

(** ** elevator_model.py: the objects *)

(** The attributes of an [Elevator] object.  The attribute [id] is named
    [el_id] (Rocq's [id] is the identity function); [db] is the one shared
    database object, held by the system record below. *)
Record Elevator := {
  el_id : Z;
  current_floor : Z;
  status : Status;
  total_floors : Z;
  current_resting_id : option Z;
  current_journey_id : option Z
}.

Record ElevatorSystem := {
  num_elevators : Z;
  num_floors : Z;
  db : ElevatorDatabase;
  elevators : list Elevator
}.

Definition set_current_floor (v : Z) (e : Elevator) : Elevator :=
  {| el_id := el_id e; current_floor := v; status := status e;
     total_floors := total_floors e;
     current_resting_id := current_resting_id e;
     current_journey_id := current_journey_id e |}.

Definition set_status (v : Status) (e : Elevator) : Elevator :=
  {| el_id := el_id e; current_floor := current_floor e; status := v;
     total_floors := total_floors e;
     current_resting_id := current_resting_id e;
     current_journey_id := current_journey_id e |}.

Definition set_current_resting_id (v : option Z) (e : Elevator) : Elevator :=
  {| el_id := el_id e; current_floor := current_floor e; status := status e;
     total_floors := total_floors e;
     current_resting_id := v;
     current_journey_id := current_journey_id e |}.

Definition set_current_journey_id (v : option Z) (e : Elevator) : Elevator :=
  {| el_id := el_id e; current_floor := current_floor e; status := status e;
     total_floors := total_floors e;
     current_resting_id := current_resting_id e;
     current_journey_id := v |}.

Definition with_db (d : ElevatorDatabase) (s : ElevatorSystem) : ElevatorSystem :=
  {| num_elevators := num_elevators s; num_floors := num_floors s;
     db := d; elevators := elevators s |}.

Definition with_elevators (l : list Elevator) (s : ElevatorSystem)
    : ElevatorSystem :=
  {| num_elevators := num_elevators s; num_floors := num_floors s;
     db := db s; elevators := l |}.

(** ** The monad: state, exceptions and a trace of the states produced *)

Definition ST (S A : Type) : Type := S -> Outcome A * S * list S.

Definition ret {S A} (a : A) : ST S A := fun s => (Ok a, s, []).

Definition raise {S A} (e : Exn) : ST S A := fun s => (Raise e, s, []).

Definition bind {S A B} (m : ST S A) (k : A -> ST S B) : ST S B :=
  fun s =>
    match m s with
    | (Ok a, s1, t1) =>
        match k a s1 with
        | (r, s2, t2) => (r, s2, t1 ++ t2)
        end
    | (Raise e, s1, t1) => (Raise e, s1, t1)
    end.

(** The monad is used through stdpp's [x ← m; k] and [m;; k]. *)
#[export] Instance ST_ret {S} : MRet (ST S) := @ret S.
#[export] Instance ST_bind {S} : MBind (ST S) := fun A B k m => bind m k.

(** Reading the state leaves no trace. *)
Definition get {S} : ST S S := fun s => (Ok s, s, []).

(** A step that changes the state. *)
Definition modify {S} (f : S -> S) : ST S unit :=
  fun s => (Ok tt, f s, [f s]).

(** What the caller sees of a call: the result and the state. *)
Definition result {S A} (x : Outcome A * S * list S) : Outcome A := x.1.1.
Definition final {S A} (x : Outcome A * S * list S) : S := x.1.2.
Definition trace {S A} (x : Outcome A * S * list S) : list S := x.2.

(** *** Methods of an [Elevator]: the object and its [db] *)

Definition Obj : Type := Elevator * ElevatorDatabase.

(** [self]. *)
Definition self : ST Obj Elevator := fun s => (Ok s.1, s, []).

(** [self.attr = v]. *)
Definition assign (f : Elevator -> Elevator) : ST Obj unit :=
  modify (fun s : Obj => (f s.1, s.2)).

(** [self.db.method(...)]. *)
Definition db_call {A} (f : ElevatorDatabase -> A * ElevatorDatabase)
    : ST Obj A :=
  fun s => (Ok (f s.2).1, (s.1, (f s.2).2), [(s.1, (f s.2).2)]).

(** [self.db.method(...)] for a method that can raise: the exception goes
    on to the caller of the caller. *)
Definition db_try {A} (f : ElevatorDatabase -> Outcome A * ElevatorDatabase)
    : ST Obj A :=
  fun s =>
    match (f s.2).1 with
    | Ok a => (Ok a, (s.1, (f s.2).2), [(s.1, (f s.2).2)])
    | Raise e => (Raise e, (s.1, (f s.2).2), [])
    end.

(** *** Methods of the [ElevatorSystem] *)

(** The system after the elevator at position [a] and the database have
    been left as [o] by a method of that elevator. *)
Definition put (a : nat) (o : Obj) (s : ElevatorSystem) : ElevatorSystem :=
  {| num_elevators := num_elevators s; num_floors := num_floors s;
     db := o.2; elevators := <[a := o.1]> (elevators s) |}.

(** [self.elevators[a].method(...)]: the method runs on the object at
    position [a] and on the shared database. *)
Definition on_elevator {A} (a : nat) (m : ST Obj A) : ST ElevatorSystem A :=
  fun s =>
    match elevators s !! a with
    | Some e =>
        let x := m (e, db s) in
        (result x, put a (final x) s, (fun o' => put a o' s) <$> trace x)
    | None => (Raise DanglingReference, s, [])
    end.

(** Reading the object at position [a]. *)
Definition deref (a : nat) : ST ElevatorSystem Elevator :=
  on_elevator a self.

(** [self.db.method(...)] from a method of the system. *)
Definition sys_db_call {A} (f : ElevatorDatabase -> A * ElevatorDatabase)
    : ST ElevatorSystem A :=
  fun s =>
    (Ok (f (db s)).1, with_db (f (db s)).2 s, [with_db (f (db s)).2 s]).

(** [self.elevators.append(Elevator(...))]: the constructor [mk] runs on
    the database, then the new object is appended. *)
Definition append_new (mk : ElevatorDatabase -> Outcome unit * Obj * list Obj)
    : ST ElevatorSystem unit :=
  fun s =>
    let '(r, o, tr) := mk (db s) in
    match r with
    | Ok _ =>
        let s' := with_elevators (elevators s ++ [o.1]) (with_db o.2 s) in
        (Ok tt, s', ((fun o' : Obj => with_db o'.2 s) <$> tr) ++ [s'])
    | Raise e => (Raise e, with_db o.2 s, (fun o' : Obj => with_db o'.2 s) <$> tr)
    end.

(** ** elevator_model.py: class Elevator *)

Module Elevator.

(** [start_resting]: opens a resting period when idle with none open. *)
Definition start_resting : ST Obj unit :=
  e ← self;
  if status_eqb (status e) idle && bool_decide (current_resting_id e = None)
  then
    rid ← db_call (Database.start_resting_period (el_id e) (current_floor e));
    assign (set_current_resting_id (Some rid))
  else mret tt.

(** [end_resting]: closes the resting period when one is recorded. *)
Definition end_resting : ST Obj unit :=
  e ← self;
  match current_resting_id e with
  | Some rid =>
      db_try (Database.end_resting_period rid);;
      assign (set_current_resting_id None)
  | None => mret tt
  end.

(** [__init__], run on the database passed in: the attributes are set,
    the elevator is registered with the sink and put to rest. *)
Definition __init__ (id total_floors : Z) (db0 : ElevatorDatabase)
    : Outcome unit * Obj * list Obj :=
  (e ← self;
   db_call (Database.update_elevator_status
              (el_id e) (current_floor e) (status e));;
   start_resting)
    ({| el_id := id; current_floor := 0; status := idle;
        total_floors := total_floors;
        current_resting_id := None;
        current_journey_id := None |}, db0).

(** [move]: returns the travel time, the number of floors travelled
    ([0.0] in the source when already there; [time.sleep] is not
    modelled).  An exception of [end_resting_period] leaves the method
    before anything else is done. *)
Definition move (destination_floor : Z) : ST Obj Z :=
  e ← self;
  if current_floor e =? destination_floor then mret 0
  else
    (if status_eqb (status e) idle && truthy (current_resting_id e)
     then
       match current_resting_id e with
       | Some rid =>
           db_try (Database.end_resting_period rid);;
           assign (set_current_resting_id None)
       | None => mret tt
       end
     else mret tt);;
    e ← self;
    assign (set_status (if destination_floor >? current_floor e
                        then moving_up else moving_down));;
    e ← self;
    db_call (Database.update_elevator_status
               (el_id e) (current_floor e) (status e));;
    e ← self;
    let travel_time := Z.abs (destination_floor - current_floor e) in
    assign (set_current_floor destination_floor);;
    assign (set_status idle);;
    e ← self;
    db_call (Database.update_elevator_status
               (el_id e) (current_floor e) (status e));;
    e ← self;
    rid ← db_call (Database.start_resting_period
                      (el_id e) (current_floor e));
    assign (set_current_resting_id (Some rid));;
    mret travel_time.

(** [start_journey]: opens a journey row, stores its key in the handle
    (no test of what the handle held) and returns the handle. *)
Definition start_journey (start_floor passenger_count : Z)
    : ST Obj (option Z) :=
  e ← self;
  jid ← db_call (Database.start_journey
                    (el_id e) start_floor passenger_count);
  assign (set_current_journey_id (Some jid));;
  e ← self;
  mret (current_journey_id e).

(** [end_journey]: closes the journey when the handle is truthy. *)
Definition end_journey (end_floor : Z) : ST Obj unit :=
  e ← self;
  if truthy (current_journey_id e)
  then
    match current_journey_id e with
    | Some jid =>
        db_call (Database.end_journey jid end_floor);;
        assign (set_current_journey_id None)
    | None => mret tt
    end
  else mret tt.

(** [move_to_optimal_resting_floor]. *)
Definition move_to_optimal_resting_floor (optimal_floor : Z) : ST Obj bool :=
  e ← self;
  if negb (status_eqb (status e) idle) then mret false
  else
    travel_time ← move optimal_floor;
    mret (travel_time >? 0).

End Elevator.

(** ** elevator_model.py: class ElevatorSystem *)

Module ElevatorSystem.

(** The object before [__init__] has run its body: the attributes are
    set, the fleet is empty, [db0] is the database object passed in. *)
Definition blank (n floors : Z) (db0 : ElevatorDatabase) : ElevatorSystem :=
  {| num_elevators := n; num_floors := floors;
     db := db0; elevators := [] |}.

(** [for i in ids: self.elevators.append(Elevator(i, num_floors, db))]. *)
Fixpoint create_elevators (ids : list Z) (floors : Z)
    : ST ElevatorSystem unit :=
  match ids with
  | [] => mret tt
  | i :: rest =>
      append_new (Elevator.__init__ i floors);;
      create_elevators rest floors
  end.

(** [__init__], run on the object with its attributes set;
    [range(1, num_elevators + 1)] is [seqZ 1 num_elevators]. *)
Definition __init__ : ST ElevatorSystem unit :=
  s ← get;
  sys_db_call (Database.initialize_elevators
                 (num_elevators s) (num_floors s));;
  create_elevators (seqZ 1 (num_elevators s)) (num_floors s).

(** [ElevatorSystem(n, floors, db0)]. *)
Definition new (n floors : Z) (db0 : ElevatorDatabase) : ElevatorSystem :=
  final (__init__ (blank n floors db0)).

(** The selection loop of [request_elevator]: [acc] is the pair
    ([assigned_elevator], [min_distance]), [i] the position of the
    elevator the loop is at. *)
Fixpoint scan (els : list Elevator) (i : nat) (origin_floor : Z)
    (acc : option nat * Distance) : option nat * Distance :=
  match els with
  | [] => acc
  | elevator :: rest =>
      let distance := Z.abs (current_floor elevator - origin_floor) in
      scan rest (S i) origin_floor
        (if dist_ltb distance acc.2 then (Some i, Fin distance) else acc)
  end.

Definition find_closest (els : list Elevator) (origin_floor : Z)
    : option nat * Distance :=
  scan els 0%nat origin_floor (None, Inf).

(** [request_elevator]. *)
Definition request_elevator (origin_floor destination_floor : Z)
    : ST ElevatorSystem (Z * Z) :=
  s ← get;
  if origin_floor =? destination_floor then raise (ValueError SameFloors)
  else if negb ((0 <=? origin_floor) && (origin_floor <? num_floors s)
                && (0 <=? destination_floor)
                && (destination_floor <? num_floors s))
  then raise (ValueError (FloorsBetween (num_floors s - 1)))
  else
    let '(assigned_elevator, min_distance) :=
      find_closest (elevators s) origin_floor in
    let wait_time := min_distance in
    match assigned_elevator with
    | None => raise AttributeError
    | Some a =>
        e ← deref a;
        sys_db_call (Database.record_demand
                       origin_floor destination_floor (el_id e) wait_time);;
        e ← deref a;
        on_elevator a (Elevator.start_journey (current_floor e) 1);;
        pickup_time ← on_elevator a (Elevator.move origin_floor);
        travel_time ← on_elevator a (Elevator.move destination_floor);
        on_elevator a (Elevator.end_journey destination_floor);;
        let total_time := pickup_time + travel_time in
        e ← deref a;
        mret (el_id e, total_time)
    end.

(** [get_elevators_status]: one (id, floor, status) entry per elevator. *)
Definition get_elevators_status : ST ElevatorSystem (list (Z * Z * Status)) :=
  s ← get;
  mret ((fun e => (el_id e, current_floor e, status e)) <$> elevators s).

(** The loop of [move_elevator_to_resting_floor], over the positions
    [i, i+1, ...] of the [n] elevators still to visit. *)
Fixpoint resting_loop (n : nat) (i : nat) (elevator_id optimal_floor : Z)
    : ST ElevatorSystem bool :=
  match n with
  | O => mret false
  | S n' =>
      e ← deref i;
      if (el_id e =? elevator_id) && status_eqb (status e) idle
      then
        on_elevator i (Elevator.move_to_optimal_resting_floor optimal_floor);;
        mret true
      else resting_loop n' (S i) elevator_id optimal_floor
  end.

(** [move_elevator_to_resting_floor]. *)
Definition move_elevator_to_resting_floor (elevator_id optimal_floor : Z)
    : ST ElevatorSystem bool :=
  s ← get;
  if negb ((0 <=? optimal_floor) && (optimal_floor <? num_floors s))
  then raise (ValueError (FloorBetween (num_floors s - 1)))
  else resting_loop (length (elevators s)) 0%nat elevator_id optimal_floor.

End ElevatorSystem.

(** ** What the sink holds *)

(** The journeys of an elevator that have been opened and not closed, and
    its resting periods in the same state, as rows of the sink. *)
Definition open_journeys (d : ElevatorDatabase) (elevator_id : Z)
    : list JourneyRow :=
  List.filter (fun r => (j_elevator_id r =? elevator_id) && negb (j_end_time r))
    (tbl_journeys d).

Definition open_resting_periods (d : ElevatorDatabase) (elevator_id : Z)
    : list RestingRow :=
  List.filter (fun r => (r_elevator_id r =? elevator_id) && negb (r_end_time r))
    (tbl_resting_periods d).

(** Journeys that were opened and closed. *)
Definition completed_journeys (d : ElevatorDatabase) : list JourneyRow :=
  List.filter j_end_time (tbl_journeys d).

(** At most one open journey and at most one open resting period for every
    elevator id. *)
Definition at_most_one_open (d : ElevatorDatabase) : Prop :=
  forall elevator_id,
    (length (open_journeys d elevator_id) <= 1)%nat /\
    (length (open_resting_periods d elevator_id) <= 1)%nat.

(** A journey and a resting period are not open together, for any id. *)
Definition never_both_open (d : ElevatorDatabase) : Prop :=
  forall elevator_id,
    open_journeys d elevator_id = [] \/
    open_resting_periods d elevator_id = [].

(** Was the resting period with this key opened on a whole second?  The
    row is the one [fetchone] returns, the first with the key. *)
Definition whole_second_start (d : ElevatorDatabase) (resting_id : Z) : bool :=
  match List.find (fun r => r_id r =? resting_id) (tbl_resting_periods d) with
  | Some row => r_start_whole_second row
  | None => false
  end.

(** No resting period of the sink was opened on a whole second, and none
    will be. *)
Definition fractional (d : ElevatorDatabase) : Prop :=
  (forall k, clock d k = false) /\
  Forall (fun row => r_start_whole_second row = false) (tbl_resting_periods d).

Definition sys310 := ElevatorSystem.new 3 10 Database.empty.

(** An empty database read on a whole second the first time a resting
    period is opened, and the 3-by-10 fleet built on it: the resting
    period of elevator 1 starts on a whole second. *)
Definition db_on_the_second : ElevatorDatabase :=
  {| tbl_elevators := []; tbl_demands := [];
     tbl_journeys := []; tbl_resting_periods := [];
     clock := fun k => match k with O => true | S _ => false end |}.

Definition sys310_on_the_second :=
  ElevatorSystem.new 3 10 db_on_the_second.

(** ** Predicates and auxiliary definitions of the proofs *)

Definition valid_request (s : ElevatorSystem) (o d : Z) : Prop :=
  o ≠ d /\ 0 <= o < num_floors s /\ 0 <= d < num_floors s.

(** The distance of an elevator from the floor of a request. *)
Definition dist (origin_floor : Z) (e : Elevator) : Z :=
  Z.abs (current_floor e - origin_floor).

(** What the selection loop has established after the elevators [seen]:
    nothing is assigned when none was seen; otherwise the assigned position
    holds a nearest elevator, strictly nearer than every one before it. *)
Definition scanned (origin_floor : Z) (seen : list Elevator)
    (acc : option nat * Distance) : Prop :=
  match acc with
  | (None, Inf) => seen = []
  | (Some a, Fin m) =>
      exists e, seen !! a = Some e /\ m = dist origin_floor e /\
        (forall j e', seen !! j = Some e' -> m <= dist origin_floor e') /\
        (forall j e', (j < a)%nat -> seen !! j = Some e' ->
           m < dist origin_floor e')
  | _ => False
  end.

(** The elevator the loop stops at: idle, with the id asked for. *)
Definition matches (elevator_id : Z) (e : Elevator) : bool :=
  (el_id e =? elevator_id) && status_eqb (status e) idle.

(** A system computation that only works on the elevator at [a] is a
    computation on that object. *)
Definition lifts {A} (a : nat) (M : ST ElevatorSystem A) (m : ST Obj A)
    : Prop :=
  forall s, is_Some (elevators s !! a) -> M s = on_elevator a m s.

(** The part of [request_elevator] after the selection, as a computation
    on the assigned elevator. *)
Definition serve (origin_floor destination_floor : Z) (wait_time : Distance)
    : ST Obj (Z * Z) :=
  e ← self;
  db_call (Database.record_demand
             origin_floor destination_floor (el_id e) wait_time);;
  e ← self;
  Elevator.start_journey (current_floor e) 1;;
  pickup_time ← Elevator.move origin_floor;
  travel_time ← Elevator.move destination_floor;
  Elevator.end_journey destination_floor;;
  e ← self;
  mret (el_id e, pickup_time + travel_time).

(** The error of the validation of [request_elevator]. *)
Definition request_error (e : Exn) : bool :=
  match e with
  | ValueError SameFloors | ValueError (FloorsBetween _) => true
  | _ => false
  end.

(** [move] is stopped by [end_resting_period]: the elevator has to leave
    its floor, it is idle with a truthy resting handle, and the period
    under that handle was opened on a whole second. *)
Definition move_blocked (dest : Z) (x : Obj) : bool :=
  negb (current_floor x.1 =? dest) && status_eqb (status x.1) idle &&
  match current_resting_id x.1 with
  | Some rid => negb (rid =? 0) && whole_second_start x.2 rid
  | None => false
  end.

(** The states [move] goes through when the elevator rests somewhere else:
    the resting period [rid] is closed, the direction is set and reported,
    the elevator arrives, goes idle, reports, and a resting period is
    opened. *)
Definition move_steps (e : Elevator) (d : ElevatorDatabase) (dest rid : Z)
    : list Obj :=
  let dir := if dest >? current_floor e then moving_up else moving_down in
  let d1 := Database.close_resting_period rid d in
  let e1 := set_current_resting_id None e in
  let e2 := set_status dir e1 in
  let d2 := (Database.update_elevator_status
               (el_id e) (current_floor e) dir d1).2 in
  let e3 := set_current_floor dest e2 in
  let e4 := set_status idle e3 in
  let d3 := (Database.update_elevator_status (el_id e) dest idle d2).2 in
  let new := Database.start_resting_period (el_id e) dest d3 in
  let e5 := set_current_resting_id (Some new.1) e4 in
  [(e, d1); (e1, d1); (e2, d1); (e2, d2); (e3, d2); (e4, d2); (e4, d3);
   (e4, new.2); (e5, new.2)].

(** The state [move] ends in. *)
Definition arrived_at (e : Elevator) (d : ElevatorDatabase) (dest rid : Z)
    : Obj :=
  List.last (move_steps e d dest rid) (e, d).

(** The rows of a resting elevator: its handle is a key, and every open
    resting period of the elevator in the sink has that key. *)
Definition resting_ok (e : Elevator) (d : ElevatorDatabase) : Prop :=
  status e = idle /\
  exists rid, current_resting_id e = Some rid /\ rid ≠ 0 /\
    Forall (fun row => r_id row = rid) (open_resting_periods d (el_id e)).

(** Every journey in the sink has been closed. *)
Definition journeys_closed (d : ElevatorDatabase) : Prop :=
  Forall (fun r => j_end_time r = true) (tbl_journeys d).

(** The open resting periods of the other elevators are among those they
    had. *)
Definition others_kept (e : Elevator) (d d' : ElevatorDatabase) : Prop :=
  forall id, id ≠ el_id e ->
    forall P : RestingRow -> Prop,
      Forall P (open_resting_periods d id) ->
      Forall P (open_resting_periods d' id).

(** The state in which an elevator is between two calls: at rest, with
    no journey handle. *)
Definition at_rest (e : Elevator) (d : ElevatorDatabase) : Prop :=
  resting_ok e d /\ current_journey_id e = None.

(** The fleet as [__init__] builds it and every method that returns
    leaves it: the elevator at position [i] has id [i + 1], there are
    [num_elevators] of them, each is at rest, and the sink has no open
    journey and at most one open resting period per id. *)
Record wf (s : ElevatorSystem) : Prop := {
  wf_ids : forall i e, elevators s !! i = Some e -> el_id e = Z.of_nat i + 1;
  wf_len : length (elevators s) = Z.to_nat (num_elevators s);
  wf_rest : forall i e, elevators s !! i = Some e -> at_rest e (db s);
  wf_closed : journeys_closed (db s);
  wf_one : at_most_one_open (db s)
}.

Definition floors_in_range (s : ElevatorSystem) : Prop :=
  forall i e, elevators s !! i = Some e ->
    0 <= current_floor e < num_floors s.

(** The loop invariant of [__init__] after [k] elevators. *)
Record built (k : nat) (s : ElevatorSystem) : Prop := {
  built_len : length (elevators s) = k;
  built_el : forall i e, elevators s !! i = Some e ->
    el_id e = Z.of_nat i + 1 /\ current_floor e = 0 /\ at_rest e (db s);
  built_closed : journeys_closed (db s);
  built_empty : tbl_demands (db s) = [] /\ tbl_journeys (db s) = [];
  built_one : at_most_one_open (db s);
  built_fresh : forall id, Z.of_nat k < id -> open_resting_periods (db s) id = []
}.

(** The states of a system built by [ElevatorSystem(n, fl, db0)] and then
    driven through its public methods, with any arguments, whether the
    calls return or raise. *)
Inductive reachable (n fl : Z) : ElevatorSystem -> Prop :=
| reach_init db0 :
    reachable n fl (ElevatorSystem.new n fl db0)
| reach_request s o d :
    reachable n fl s ->
    reachable n fl (final (ElevatorSystem.request_elevator o d s))
| reach_reposition s elevator_id optimal_floor :
    reachable n fl s ->
    reachable n fl
      (final (ElevatorSystem.move_elevator_to_resting_floor
                elevator_id optimal_floor s))
| reach_status s :
    reachable n fl s ->
    reachable n fl (final (ElevatorSystem.get_elevators_status s)).

(** [for o, d in reqs: system.request_elevator(o, d)], stopping at the
    first call that raises. *)
Fixpoint request_all (reqs : list (Z * Z)) (s : ElevatorSystem)
    : option ElevatorSystem :=
  match reqs with
  | [] => Some s
  | (o, d) :: rest =>
      match ElevatorSystem.request_elevator o d s with
      | (Ok _, s', _) => request_all rest s'
      | (Raise _, _, _) => None
      end
  end.

(** Elevator 1 of a 10-floor building, resting at floor 0, with journey 1
    open; the sink holds that journey and that resting period. *)
Definition busy_elevator : Obj :=
  ({| el_id := 1; current_floor := 0; status := idle; total_floors := 10;
      current_resting_id := Some 1; current_journey_id := Some 1 |},
   {| tbl_elevators :=
        [{| er_id := 1; er_current_floor := 0; er_status := idle |}];
      tbl_demands := [];
      tbl_journeys :=
        [{| j_id := 1; j_elevator_id := 1; j_end_time := false;
            j_start_floor := 0; j_end_floor := None;
            j_passenger_count := 1 |}];
      tbl_resting_periods :=
        [{| r_id := 1; r_elevator_id := 1; r_floor := 0;
            r_start_whole_second := false; r_end_time := false |}];
      clock := fun _ => false |}).

(** The fresh 3-by-10 fleet after elevator 2 was sent to floor 5. *)
Definition sys310_at5 : ElevatorSystem :=
  final (ElevatorSystem.move_elevator_to_resting_floor 2 5 sys310).

(** The row of the table [elevators] that reports an elevator. *)
Definition erow (e : Elevator) : ElevatorRow :=
  {| er_id := el_id e; er_current_floor := current_floor e;
     er_status := status e |}.

(** The open resting period a resting elevator has in the sink, opened
    on a whole second or not. *)
Definition rrow (rid : Z) (whole : bool) (e : Elevator) : RestingRow :=
  {| r_id := rid; r_elevator_id := el_id e; r_floor := current_floor e;
     r_start_whole_second := whole; r_end_time := false |}.

(** Keys of a table: distinct and positive. *)
Definition keys_ok (ks : list Z) : Prop :=
  NoDup ks /\ Forall (fun k => 0 < k) ks.

(** The keys of the three tables that grow. *)
Definition sink_keys_ok (d : ElevatorDatabase) : Prop :=
  keys_ok (d_id <$> tbl_demands d) /\
  keys_ok (j_id <$> tbl_journeys d) /\
  keys_ok (r_id <$> tbl_resting_periods d).

(** An elevator and the sink agree: the elevator is idle, its resting
    handle is the key of its one open resting period, which is at its
    floor, and every row of [elevators] with its id reports it. *)
Definition in_sync (x : Obj) : Prop :=
  status x.1 = idle /\
  (exists rid whole, current_resting_id x.1 = Some rid /\
     open_resting_periods x.2 (el_id x.1) = [rrow rid whole x.1]) /\
  (forall r, r ∈ tbl_elevators x.2 -> er_id r = el_id x.1 -> r = erow x.1) /\
  sink_keys_ok x.2.

(** What a method of the elevator with id [id] leaves alone in the sink:
    the open resting periods of the other ids, the ids of the table
    [elevators] and its rows for the other ids. *)
Definition frame (id : Z) (d d' : ElevatorDatabase) : Prop :=
  (forall id', id' ≠ id ->
     open_resting_periods d' id' = open_resting_periods d id') /\
  er_id <$> tbl_elevators d' = er_id <$> tbl_elevators d /\
  (forall k r, tbl_elevators d !! k = Some r -> er_id r ≠ id ->
     tbl_elevators d' !! k = Some r).

(** The system and the sink agree, in every state the system is in
    between two calls, whether they returned or raised: the elevator at
    position [i] has id [i + 1], there are [num_elevators] of them, all
    idle; the table [elevators] lists the fleet, every elevator has exactly
    one open resting period, under its handle and at its floor, and the
    keys of the sink are distinct and positive. *)
Record synced (s : ElevatorSystem) : Prop := {
  synced_ids : forall i e, elevators s !! i = Some e -> el_id e = Z.of_nat i + 1;
  synced_len : length (elevators s) = Z.to_nat (num_elevators s);
  synced_idle : forall i e, elevators s !! i = Some e -> status e = idle;
  synced_table : tbl_elevators (db s) = erow <$> elevators s;
  synced_rest : forall i e, elevators s !! i = Some e ->
    exists rid whole, current_resting_id e = Some rid /\
      open_resting_periods (db s) (el_id e) = [rrow rid whole e];
  synced_keys : sink_keys_ok (db s)
}.

(** The elevator [__init__] creates with id [i], and the system
    [ElevatorSystem(n, fl, db0)] is, on a database whose clock is [c]: [n]
    such elevators, each with the resting period of its own number open at
    floor 0, started at the reading of its turn, and nothing else in the
    sink. *)
Definition fresh_elevator (fl i : Z) : Elevator :=
  {| el_id := i; current_floor := 0; status := idle; total_floors := fl;
     current_resting_id := Some i; current_journey_id := None |}.

Definition fresh_rows (fl : Z) (c : nat -> bool) (ids : list Z)
    : list RestingRow :=
  (fun i => rrow i (c (Z.to_nat (i - 1))) (fresh_elevator fl i)) <$> ids.

Definition fresh_system (n fl : Z) (c : nat -> bool) : ElevatorSystem :=
  {| num_elevators := n; num_floors := fl;
     db := {| tbl_elevators := erow <$> (fresh_elevator fl <$> seqZ 1 n);
              tbl_demands := [];
              tbl_journeys := [];
              tbl_resting_periods := fresh_rows fl c (seqZ 1 n);
              clock := Nat.iter (Z.to_nat n) tick c |};
     elevators := fresh_elevator fl <$> seqZ 1 n |}.

(** The system while [__init__] runs its loop, after the elevators
    [1 .. k] of [n] have been created. *)
Definition building (n fl : Z) (c : nat -> bool) (k : Z) : ElevatorSystem :=
  {| num_elevators := n; num_floors := fl;
     db := {| tbl_elevators := erow <$> (fresh_elevator fl <$> seqZ 1 n);
              tbl_demands := [];
              tbl_journeys := [];
              tbl_resting_periods := fresh_rows fl c (seqZ 1 k);
              clock := Nat.iter (Z.to_nat k) tick c |};
     elevators := fresh_elevator fl <$> seqZ 1 k |}.

Ltac run :=
  unfold mbind, ST_bind, bind, mret, ST_ret, ret, self, assign, modify,
    db_call, db_try, result, final, trace; cbn.

(** A property of every element of an explicit list. *)
Ltac each tac :=
  repeat (apply Forall_cons_2; [tac|]); apply Forall_nil_2.

(** ** Facts about the sink *)

Lemma filter_length_le {A} (p : A -> bool) (l : list A) :
  (length (List.filter p l) <= length l)%nat.
Proof. induction l; simpl; [lia|]. destruct (p a); simpl; lia. Qed.

Lemma filter_none {A} (p : A -> bool) (l : list A) :
  Forall (fun x => p x = false) l -> List.filter p l = [].
Proof. induction 1 as [|x l Hx _ IH]; simpl; [done|]. by rewrite Hx. Qed.

Lemma filter_all {A} (p : A -> bool) (l : list A) :
  Forall (fun x => p x = true) l -> List.filter p l = l.
Proof. induction 1 as [|x l Hx _ IH]; simpl; [done|]. by rewrite Hx, IH. Qed.

(** An UPDATE that closes the rows with key [k]: of the rows that were
    open, the ones with another key are left. *)
Lemma filter_close {A} (key : A -> Z) (isopen : A -> bool) (close : A -> A)
    (k : Z) (l : list A) :
  (forall r, isopen (close r) = false) ->
  List.filter isopen ((fun r => if key r =? k then close r else r) <$> l) =
  List.filter (fun r => negb (key r =? k)) (List.filter isopen l).
Proof.
  intros Hc. induction l as [|r l IH]; [done|].
  rewrite fmap_cons. cbn [List.filter]. rewrite IH.
  destruct (key r =? k) eqn:E.
  - rewrite Hc. destruct (isopen r); [|done]. cbn [List.filter]. by rewrite E.
  - destruct (isopen r); [|done]. cbn [List.filter]. by rewrite E.
Qed.

(** An UPDATE by a key that no row has changes no row. *)
Lemma update_fresh_key {A} (key : A -> Z) (f : A -> A) (k : Z) (l : list A) :
  k ∉ key <$> l ->
  (fun r => if key r =? k then f r else r) <$> l = l.
Proof.
  induction l as [|r l IH]; intros Hk; [done|].
  rewrite fmap_cons in Hk. apply not_elem_of_cons in Hk as [Hr Hl].
  rewrite fmap_cons, IH by done.
  by destruct (Z.eqb_spec (key r) k).
Qed.

(** An UPDATE by key that keeps the keys keeps the column of keys. *)
Lemma update_keeps_keys {A} (key : A -> Z) (f : A -> A) (k : Z) (l : list A) :
  (forall r, key (f r) = key r) ->
  key <$> ((fun r => if key r =? k then f r else r) <$> l) = key <$> l.
Proof.
  intros Hf. rewrite <- list_fmap_compose. apply list_fmap_ext.
  intros _ r _. cbn. by destruct (key r =? k).
Qed.

Lemma find_key_none {A} (key : A -> Z) (k : Z) (l : list A) :
  List.find (fun r => key r =? k) l = None -> k ∉ key <$> l.
Proof.
  intros Hf Hin. apply list_elem_of_fmap in Hin as (r & -> & Hin).
  apply list_elem_of_In in Hin.
  pose proof (List.find_none _ _ Hf r Hin) as Hn. cbn in Hn.
  by rewrite Z.eqb_refl in Hn.
Qed.

Section SinkFacts.

Variable d : ElevatorDatabase.

Lemma lastrowid_pos keys : 0 < Database.lastrowid keys.
Proof.
  unfold Database.lastrowid.
  assert (0 <= foldr Z.max 0 keys) by (induction keys; simpl; lia).
  lia.
Qed.

Lemma lastrowid_fresh keys k : k ∈ keys -> k < Database.lastrowid keys.
Proof.
  unfold Database.lastrowid. induction 1; simpl; lia.
Qed.

(** [end_resting_period] on a period that was not opened on a whole
    second (or on a key no row has) returns after its UPDATE. *)
Lemma end_resting_ok rid :
  whole_second_start d rid = false ->
  Database.end_resting_period rid d =
    (Ok tt, Database.close_resting_period rid d).
Proof.
  unfold whole_second_start, Database.end_resting_period.
  destruct (List.find _ _) as [row|] eqn:Hf.
  - by intros ->.
  - intros _. f_equal. unfold Database.close_resting_period.
    rewrite update_fresh_key by (by apply (find_key_none r_id)).
    by destruct d.
Qed.

(** On a period opened on a whole second it raises and writes nothing. *)
Lemma end_resting_raises rid :
  whole_second_start d rid = true ->
  Database.end_resting_period rid d = (Raise (ValueError TimeDataFormat), d).
Proof.
  unfold whole_second_start, Database.end_resting_period.
  destruct (List.find _ _) as [row|] eqn:Hf; [|done]. by intros ->.
Qed.

(** Closing rows only removes them from the open ones. *)
Lemma open_resting_end rid id :
  open_resting_periods (Database.close_resting_period rid d) id =
  List.filter (fun r => negb (r_id r =? rid)) (open_resting_periods d id).
Proof.
  unfold open_resting_periods; cbn [Database.close_resting_period
    tbl_resting_periods].
  rewrite (filter_close r_id); [done|].
  intros r; cbn. apply andb_false_r.
Qed.

Lemma open_resting_start eid fl id :
  open_resting_periods (Database.start_resting_period eid fl d).2 id =
  open_resting_periods d id ++
    (if eid =? id
     then [{| r_id := Database.lastrowid (r_id <$> tbl_resting_periods d);
              r_elevator_id := eid; r_floor := fl;
              r_start_whole_second := clock d 0%nat;
              r_end_time := false |}]
     else []).
Proof.
  unfold open_resting_periods; simpl.
  rewrite List.filter_app; simpl.
  by destruct (eid =? id).
Qed.

Lemma open_journeys_end jid fl id :
  open_journeys (Database.end_journey jid fl d).2 id =
  List.filter (fun r => negb (j_id r =? jid)) (open_journeys d id).
Proof.
  unfold open_journeys; cbn [Database.end_journey snd tbl_journeys].
  rewrite (filter_close j_id); [done|].
  intros r; cbn. apply andb_false_r.
Qed.

Lemma open_journeys_start eid fl pc id :
  open_journeys (Database.start_journey eid fl pc d).2 id =
  open_journeys d id ++
    (if eid =? id
     then [{| j_id := Database.lastrowid (j_id <$> tbl_journeys d);
              j_elevator_id := eid; j_end_time := false;
              j_start_floor := fl; j_end_floor := None;
              j_passenger_count := pc |}]
     else []).
Proof.
  unfold open_journeys; simpl.
  rewrite List.filter_app; simpl.
  by destruct (eid =? id).
Qed.

(** Where no period starts on a whole second, none is found to. *)
Lemma fractional_never_whole rid :
  fractional d -> whole_second_start d rid = false.
Proof.
  intros [_ H]. unfold whole_second_start.
  destruct (List.find _ _) as [row|] eqn:Hf; [|done].
  apply List.find_some in Hf as [Hin _].
  eapply list.Forall_forall in H; [exact H|]. by apply list_elem_of_In.
Qed.

(** The UPDATE leaves the start times; an INSERT reads the clock. *)
Lemma fractional_close rid :
  fractional (Database.close_resting_period rid d) <-> fractional d.
Proof.
  unfold fractional; cbn [Database.close_resting_period clock
    tbl_resting_periods].
  rewrite Forall_fmap.
  split; intros [Hc Hr]; (split; [done|]);
    (eapply Forall_impl; [|exact Hr]); intros r; cbn;
    by destruct (r_id r =? rid).
Qed.

Lemma fractional_start eid fl :
  fractional (Database.start_resting_period eid fl d).2 <-> fractional d.
Proof.
  unfold fractional; cbn [Database.start_resting_period snd clock
    tbl_resting_periods].
  rewrite Forall_app. split.
  - intros (Hc & Hr & Hn). apply Forall_cons_1 in Hn as [Hn _]. cbn in Hn.
    split; [|done]. intros [|k]; [done|apply (Hc k)].
  - intros [Hc Hr]. split_and!; [intros k; apply Hc|done|].
    apply Forall_cons_2; [apply Hc|apply Forall_nil_2].
Qed.

Lemma fractional_update eid fl st :
  fractional (Database.update_elevator_status eid fl st d).2 <-> fractional d.
Proof. done. Qed.

Lemma fractional_end_journey jid fl :
  fractional (Database.end_journey jid fl d).2 <-> fractional d.
Proof. done. Qed.

End SinkFacts.

(** ** Running the monad *)

#[global] Arguments Database.update_elevator_status : simpl never.
#[global] Arguments Database.record_demand : simpl never.
#[global] Arguments Database.start_journey : simpl never.
#[global] Arguments Database.end_journey : simpl never.
#[global] Arguments Database.start_resting_period : simpl never.
#[global] Arguments Database.end_resting_period : simpl never.
#[global] Arguments Database.close_resting_period : simpl never.

Lemma bind_ok {S A B} (m : ST S A) (k : A -> ST S B) s a s1 t1 :
  m s = (Ok a, s1, t1) ->
  (m ≫= k) s = (result (k a s1), final (k a s1), t1 ++ trace (k a s1)).
Proof.
  intros H. unfold mbind, ST_bind, bind. rewrite H.
  by destruct (k a s1) as [[r s2] t2].
Qed.

Lemma bind_raise {S A B} (m : ST S A) (k : A -> ST S B) s e s1 t1 :
  m s = (Raise e, s1, t1) -> (m ≫= k) s = (Raise e, s1, t1).
Proof. intros H. unfold mbind, ST_bind, bind. by rewrite H. Qed.

Lemma put_same a e s : elevators s !! a = Some e -> put a (e, db s) s = s.
Proof.
  intros H. unfold put; simpl. rewrite list_insert_id by done. by destruct s.
Qed.

Lemma put_put a o o' s : put a o' (put a o s) = put a o' s.
Proof. unfold put; simpl. by rewrite list_insert_insert_eq. Qed.

Lemma put_lookup a o s :
  (a < length (elevators s))%nat -> elevators (put a o s) !! a = Some o.1.
Proof. intros H. unfold put; simpl. by apply list_lookup_insert_eq. Qed.

Lemma put_lookup_ne a j o s :
  a ≠ j -> elevators (put a o s) !! j = elevators s !! j.
Proof. intros H. unfold put; simpl. by apply list_lookup_insert_ne. Qed.

(** Two method calls on the same object run as one sequence on it. *)
Lemma on_elevator_bind {A B} a (m : ST Obj A) (k : A -> ST Obj B) s :
  (on_elevator a m ≫= fun x => on_elevator a (k x)) s =
  on_elevator a (m ≫= k) s.
Proof.
  unfold mbind, ST_bind, bind, on_elevator.
  destruct (elevators s !! a) as [e|] eqn:He; [|done].
  assert (a < length (elevators s))%nat as Hlt by (by eapply lookup_lt_Some).
  destruct (m (e, db s)) as [[[x|ex] o] tr]; cbn; [|done].
  rewrite list_lookup_insert_eq by done.
  destruct o as [e1 d1]; cbn.
  destruct (k x (e1, d1)) as [[r o2] tr2]; cbn.
  rewrite put_put. f_equal. rewrite fmap_app. f_equal.
  apply list_fmap_ext. intros _ o' _. apply put_put.
Qed.

(** A database call of the system is one on any of its elevators. *)
Lemma sys_db_call_on {A} a (f : ElevatorDatabase -> A * ElevatorDatabase) s :
  is_Some (elevators s !! a) ->
  sys_db_call f s = on_elevator a (db_call f) s.
Proof.
  intros [e He]. unfold sys_db_call, on_elevator, db_call. rewrite He. cbn.
  unfold put, with_db; cbn. by rewrite list_insert_id.
Qed.

Lemma on_elevator_ret {A} a (x : A) s :
  is_Some (elevators s !! a) ->
  (mret x : ST ElevatorSystem A) s = on_elevator a (mret x) s.
Proof.
  intros [e He]. unfold on_elevator. rewrite He. cbn.
  by rewrite put_same.
Qed.

Lemma lifts_on {A} a (m : ST Obj A) : lifts a (on_elevator a m) m.
Proof. by intros s _. Qed.

Lemma lifts_deref a : lifts a (deref a) self.
Proof. by intros s _. Qed.

Lemma lifts_db {A} a (f : ElevatorDatabase -> A * ElevatorDatabase) :
  lifts a (sys_db_call f) (db_call f).
Proof. intros s H. by apply sys_db_call_on. Qed.

Lemma lifts_ret {A} a (x : A) : lifts a (mret x) (mret x).
Proof. intros s H. by apply on_elevator_ret. Qed.

Lemma lifts_bind {A B} a (M : ST ElevatorSystem A) (m : ST Obj A)
    (K : A -> ST ElevatorSystem B) (k : A -> ST Obj B) :
  lifts a M m -> (forall x, lifts a (K x) (k x)) ->
  lifts a (M ≫= K) (m ≫= k).
Proof.
  intros HM HK s Hs.
  rewrite <- on_elevator_bind.
  unfold mbind, ST_bind, bind. rewrite (HM s Hs).
  destruct (on_elevator a m s) as [[[x|ex] s1] t1] eqn:E; [|done].
  rewrite HK; [done|].
  unfold on_elevator in E. destruct Hs as [e He]. rewrite He in E.
  injection E as _ <- _.
  rewrite put_lookup; [done|]. by eapply lookup_lt_Some.
Qed.

Lemma valid_request_tests s o d :
  valid_request s o d ->
  (o =? d) = false /\
  negb ((0 <=? o) && (o <? num_floors s) && (0 <=? d) && (d <? num_floors s))
    = false.
Proof.
  intros (Hne & Ho & Hd). split; [by apply Z.eqb_neq|].
  apply negb_false_iff.
  repeat (apply andb_true_iff; split); lia.
Qed.

Lemma request_elevator_serve s o d a w :
  valid_request s o d ->
  ElevatorSystem.find_closest (elevators s) o = (Some a, w) ->
  is_Some (elevators s !! a) ->
  ElevatorSystem.request_elevator o d s = on_elevator a (serve o d w) s.
Proof.
  intros Hv Hf Ha.
  destruct (valid_request_tests _ _ _ Hv) as [T1 T2].
  unfold ElevatorSystem.request_elevator.
  unfold mbind at 1, ST_bind at 1, bind at 1, get at 1.
  assert (forall (K : ST ElevatorSystem (Z * Z)),
            match K s with
            | (r, s2, t2) => (r, s2, [] ++ t2)
            end = K s) as Hk by (intros K; by destruct (K s) as [[??]?]).
  rewrite Hk, T1, T2, Hf.
  clear Hv Hf T1 T2 Hk. revert s Ha. change (lifts a
    (e ← deref a;
     sys_db_call (Database.record_demand o d (el_id e) w);;
     e0 ← deref a;
     on_elevator a (Elevator.start_journey (current_floor e0) 1);;
     pickup_time ← on_elevator a (Elevator.move o);
     travel_time ← on_elevator a (Elevator.move d);
     on_elevator a (Elevator.end_journey d);;
     e1 ← deref a;
     mret (el_id e1, pickup_time + travel_time))
    (serve o d w)).
  unfold serve.
  repeat first
    [ apply lifts_ret | apply lifts_deref | apply lifts_db | apply lifts_on
    | apply lifts_bind; [|intros ?] ].
Qed.

(** ** The selection loop *)

Section Selection.

Variable origin_floor : Z.

Lemma scanned_step seen e acc :
  scanned origin_floor seen acc ->
  scanned origin_floor (seen ++ [e])
    (if dist_ltb (dist origin_floor e) acc.2 then (Some (length seen), Fin (dist origin_floor e))
     else acc).
Proof.
  destruct acc as [[a|] [|m]]; simpl; try done.
  - intros (e0 & Ha & -> & Hmin & Hfirst).
    assert (a < length seen)%nat as Hlt by (by eapply lookup_lt_Some).
    destruct (Z.ltb_spec (dist origin_floor e) (dist origin_floor e0)) as [Hlt'|Hge]; simpl.
    + exists e. split; [by rewrite lookup_app_r, Nat.sub_diag by lia|].
      split; [done|]. split.
      * intros j e' Hj. apply lookup_app_Some in Hj as [Hj|[_ Hj]].
        -- specialize (Hmin _ _ Hj). lia.
        -- apply list_lookup_singleton_Some in Hj as [_ <-]. lia.
      * intros j e' Hjl Hj. rewrite lookup_app_l in Hj by done.
        specialize (Hmin _ _ Hj). lia.
    + exists e0. split; [by rewrite lookup_app_l|].
      split; [done|]. split.
      * intros j e' Hj. apply lookup_app_Some in Hj as [Hj|[_ Hj]].
        -- by eapply Hmin.
        -- by apply list_lookup_singleton_Some in Hj as [_ <-].
      * intros j e' Hjl Hj. rewrite lookup_app_l in Hj by lia.
        by eapply Hfirst.
  - intros ->. simpl. exists e. split; [done|]. split; [done|]. split.
    + intros j e' Hj. apply list_lookup_singleton_Some in Hj as [_ <-]. lia.
    + intros j e' Hjl Hj. apply list_lookup_singleton_Some in Hj as [-> _].
      lia.
Qed.

Lemma scan_scanned els seen acc :
  scanned origin_floor seen acc ->
  scanned origin_floor (seen ++ els)
    (ElevatorSystem.scan els (length seen) origin_floor acc).
Proof.
  revert seen acc. induction els as [|e els IH]; intros seen acc H; simpl.
  - by rewrite app_nil_r.
  - rewrite (assoc_L (++) seen [e] els : seen ++ e :: els = (seen ++ [e]) ++ els).
    replace (S (length seen)) with (length (seen ++ [e]))
      by (rewrite length_app; simpl; lia).
    apply IH. by apply scanned_step.
Qed.

Lemma find_closest_scanned els :
  scanned origin_floor els (ElevatorSystem.find_closest els origin_floor).
Proof. by apply (scan_scanned els []). Qed.

(** On a fleet that is not empty the loop assigns a position. *)
Lemma find_closest_some els :
  els ≠ [] ->
  exists a e,
    ElevatorSystem.find_closest els origin_floor = (Some a, Fin (dist origin_floor e)) /\
    els !! a = Some e /\
    (forall j e', els !! j = Some e' -> dist origin_floor e <= dist origin_floor e') /\
    (forall j e', (j < a)%nat -> els !! j = Some e' -> dist origin_floor e < dist origin_floor e').
Proof.
  intros Hne. pose proof (find_closest_scanned els) as H.
  destruct (ElevatorSystem.find_closest els origin_floor) as [[a|] [|m]];
    simpl in H; try done.
  destruct H as (e & Ha & -> & Hmin & Hfirst). by exists a, e.
Qed.

Lemma find_closest_none els :
  (ElevatorSystem.find_closest els origin_floor).1 = None -> els = [].
Proof.
  intros H. pose proof (find_closest_scanned els) as Hs.
  destruct (ElevatorSystem.find_closest els origin_floor) as [[a|] [|m]];
    simpl in *; done.
Qed.

End Selection.


(** ** The methods of [Elevator], run *)

Lemma bind_run {S A B} (m : ST S A) (k : A -> ST S B) s a s1 t1 r s2 t2 :
  m s = (Ok a, s1, t1) -> k a s1 = (r, s2, t2) ->
  (m ≫= k) s = (r, s2, t1 ++ t2).
Proof. intros H1 H2. unfold mbind, ST_bind, bind. by rewrite H1, H2. Qed.

Lemma run_nil {S A} (x : Outcome A * S * list S) :
  match x with (r, s2, t2) => (r, s2, [] ++ t2) end = x.
Proof. by destruct x as [[??]?]. Qed.

Lemma move_same e d :
  Elevator.move (current_floor e) (e, d) = (Ok 0, (e, d), []).
Proof. unfold Elevator.move. run. by rewrite Z.eqb_refl. Qed.

(** What stops [move], spelled out. *)
Lemma move_blocked_spec dest e d :
  move_blocked dest (e, d) = true <->
  current_floor e ≠ dest /\ status e = idle /\
  exists rid, current_resting_id e = Some rid /\ rid ≠ 0 /\
    whole_second_start d rid = true.
Proof.
  unfold move_blocked; cbn [fst snd].
  rewrite !andb_true_iff, negb_true_iff, Z.eqb_neq.
  assert (status_eqb (status e) idle = true <-> status e = idle) as ->
    by (by destruct (status e)).
  destruct (current_resting_id e) as [rid|].
  - rewrite andb_true_iff, negb_true_iff, Z.eqb_neq. split.
    + intros [[? ?] [? ?]]. split_and!; try done. by exists rid.
    + intros (? & ? & rid' & [= <-] & ? & ?). done.
  - split; [by intros [_ ?]|]. by intros (_ & _ & rid & ? & _).
Qed.

(** A blocked [move] raises the error of [strptime] and does nothing. *)
Lemma move_raises dest e d :
  move_blocked dest (e, d) = true ->
  Elevator.move dest (e, d) = (Raise (ValueError TimeDataFormat), (e, d), []).
Proof.
  intros H. apply move_blocked_spec in H as (Hne & Hs & rid & Hr & Hnz & Hw).
  unfold Elevator.move. run.
  apply Z.eqb_neq in Hne. apply Z.eqb_neq in Hnz.
  rewrite Hne, Hs, Hr. cbn. rewrite Hnz. cbn.
  by rewrite (end_resting_raises _ _ Hw).
Qed.

Lemma move_resting e d dest rid :
  status e = idle -> current_resting_id e = Some rid -> rid ≠ 0 ->
  whole_second_start d rid = false ->
  current_floor e ≠ dest ->
  Elevator.move dest (e, d) =
    (Ok (Z.abs (dest - current_floor e)),
     List.last (move_steps e d dest rid) (e, d),
     move_steps e d dest rid).
Proof.
  intros Hs Hr Hrid Hw Hne. unfold Elevator.move, move_steps. run.
  apply Z.eqb_neq in Hne. apply Z.eqb_neq in Hrid.
  rewrite Hne, Hs, Hr. cbn. rewrite Hrid. cbn.
  by rewrite (end_resting_ok _ _ Hw).
Qed.

(** Whatever the state of the elevator, [move] leaves its id, its number
    of floors, its journey handle and the tables [journeys] and [demands]
    alone.  It either is blocked, or returns the distance and leaves the
    elevator at the destination, idle unless it was already there. *)
Lemma move_general dest (o : Obj) :
  el_id (final (Elevator.move dest o)).1 = el_id o.1 /\
  total_floors (final (Elevator.move dest o)).1 = total_floors o.1 /\
  current_journey_id (final (Elevator.move dest o)).1 = current_journey_id o.1 /\
  tbl_journeys (final (Elevator.move dest o)).2 = tbl_journeys o.2 /\
  tbl_demands (final (Elevator.move dest o)).2 = tbl_demands o.2 /\
  if move_blocked dest o
  then Elevator.move dest o = (Raise (ValueError TimeDataFormat), o, [])
  else result (Elevator.move dest o) = Ok (Z.abs (dest - current_floor o.1)) /\
       current_floor (final (Elevator.move dest o)).1 = dest /\
       status (final (Elevator.move dest o)).1 =
         (if current_floor o.1 =? dest then status o.1 else idle).
Proof.
  destruct o as [e d]. destruct (move_blocked dest (e, d)) eqn:B.
  { by rewrite (move_raises _ _ _ B). }
  unfold move_blocked in B; cbn [fst snd] in B.
  unfold Elevator.move. run.
  destruct (Z.eqb_spec (current_floor e) dest) as [Heq|Hne]; cbn.
  { by rewrite <- Heq, Z.sub_diag. }
  cbn in B.
  destruct (status_eqb (status e) idle); cbn in *; [|done].
  destruct (current_resting_id e) as [rid|]; cbn in *; [|done].
  destruct (rid =? 0); cbn in *; [done|].
  by rewrite (end_resting_ok _ _ B).
Qed.

(** The two outcomes of [move], as its caller sees them. *)
Lemma move_outcome dest (o : Obj) :
  Elevator.move dest o = (Raise (ValueError TimeDataFormat), o, []) \/
  exists x tr,
    Elevator.move dest o = (Ok (Z.abs (dest - current_floor o.1)), x, tr) /\
    current_floor x.1 = dest.
Proof.
  destruct (move_general dest o) as (_ & _ & _ & _ & _ & H).
  destruct (move_blocked dest o); [by left|right].
  destruct H as (R & F & _).
  destruct (Elevator.move dest o) as [[r x] tr].
  unfold result, final in *; cbn [fst snd] in *. subst r. by exists x, tr.
Qed.

Lemma start_journey_run start_floor passenger_count e d :
  Elevator.start_journey start_floor passenger_count (e, d) =
    let new := Database.start_journey (el_id e) start_floor passenger_count d in
    (Ok (Some new.1),
     (set_current_journey_id (Some new.1) e, new.2),
     [(e, new.2); (set_current_journey_id (Some new.1) e, new.2)]).
Proof. done. Qed.

Lemma end_journey_open end_floor e d jid :
  current_journey_id e = Some jid -> jid ≠ 0 ->
  Elevator.end_journey end_floor (e, d) =
    let d' := (Database.end_journey jid end_floor d).2 in
    (Ok tt, (set_current_journey_id None e, d'),
     [(e, d'); (set_current_journey_id None e, d')]).
Proof.
  intros Hj Hne. unfold Elevator.end_journey. run.
  apply Z.eqb_neq in Hne. rewrite Hj. cbn. by rewrite Hne.
Qed.

(** [end_journey] returns, whatever the state; it leaves the elevator
    where it is and the resting periods and the clock as they are. *)
Lemma end_journey_general fl (x : Obj) :
  Elevator.end_journey fl x =
    (Ok tt, final (Elevator.end_journey fl x),
     trace (Elevator.end_journey fl x)) /\
  el_id (final (Elevator.end_journey fl x)).1 = el_id x.1 /\
  current_floor (final (Elevator.end_journey fl x)).1 = current_floor x.1 /\
  status (final (Elevator.end_journey fl x)).1 = status x.1 /\
  tbl_resting_periods (final (Elevator.end_journey fl x)).2
    = tbl_resting_periods x.2 /\
  clock (final (Elevator.end_journey fl x)).2 = clock x.2.
Proof.
  destruct x as [e d]. unfold Elevator.end_journey. run.
  destruct (truthy (current_journey_id e));
    [destruct (current_journey_id e)|]; cbn; done.
Qed.

(** [serve], step by step: the demand is recorded, the journey opened,
    and the first [move] that raises ends the call; [end_journey] is
    reached when both returned. *)
Lemma serve_run o d w e d0 :
  let dd := (Database.record_demand o d (el_id e) w d0).2 in
  let new := Database.start_journey (el_id e) (current_floor e) 1 dd in
  let x1 := (set_current_journey_id (Some new.1) e, new.2) in
  serve o d w (e, d0) =
    match Elevator.move o x1 with
    | (Ok t1, x2, tr1) =>
        match Elevator.move d x2 with
        | (Ok t2, x3, tr2) =>
            (Ok (el_id (final (Elevator.end_journey d x3)).1, t1 + t2),
             final (Elevator.end_journey d x3),
             (e, dd) :: (e, new.2) :: x1 ::
               tr1 ++ tr2 ++ trace (Elevator.end_journey d x3))
        | (Raise ex, x3, tr2) =>
            (Raise ex, x3, (e, dd) :: (e, new.2) :: x1 :: tr1 ++ tr2)
        end
    | (Raise ex, x2, tr1) =>
        (Raise ex, x2, (e, dd) :: (e, new.2) :: x1 :: tr1)
    end.
Proof.
  cbn zeta. unfold serve.
  set (dd := (Database.record_demand o d (el_id e) w d0).2).
  set (new := Database.start_journey (el_id e) (current_floor e) 1 dd).
  set (x1 := (set_current_journey_id (Some new.1) e, new.2)).
  destruct (Elevator.move o x1) as [[[t1|ex] x2] tr1] eqn:E1.
  - destruct (Elevator.move d x2) as [[[t2|ex] x3] tr2] eqn:E2.
    + destruct (end_journey_general d x3) as (E3 & _).
      eapply eq_trans.
      { eapply bind_run; [reflexivity|].
        eapply bind_run; [reflexivity|].
        eapply bind_run; [reflexivity|].
        eapply bind_run; [apply start_journey_run|].
        eapply bind_run; [exact E1|].
        eapply bind_run; [exact E2|].
        eapply bind_run; [exact E3|].
        eapply bind_run; reflexivity. }
      cbn. by rewrite !app_nil_r.
    + eapply eq_trans.
      { eapply bind_run; [reflexivity|].
        eapply bind_run; [reflexivity|].
        eapply bind_run; [reflexivity|].
        eapply bind_run; [apply start_journey_run|].
        eapply bind_run; [exact E1|].
        eapply bind_raise. exact E2. }
      done.
  - eapply eq_trans.
    { eapply bind_run; [reflexivity|].
      eapply bind_run; [reflexivity|].
      eapply bind_run; [reflexivity|].
      eapply bind_run; [apply start_journey_run|].
      eapply bind_raise. exact E1. }
    done.
Qed.

(** ** The sink along the steps of a method *)

(** Methods other than the two that touch a table leave its open rows. *)
Lemma open_resting_update eid fl st d id :
  open_resting_periods (Database.update_elevator_status eid fl st d).2 id =
  open_resting_periods d id.
Proof. done. Qed.

Lemma open_journeys_update eid fl st d id :
  open_journeys (Database.update_elevator_status eid fl st d).2 id =
  open_journeys d id.
Proof. done. Qed.

Lemma open_journeys_end_resting rid d id :
  open_journeys (Database.close_resting_period rid d) id = open_journeys d id.
Proof. done. Qed.

Lemma open_journeys_start_resting eid fl d id :
  open_journeys (Database.start_resting_period eid fl d).2 id =
  open_journeys d id.
Proof. done. Qed.

Lemma at_most_update eid fl st d :
  at_most_one_open d ->
  at_most_one_open (Database.update_elevator_status eid fl st d).2.
Proof. intros H id. apply (H id). Qed.

Lemma at_most_record_demand o dst eid w d :
  at_most_one_open d ->
  at_most_one_open (Database.record_demand o dst eid w d).2.
Proof. intros H id. apply (H id). Qed.

Lemma at_most_end_resting rid d :
  at_most_one_open d -> at_most_one_open (Database.close_resting_period rid d).
Proof.
  intros H id. destruct (H id) as [Hj Hr]. split; [done|].
  rewrite open_resting_end.
  etrans; [apply filter_length_le|done].
Qed.

Lemma at_most_end_journey jid fl d :
  at_most_one_open d -> at_most_one_open (Database.end_journey jid fl d).2.
Proof.
  intros H id. destruct (H id) as [Hj Hr]. split; [|done].
  rewrite open_journeys_end.
  etrans; [apply filter_length_le|done].
Qed.

Lemma at_most_start_resting eid fl d :
  at_most_one_open d -> open_resting_periods d eid = [] ->
  at_most_one_open (Database.start_resting_period eid fl d).2.
Proof.
  intros H H0 id. destruct (H id) as [Hj Hr]. split; [done|].
  rewrite open_resting_start.
  destruct (Z.eqb_spec eid id) as [<-|Hne].
  - rewrite H0. simpl. lia.
  - by rewrite app_nil_r.
Qed.

Lemma at_most_start_journey eid fl pc d :
  at_most_one_open d -> open_journeys d eid = [] ->
  at_most_one_open (Database.start_journey eid fl pc d).2.
Proof.
  intros H H0 id. destruct (H id) as [Hj Hr]. split; [|done].
  rewrite open_journeys_start.
  destruct (Z.eqb_spec eid id) as [<-|Hne].
  - rewrite H0. simpl. lia.
  - by rewrite app_nil_r.
Qed.

Lemma filter_key_none rid l :
  Forall (fun row => r_id row = rid) l ->
  List.filter (fun r => negb (r_id r =? rid)) l = [].
Proof.
  induction 1 as [|row l Hrow _ IH]; simpl; [done|].
  by rewrite Hrow, Z.eqb_refl.
Qed.

Lemma Forall_filter_keep {A} (P : A -> Prop) (p : A -> bool) l :
  Forall P l -> Forall P (List.filter p l).
Proof.
  induction 1 as [|x l Hx _ IH]; simpl; [done|].
  destruct (p x); [by constructor|done].
Qed.

Section MoveSteps.

Variables (e : Elevator) (d : ElevatorDatabase) (dest rid : Z).
Hypothesis Hidle : status e = idle.
Hypothesis Hrid : current_resting_id e = Some rid.
Hypothesis Hnz : rid ≠ 0.
Hypothesis Hrows :
  Forall (fun row => r_id row = rid) (open_resting_periods d (el_id e)).
Hypothesis Hone : at_most_one_open d.

Lemma move_steps_at_most :
  Forall (fun o : Obj => at_most_one_open o.2) (move_steps e d dest rid).
Proof using All.
  unfold move_steps.
  set (dir := if dest >? current_floor e then moving_up else moving_down).
  set (d1 := Database.close_resting_period rid d).
  set (d2 := (Database.update_elevator_status _ _ dir d1).2).
  set (d3 := (Database.update_elevator_status _ _ idle d2).2).
  assert (at_most_one_open d1) as H1 by (by apply at_most_end_resting).
  assert (at_most_one_open d2) as H2 by (by apply at_most_update).
  assert (at_most_one_open d3) as H3 by (by apply at_most_update).
  assert (at_most_one_open
            (Database.start_resting_period (el_id e) dest d3).2) as H4.
  { apply at_most_start_resting; [done|].
    unfold d3, d2. rewrite !open_resting_update. unfold d1.
    rewrite open_resting_end. by apply filter_key_none. }
  each assumption.
Qed.

Lemma move_steps_arrived :
  resting_ok (arrived_at e d dest rid).1 (arrived_at e d dest rid).2 /\
  at_most_one_open (arrived_at e d dest rid).2 /\
  el_id (arrived_at e d dest rid).1 = el_id e /\
  current_floor (arrived_at e d dest rid).1 = dest /\
  total_floors (arrived_at e d dest rid).1 = total_floors e /\
  current_journey_id (arrived_at e d dest rid).1 = current_journey_id e.
Proof using All.
  split; [|split; [|done]].
  - split; [done|]. eexists. split; [done|]. split.
    { pose proof (lastrowid_pos
        (r_id <$> tbl_resting_periods
           (Database.update_elevator_status (el_id e) dest idle
             (Database.update_elevator_status (el_id e) (current_floor e)
                (if dest >? current_floor e then moving_up else moving_down)
                (Database.close_resting_period rid d)).2).2)) as Hp.
      unfold arrived_at, move_steps; cbn.
      unfold Database.start_resting_period at 1; cbn. lia. }
    unfold arrived_at, move_steps. cbn [List.last fst snd el_id
      set_current_resting_id set_status set_current_floor].
    rewrite open_resting_start, !open_resting_update, open_resting_end.
    rewrite filter_key_none by done. rewrite Z.eqb_refl. cbn.
    each done.
  - pose proof move_steps_at_most as H.
    by apply (Forall_lookup_1 _ _ 8%nat (arrived_at e d dest rid)) in H.
Qed.

(** The other tables, and the rows of the other elevators. *)
Lemma move_steps_frame :
  Forall (fun o : Obj =>
            tbl_journeys o.2 = tbl_journeys d /\
            tbl_demands o.2 = tbl_demands d /\
            el_id o.1 = el_id e /\
            current_journey_id o.1 = current_journey_id e /\
            forall id, id ≠ el_id e ->
              open_resting_periods o.2 id =
              List.filter (fun r => negb (r_id r =? rid))
                (open_resting_periods d id))
    (move_steps e d dest rid).
Proof using All.
  unfold move_steps.
  each ltac:(do 4 (split; [done|]); intros id Hid; cbn [fst snd];
    rewrite ?open_resting_start, ?open_resting_update, ?open_resting_end;
    try done;
    (destruct (Z.eqb_spec (el_id e) id); [congruence|by rewrite app_nil_r])).
Qed.

(** In the state [move] ends in a period starts on a whole second exactly
    when one did before, or the clock now says so. *)
Lemma move_steps_fractional :
  fractional (arrived_at e d dest rid).2 <-> fractional d.
Proof using Type.
  unfold arrived_at, move_steps. cbn [List.last snd].
  by rewrite fractional_start, !fractional_update, fractional_close.
Qed.

End MoveSteps.

Lemma fractional_not_blocked dest e d :
  fractional d -> move_blocked dest (e, d) = false.
Proof.
  intros Hf. destruct (move_blocked dest (e, d)) eqn:B; [|done].
  apply move_blocked_spec in B as (_ & _ & rid & _ & _ & W).
  by rewrite (fractional_never_whole d rid Hf) in W.
Qed.

(** In any state, [move] ends with a period opened on a whole second
    exactly when it began with one. *)
Lemma move_fractional dest (x : Obj) :
  fractional (final (Elevator.move dest x)).2 <-> fractional x.2.
Proof.
  destruct x as [e d]. destruct (move_blocked dest (e, d)) eqn:B.
  { by rewrite (move_raises _ _ _ B). }
  unfold move_blocked in B; cbn [fst snd] in B.
  unfold Elevator.move. run.
  destruct (Z.eqb_spec (current_floor e) dest) as [Heq|Hne]; cbn; [done|].
  cbn in B.
  destruct (status_eqb (status e) idle); cbn in *.
  - destruct (current_resting_id e) as [rid|]; cbn in *.
    + destruct (rid =? 0); cbn in *.
      * by rewrite fractional_start, !fractional_update.
      * rewrite (end_resting_ok _ _ B). cbn.
        by rewrite fractional_start, !fractional_update, fractional_close.
    + by rewrite fractional_start, !fractional_update.
  - by rewrite fractional_start, !fractional_update.
Qed.

(** [move] on a resting elevator that is not blocked, in one statement
    for both cases. *)
Lemma move_spec e d dest :
  resting_ok e d -> at_most_one_open d -> move_blocked dest (e, d) = false ->
  exists e' d' tr,
    Elevator.move dest (e, d) =
      (Ok (Z.abs (dest - current_floor e)), (e', d'), tr) /\
    resting_ok e' d' /\ at_most_one_open d' /\
    el_id e' = el_id e /\ current_floor e' = dest /\
    total_floors e' = total_floors e /\
    current_journey_id e' = current_journey_id e /\
    tbl_journeys d' = tbl_journeys d /\ tbl_demands d' = tbl_demands d /\
    others_kept e d d' /\
    (fractional d' <-> fractional d) /\
    Forall (fun o : Obj => at_most_one_open o.2) tr.
Proof.
  intros Hr Hone Hfree.
  destruct (Z.eq_dec (current_floor e) dest) as [Heq|Hne].
  - exists e, d, []. rewrite <- Heq, move_same, Z.sub_diag.
    split_and!; try done. by intros id _ P HP.
  - pose proof Hr as (Hidle & rid & Hrid & Hnz & Hrows).
    assert (whole_second_start d rid = false) as Hw.
    { destruct (whole_second_start d rid) eqn:W; [|done].
      assert (move_blocked dest (e, d) = true) as B; [|congruence].
      apply move_blocked_spec. split_and!; try done. by exists rid. }
    destruct (move_steps_arrived e d dest rid Hidle Hrid Hnz Hrows Hone)
      as (Hr' & Hone' & Hid & Hfl & Htf & Hj).
    pose proof (move_steps_frame e d dest rid Hidle Hrid Hnz Hrows Hone)
      as Hframe.
    pose proof (Forall_lookup_1 _ _ 8%nat _ Hframe eq_refl)
      as (Htj & Htd & _ & _ & Hothers).
    eexists _, _, _. split; [by apply (move_resting e d dest rid)|].
    split_and!; try done.
    + intros id Hne' P HP. cbn in Hothers. cbn. rewrite Hothers by done.
      by apply Forall_filter_keep.
    + apply (move_steps_fractional e d dest rid).
    + by apply (move_steps_at_most e d dest rid).
Qed.

Lemma journeys_closed_none d id : journeys_closed d -> open_journeys d id = [].
Proof.
  intros H. unfold open_journeys. apply filter_none.
  induction H as [|r l Hr _ IH]; [constructor|].
  constructor; [by rewrite Hr, andb_false_r|done].
Qed.

(** Closing the journey that was opened last closes them all. *)
Lemma journeys_closed_end eid fl pc fl' d :
  journeys_closed d ->
  journeys_closed
    (Database.end_journey (Database.start_journey eid fl pc d).1 fl'
       (Database.start_journey eid fl pc d).2).2.
Proof.
  intros H. unfold journeys_closed, Database.end_journey,
    Database.start_journey. cbn. rewrite fmap_app. cbn.
  rewrite Z.eqb_refl. apply Forall_app. split; [|by constructor].
  generalize (Database.lastrowid (j_id <$> tbl_journeys d)). intros k.
  induction H as [|r l Hr _ IH]; cbn; [constructor|].
  constructor; [by destruct (_ =? _)|done].
Qed.

(** What [serve] does to an elevator at rest: it is stopped by a resting
    period opened on a whole second, or it returns. *)
Lemma serve_spec e d o dst w :
  o ≠ dst -> at_rest e d -> journeys_closed d -> at_most_one_open d ->
  (exists x tr,
     serve o dst w (e, d) = (Raise (ValueError TimeDataFormat), x, tr) /\
     ~ fractional d) \/
  exists id' t' e' d' tr,
    serve o dst w (e, d) = (Ok (id', t'), (e', d'), tr) /\
    id' = el_id e /\
    t' = Z.abs (current_floor e - o) + Z.abs (o - dst) /\
    at_rest e' d' /\ journeys_closed d' /\ at_most_one_open d' /\
    el_id e' = el_id e /\ current_floor e' = dst /\
    total_floors e' = total_floors e /\
    tbl_demands d' = tbl_demands d ++
      [{| d_id := Database.lastrowid (d_id <$> tbl_demands d);
          d_origin_floor := o; d_destination_floor := dst;
          d_elevator_id := el_id e; d_wait_time_seconds := w |}] /\
    length (tbl_journeys d') = S (length (tbl_journeys d)) /\
    others_kept e d d' /\
    (fractional d' <-> fractional d) /\
    Forall (fun x : Obj => at_most_one_open x.2) tr.
Proof.
  intros Hne [Hr Hj] Hclosed Hone.
  pose proof (serve_run o dst w e d) as Hrun. cbn zeta in Hrun.
  rewrite Hrun. clear Hrun.
  set (d0 := (Database.record_demand o dst (el_id e) w d).2).
  set (new := Database.start_journey (el_id e) (current_floor e) 1 d0).
  set (ej := set_current_journey_id (Some new.1) e).
  assert (at_most_one_open d0) as Hone0 by (by apply at_most_record_demand).
  assert (at_most_one_open new.2) as Honej.
  { apply at_most_start_journey; [done|]. by apply journeys_closed_none. }
  assert (new.1 ≠ 0) as Hnew.
  { pose proof (lastrowid_pos (j_id <$> tbl_journeys d0)).
    unfold new, Database.start_journey; cbn. lia. }
  destruct (move_blocked o (ej, new.2)) eqn:B1.
  { left. rewrite (move_raises _ _ _ B1). eexists _, _. split; [done|].
    intros Hf. apply move_blocked_spec in B1 as (_ & _ & rid & _ & _ & W).
    by rewrite (fractional_never_whole new.2 rid Hf) in W. }
  destruct (move_spec ej new.2 o) as
    (e1 & d1 & tr1 & Hm1 & Hr1 & Hone1 & Hid1 & Hfl1 & Htf1 & Hj1 & Htj1 &
     Htd1 & Hk1 & Hf1 & Htr1); [done..|].
  rewrite Hm1.
  destruct (move_blocked dst (e1, d1)) eqn:B2.
  { left. rewrite (move_raises _ _ _ B2). eexists _, _. split; [done|].
    intros Hf. apply move_blocked_spec in B2 as (_ & _ & rid & _ & _ & W).
    rewrite (fractional_never_whole d1 rid) in W; [done|]. by apply Hf1. }
  destruct (move_spec e1 d1 dst) as
    (e2 & d2 & tr2 & Hm2 & Hr2 & Hone2 & Hid2 & Hfl2 & Htf2 & Hj2 & Htj2 &
     Htd2 & Hk2 & Hf2 & Htr2); [done..|].
  rewrite Hm2.
  rewrite (end_journey_open dst e2 d2 new.1); [|by rewrite Hj2, Hj1|done].
  cbn zeta. unfold final, trace; cbn [fst snd].
  set (d3 := (Database.end_journey new.1 dst d2).2).
  assert (at_most_one_open d3) as Hone3 by (by apply at_most_end_journey).
  right. eexists _, _, (set_current_journey_id None e2), d3, _.
  split; [reflexivity|].
  split_and!.
  - cbn. by rewrite Hid2, Hid1.
  - rewrite Hfl1. cbn. lia.
  - split; [|done]. destruct Hr2 as (Hs2 & rid & ? & ? & ?).
    split; [done|]. by exists rid.
  - unfold journeys_closed, d3, Database.end_journey; cbn.
    rewrite Htj2, Htj1.
    by apply (journeys_closed_end (el_id e) (current_floor e) 1 dst d0).
  - done.
  - cbn. by rewrite Hid2, Hid1.
  - done.
  - cbn. by rewrite Htf2, Htf1.
  - unfold d3, Database.end_journey; cbn. by rewrite Htd2, Htd1.
  - unfold d3, Database.end_journey; cbn. rewrite Htj2, Htj1.
    rewrite length_fmap. unfold new, Database.start_journey; cbn.
    rewrite length_app; cbn.
    change (tbl_journeys d0) with (tbl_journeys d). lia.
  - intros id Hid P HP. apply (Hk2 id); [by rewrite Hid1|].
    by apply (Hk1 id).
  - unfold d3. rewrite fractional_end_journey, Hf2, Hf1. done.
  - repeat first [apply Forall_app_2 | apply Forall_cons_2 | apply Forall_nil_2];
      done.
Qed.

(** ** The system between two calls *)

Lemma wf_put s a e e' d' :
  wf s -> elevators s !! a = Some e ->
  at_rest e' d' -> journeys_closed d' -> at_most_one_open d' ->
  el_id e' = el_id e -> others_kept e (db s) d' ->
  wf (put a (e', d') s).
Proof.
  intros [Hids Hlen Hrest Hcl Hone] Ha Hr' Hcl' Hone' Hid Hk.
  assert (a < length (elevators s))%nat as Hlt by (by eapply lookup_lt_Some).
  split; cbn; try done.
  - intros i x Hi. destruct (decide (a = i)) as [<-|Hai].
    + rewrite list_lookup_insert_eq in Hi by done. injection Hi as <-.
      rewrite Hid. by apply Hids.
    + rewrite list_lookup_insert_ne in Hi by done. by apply Hids.
  - by rewrite length_insert.
  - intros i x Hi. destruct (decide (a = i)) as [<-|Hai].
    + rewrite list_lookup_insert_eq in Hi by done. by injection Hi as <-.
    + rewrite list_lookup_insert_ne in Hi by done.
      destruct (Hrest _ _ Hi) as [(Hs & rid & Hrid & Hnz & Hrows) Hj].
      split; [|done]. split; [done|]. exists rid. split_and!; try done.
      apply Hk; [|done].
      rewrite (Hids _ _ Hi), (Hids _ _ Ha). lia.
Qed.

Lemma on_elevator_run {A} a (m : ST Obj A) s e r x tr :
  elevators s !! a = Some e -> m (e, db s) = (r, x, tr) ->
  on_elevator a m s = (r, put a x s, (fun o' => put a o' s) <$> tr).
Proof. intros H E. unfold on_elevator. by rewrite H, E. Qed.

Lemma final_on_elevator {A} a (m : ST Obj A) s e :
  elevators s !! a = Some e ->
  final (on_elevator a m s) = put a (final (m (e, db s))) s.
Proof. intros H. unfold on_elevator. by rewrite H. Qed.

Lemma put_with_db a e d s :
  elevators s !! a = Some e -> put a (e, d) s = with_db d s.
Proof.
  intros H. unfold put, with_db; cbn. by rewrite list_insert_id.
Qed.

(** [request_elevator] on a valid request, from a well-formed system with
    at least one elevator: the nearest elevator is assigned, and the call
    is stopped by a resting period opened on a whole second, or it
    returns. *)
Lemma request_elevator_spec s o d :
  wf s -> valid_request s o d -> elevators s ≠ [] ->
  exists a e,
    elevators s !! a = Some e /\
    ElevatorSystem.find_closest (elevators s) o =
      (Some a, Fin (Z.abs (current_floor e - o))) /\
    ((exists s' tr,
        ElevatorSystem.request_elevator o d s =
          (Raise (ValueError TimeDataFormat), s', tr) /\
        ~ fractional (db s)) \/
     exists e' d' tr,
       ElevatorSystem.request_elevator o d s =
         (Ok (el_id e, Z.abs (current_floor e - o) + Z.abs (o - d)),
          put a (e', d') s, tr) /\
       wf (put a (e', d') s) /\
       el_id e' = el_id e /\ current_floor e' = d /\ status e' = idle /\
       tbl_demands d' = tbl_demands (db s) ++
         [{| d_id := Database.lastrowid (d_id <$> tbl_demands (db s));
             d_origin_floor := o; d_destination_floor := d;
             d_elevator_id := el_id e;
             d_wait_time_seconds := Fin (Z.abs (current_floor e - o)) |}] /\
       length (tbl_journeys d') = S (length (tbl_journeys (db s))) /\
       (fractional d' <-> fractional (db s)) /\
       Forall (fun x => at_most_one_open (db x)) tr).
Proof.
  intros Hwf Hv Hne.
  destruct (find_closest_some o _ Hne) as (a & e & Hf & Ha & _).
  exists a, e. split; [done|]. split; [done|].
  rewrite (request_elevator_serve s o d a _ Hv Hf) by done.
  destruct (serve_spec e (db s) o d (Fin (dist o e)))
    as [(x & tr & Hserve & Hnf)
       |(id' & t' & e' & d' & tr & Hserve & -> & -> & Hr' & Hcl' & Hone' &
         Hid & Hfl & _ & Hdem & Hjl & Hk & Hfr & Htr)].
  { apply Hv. } { by eapply wf_rest. } { by apply wf_closed. }
  { by apply wf_one. }
  - left. eexists _, _.
    split; [exact (on_elevator_run a _ s e _ _ _ Ha Hserve)|done].
  - right. exists e', d', ((fun o' => put a o' s) <$> tr).
    split_and!; try done.
    + exact (on_elevator_run a _ s e _ _ _ Ha Hserve).
    + by eapply wf_put.
    + by destruct Hr' as [[? _] _].
    + apply Forall_fmap. by eapply Forall_impl; [|exact Htr].
Qed.

(** ** Rejected requests *)

Lemma request_elevator_same s o :
  ElevatorSystem.request_elevator o o s = (Raise (ValueError SameFloors), s, []).
Proof.
  unfold ElevatorSystem.request_elevator. run. by rewrite Z.eqb_refl.
Qed.

Lemma request_elevator_out_of_range s o d :
  o ≠ d -> ~ (0 <= o < num_floors s /\ 0 <= d < num_floors s) ->
  ElevatorSystem.request_elevator o d s =
    (Raise (ValueError (FloorsBetween (num_floors s - 1))), s, []).
Proof.
  intros Hne Hr. unfold ElevatorSystem.request_elevator. run.
  apply Z.eqb_neq in Hne. rewrite Hne.
  destruct (negb _) eqn:E; [done|].
  apply negb_false_iff in E. exfalso. apply Hr.
  repeat (apply andb_true_iff in E as [E ?]). lia.
Qed.

Lemma request_elevator_invalid s o d :
  ~ valid_request s o d ->
  exists msg,
    ElevatorSystem.request_elevator o d s = (Raise (ValueError msg), s, []) /\
    request_error (ValueError msg) = true.
Proof.
  intros Hv. destruct (Z.eq_dec o d) as [->|Hne].
  - eexists. split; [apply request_elevator_same|done].
  - exists (FloorsBetween (num_floors s - 1)). split; [|done].
    apply request_elevator_out_of_range; [done|].
    intros [? ?]. by apply Hv.
Qed.

Lemma valid_request_dec s o d : {valid_request s o d} + {~ valid_request s o d}.
Proof.
  unfold valid_request.
  destruct (Z.eq_dec o d); [right; tauto|].
  destruct (Z_le_dec 0 o); [|right; lia].
  destruct (Z_lt_dec o (num_floors s)); [|right; lia].
  destruct (Z_le_dec 0 d); [|right; lia].
  destruct (Z_lt_dec d (num_floors s)); [|right; lia].
  left. lia.
Qed.

(** With no elevator to assign, [assigned_elevator.id] fails. *)
Lemma request_elevator_empty s o d :
  valid_request s o d -> elevators s = [] ->
  ElevatorSystem.request_elevator o d s = (Raise AttributeError, s, []).
Proof.
  intros Hv He. destruct (valid_request_tests _ _ _ Hv) as [T1 T2].
  unfold ElevatorSystem.request_elevator. run. by rewrite T1, T2, He.
Qed.

(** [serve] in any state of the elevator: the first thing it does is to
    record the demand under the id of the elevator it runs on; it then
    returns that id, or raises the error of [strptime]. *)
Lemma serve_outcome o d w (x : Obj) :
  exists r x' tr,
    serve o d w x =
      (r, x', (x.1, (Database.record_demand o d (el_id x.1) w x.2).2) :: tr) /\
    (r = Raise (ValueError TimeDataFormat) \/ exists t, r = Ok (el_id x.1, t)).
Proof.
  destruct x as [e d0].
  pose proof (serve_run o d w e d0) as Hrun. cbn zeta in Hrun.
  set (x1 := (set_current_journey_id _ e, _)) in Hrun.
  destruct (move_general o x1) as (I1 & _ & _ & _ & _ & O1).
  destruct (move_blocked o x1).
  { rewrite O1 in Hrun. eexists _, _, _. split; [exact Hrun|by left]. }
  destruct O1 as (R1 & _).
  destruct (Elevator.move o x1) as [[r1 x2] tr1].
  unfold result, final in R1, I1; cbn [fst snd] in R1, I1. subst r1.
  destruct (move_general d x2) as (I2 & _ & _ & _ & _ & O2).
  destruct (move_blocked d x2).
  { rewrite O2 in Hrun. eexists _, _, _. split; [exact Hrun|by left]. }
  destruct O2 as (R2 & _).
  destruct (Elevator.move d x2) as [[r2 x3] tr2].
  unfold result, final in R2, I2; cbn [fst snd] in R2, I2. subst r2.
  destruct (end_journey_general d x3) as (_ & I3 & _).
  eexists _, _, _. split; [exact Hrun|]. right.
  rewrite I3, I2, I1. by eexists.
Qed.

(** A valid request on a fleet that is not empty, in any state. *)
Lemma request_elevator_outcome s o d :
  valid_request s o d -> elevators s ≠ [] ->
  exists a e r s' tr,
    elevators s !! a = Some e /\
    ElevatorSystem.find_closest (elevators s) o =
      (Some a, Fin (Z.abs (current_floor e - o))) /\
    (forall j e', elevators s !! j = Some e' ->
       Z.abs (current_floor e - o) <= Z.abs (current_floor e' - o)) /\
    (forall j e', (j < a)%nat -> elevators s !! j = Some e' ->
       Z.abs (current_floor e - o) < Z.abs (current_floor e' - o)) /\
    ElevatorSystem.request_elevator o d s =
      (r, s',
       with_db (Database.record_demand o d (el_id e)
                  (Fin (Z.abs (current_floor e - o))) (db s)).2 s :: tr) /\
    (r = Raise (ValueError TimeDataFormat) \/ exists t, r = Ok (el_id e, t)).
Proof.
  intros Hv Hne.
  destruct (find_closest_some o _ Hne) as (a & e & Hf & Ha & Hmin & Hfirst).
  destruct (serve_outcome o d (Fin (dist o e)) (e, db s))
    as (r & x' & tr & Hrun & Hr).
  exists a, e, r, (put a x' s), ((fun o' => put a o' s) <$> tr).
  split_and!; try done.
  rewrite (request_elevator_serve s o d a _ Hv Hf) by done.
  rewrite (on_elevator_run a _ s e _ _ _ Ha Hrun).
  rewrite fmap_cons. cbn [fst snd]. by rewrite (put_with_db a e _ s Ha).
Qed.

(** ** Repositioning *)

Lemma deref_some a e s :
  elevators s !! a = Some e -> deref a s = (Ok e, s, []).
Proof.
  intros H. unfold deref, on_elevator, self. rewrite H. cbn.
  by rewrite put_same.
Qed.

Lemma matches_spec elevator_id e :
  matches elevator_id e = true <-> el_id e = elevator_id /\ status e = idle.
Proof.
  unfold matches. rewrite andb_true_iff, Z.eqb_eq.
  destruct (status e); cbn; intuition congruence.
Qed.

Lemma resting_loop_none s elevator_id fl n i :
  (i + n)%nat = length (elevators s) ->
  (forall j e, (i <= j)%nat -> elevators s !! j = Some e ->
     matches elevator_id e = false) ->
  ElevatorSystem.resting_loop n i elevator_id fl s = (Ok false, s, []).
Proof.
  revert i. induction n as [|n IH]; intros i Hlen Hno; [done|].
  destruct (lookup_lt_is_Some_2 (elevators s) i) as [e He]; [lia|].
  cbn [ElevatorSystem.resting_loop].
  erewrite bind_run; [|by apply deref_some|]; [done|].
  fold (matches elevator_id e). rewrite (Hno i e) by done.
  apply IH; [lia|]. intros j e' Hj. apply Hno. lia.
Qed.

Lemma resting_loop_first s elevator_id fl n i j e :
  (i + n)%nat = length (elevators s) -> (i <= j)%nat ->
  elevators s !! j = Some e -> matches elevator_id e = true ->
  (forall k e', (i <= k < j)%nat -> elevators s !! k = Some e' ->
     matches elevator_id e' = false) ->
  ElevatorSystem.resting_loop n i elevator_id fl s =
    (on_elevator j (Elevator.move_to_optimal_resting_floor fl);; mret true) s.
Proof.
  revert i. induction n as [|n IH]; intros i Hlen Hij Hj Hm Hno.
  { apply lookup_lt_Some in Hj. lia. }
  destruct (lookup_lt_is_Some_2 (elevators s) i) as [ei Hei]; [lia|].
  cbn [ElevatorSystem.resting_loop].
  unfold mbind at 1, ST_bind at 1, bind at 1.
  rewrite (deref_some _ _ _ Hei). fold (matches elevator_id ei).
  destruct (decide (i = j)) as [->|Hne].
  - rewrite Hj in Hei. injection Hei as <-. rewrite Hm.
    apply run_nil.
  - rewrite (Hno i ei) by (done || lia).
    rewrite (IH (S i)); [apply run_nil|lia|lia|done..|].
    intros k e' Hk. apply Hno. lia.
Qed.

(** On an idle elevator [move_to_optimal_resting_floor] is [move], with
    the travel time turned into a boolean. *)
Lemma move_to_optimal_idle fl e d :
  status e = idle ->
  Elevator.move_to_optimal_resting_floor fl (e, d) =
    (match result (Elevator.move fl (e, d)) with
     | Ok travel_time => Ok (travel_time >? 0)
     | Raise ex => Raise ex
     end,
     final (Elevator.move fl (e, d)), trace (Elevator.move fl (e, d))).
Proof.
  intros Hs. unfold Elevator.move_to_optimal_resting_floor.
  unfold mbind, ST_bind, bind, self. cbn -[Elevator.move].
  rewrite Hs. cbn -[Elevator.move].
  destruct (Elevator.move fl (e, d)) as [[[t|ex] x] tr]; cbn; [|done].
  by rewrite app_nil_r.
Qed.

(** [move_elevator_to_resting_floor] when an idle elevator has the id:
    the first one is moved, and true is returned if [move] returns. *)
Lemma reposition_found s elevator_id fl j e :
  0 <= fl < num_floors s ->
  elevators s !! j = Some e -> matches elevator_id e = true ->
  (forall k e', (k < j)%nat -> elevators s !! k = Some e' ->
     matches elevator_id e' = false) ->
  ElevatorSystem.move_elevator_to_resting_floor elevator_id fl s =
    (match result (Elevator.move fl (e, db s)) with
     | Ok _ => Ok true
     | Raise ex => Raise ex
     end,
     put j (final (Elevator.move fl (e, db s))) s,
     (fun o' => put j o' s) <$> trace (Elevator.move fl (e, db s))).
Proof.
  intros Hfl Hj Hm Hno.
  unfold ElevatorSystem.move_elevator_to_resting_floor.
  unfold mbind at 1, ST_bind at 1, bind at 1, get at 1.
  replace (negb _) with false
    by (symmetry; apply negb_false_iff, andb_true_iff; lia).
  rewrite (resting_loop_first s elevator_id fl _ 0 j e); try done; try lia.
  2:{ intros k e' Hk. apply Hno. lia. }
  apply matches_spec in Hm as [_ Hidle]. rewrite run_nil.
  unfold mbind, ST_bind, bind, on_elevator. rewrite Hj. cbn zeta.
  rewrite (move_to_optimal_idle _ _ _ Hidle).
  unfold result, final, trace; cbn [fst snd].
  destruct (Elevator.move fl (e, db s)) as [[[t|ex] x] tr]; cbn; [|done].
  by rewrite app_nil_r.
Qed.

Lemma reposition_not_found s elevator_id fl :
  0 <= fl < num_floors s ->
  (forall j e, elevators s !! j = Some e -> matches elevator_id e = false) ->
  ElevatorSystem.move_elevator_to_resting_floor elevator_id fl s =
    (Ok false, s, []).
Proof.
  intros Hfl Hno.
  unfold ElevatorSystem.move_elevator_to_resting_floor.
  unfold mbind at 1, ST_bind at 1, bind at 1, get at 1.
  replace (negb _) with false
    by (symmetry; apply negb_false_iff, andb_true_iff; lia).
  rewrite resting_loop_none; [done|done|]. intros j e _. apply Hno.
Qed.

Lemma reposition_out_of_range s elevator_id fl :
  ~ (0 <= fl < num_floors s) ->
  ElevatorSystem.move_elevator_to_resting_floor elevator_id fl s =
    (Raise (ValueError (FloorBetween (num_floors s - 1))), s, []).
Proof.
  intros Hfl.
  unfold ElevatorSystem.move_elevator_to_resting_floor.
  unfold mbind at 1, ST_bind at 1, bind at 1, get at 1.
  destruct (negb _) eqn:E; [done|].
  apply negb_false_iff, andb_true_iff in E. lia.
Qed.

(** The first position that matches, when one does. *)
Lemma first_match elevator_id (els : list Elevator) :
  (forall j e, els !! j = Some e -> matches elevator_id e = false) \/
  exists j e, els !! j = Some e /\ matches elevator_id e = true /\
    forall k e', (k < j)%nat -> els !! k = Some e' ->
      matches elevator_id e' = false.
Proof.
  induction els as [|x els IH].
  - left. intros j e H. done.
  - destruct (matches elevator_id x) eqn:Hx.
    + right. exists 0%nat, x. split_and!; [done..|]. intros k e' Hk. lia.
    + destruct IH as [IH|(j & e & Hj & Hm & Hno)].
      * left. intros [|j] e H; [by injection H as <-|]. by eapply IH.
      * right. exists (S j), e. split_and!; [done..|].
        intros [|k] e' Hk H; [by injection H as <-|].
        eapply Hno; [|done]. lia.
Qed.

(** The state a call leaves the system in: the one it found, or that
    state with one elevator and the sink as a method of the elevator left
    them. *)
Lemma request_final s o d :
  final (ElevatorSystem.request_elevator o d s) = s \/
  exists a e w,
    valid_request s o d /\ elevators s !! a = Some e /\
    final (ElevatorSystem.request_elevator o d s) =
      put a (final (serve o d w (e, db s))) s.
Proof.
  destruct (valid_request_dec s o d) as [Hv|Hv].
  - destruct (decide (elevators s = [])) as [He|He].
    + left. by rewrite request_elevator_empty.
    + right. destruct (find_closest_some o _ He) as (a & e & Hf & Ha & _).
      exists a, e, (Fin (dist o e)). split_and!; try done.
      rewrite (request_elevator_serve s o d a _ Hv Hf) by done.
      by apply final_on_elevator.
  - left. by destruct (request_elevator_invalid s o d Hv) as (msg & -> & _).
Qed.

Lemma reposition_final s elevator_id fl :
  final (ElevatorSystem.move_elevator_to_resting_floor elevator_id fl s) = s \/
  exists j e,
    0 <= fl < num_floors s /\ elevators s !! j = Some e /\
    matches elevator_id e = true /\
    final (ElevatorSystem.move_elevator_to_resting_floor elevator_id fl s) =
      put j (final (Elevator.move fl (e, db s))) s.
Proof.
  destruct (decide (0 <= fl < num_floors s)) as [Hfl|Hfl].
  - destruct (first_match elevator_id (elevators s))
      as [Hno|(j & e & Hj & Hm & Hno)].
    + left. by rewrite reposition_not_found.
    + right. exists j, e. split_and!; try done; try lia.
      by rewrite (reposition_found s elevator_id fl j e).
  - left. by rewrite reposition_out_of_range.
Qed.

(** What [serve] leaves of the elevator in any state: its id, and a floor
    that is the one it was at or one of the two of the request; and a
    period opened on a whole second exactly when there was one. *)
Lemma serve_shape o d w (x : Obj) :
  el_id (final (serve o d w x)).1 = el_id x.1 /\
  (current_floor (final (serve o d w x)).1 = current_floor x.1 \/
   current_floor (final (serve o d w x)).1 = o \/
   current_floor (final (serve o d w x)).1 = d) /\
  (fractional (final (serve o d w x)).2 <-> fractional x.2).
Proof.
  destruct x as [e d0].
  pose proof (serve_run o d w e d0) as Hrun. cbn zeta in Hrun.
  rewrite Hrun. clear Hrun.
  set (x1 := (set_current_journey_id _ e, _)).
  assert (fractional x1.2 <-> fractional d0) as F0 by done.
  pose proof (move_outcome o x1) as O1.
  pose proof (move_fractional o x1) as F1.
  destruct (move_general o x1) as (I1 & _).
  destruct (Elevator.move o x1) as [[r1 x2] tr1].
  unfold final in I1, F1; cbn [fst snd] in I1, F1.
  destruct O1 as [[= -> -> ->]|(x2' & tr1' & [= -> <- <-] & C1)].
  { unfold final; cbn [fst snd]. split_and!; [done|by left|done]. }
  pose proof (move_outcome d x2) as O2.
  pose proof (move_fractional d x2) as F2.
  destruct (move_general d x2) as (I2 & _).
  destruct (Elevator.move d x2) as [[r2 x3] tr2].
  unfold final in I2, F2; cbn [fst snd] in I2, F2.
  destruct O2 as [[= -> -> ->]|(x3' & tr2' & [= -> <- <-] & C2)].
  { unfold final; cbn [fst snd]. split_and!; [done|by right; left|].
    by rewrite F1. }
  destruct (end_journey_general d x3) as (_ & I3 & C3 & _ & R3 & K3).
  set (x4 := final (Elevator.end_journey d x3)) in *.
  unfold final; cbn [fst snd].
  split_and!.
  - by rewrite I3, I2, I1.
  - right; right. by rewrite C3.
  - unfold fractional at 1. rewrite R3, K3. fold (fractional x3.2).
    by rewrite F2, F1.
Qed.

(** ** Construction *)

Lemma init_run i fl d :
  Elevator.__init__ i fl d =
    let fresh := {| el_id := i; current_floor := 0; status := idle;
                    total_floors := fl; current_resting_id := None;
                    current_journey_id := None |} in
    let d1 := (Database.update_elevator_status i 0 idle d).2 in
    let new := Database.start_resting_period i 0 d1 in
    (Ok tt, (set_current_resting_id (Some new.1) fresh, new.2),
     [(fresh, d1); (fresh, new.2);
      (set_current_resting_id (Some new.1) fresh, new.2)]).
Proof. done. Qed.

Lemma append_new_built k fl s :
  built k s ->
  exists s',
    append_new (Elevator.__init__ (Z.of_nat k + 1) fl) s = (Ok tt, s', trace
      (append_new (Elevator.__init__ (Z.of_nat k + 1) fl) s)) /\
    built (S k) s' /\
    num_elevators s' = num_elevators s /\ num_floors s' = num_floors s.
Proof.
  intros [Hlen Hel Hcl Hemp Hone Hfresh].
  unfold append_new. rewrite init_run. cbn zeta. cbn [fst snd].
  eexists. split; [reflexivity|]. split; [|done].
  set (d1 := (Database.update_elevator_status _ _ _ (db s)).2).
  set (new := Database.start_resting_period _ _ d1).
  assert (open_resting_periods (db s) (Z.of_nat k + 1) = []) as H0
    by (apply Hfresh; lia).
  split; cbn.
  - rewrite length_app; cbn. lia.
  - intros i e Hi. apply lookup_app_Some in Hi as [Hi|[Hge Hi]].
    + destruct (Hel _ _ Hi) as (Hid & Hfl & [(Hs & rid & Hrid & Hnz & Hrows) Hj]).
      unfold at_rest, resting_ok.
      split_and!; try done. exists rid. split_and!; try done.
      unfold new. rewrite open_resting_start.
      apply lookup_lt_Some in Hi.
      destruct (Z.eqb_spec (Z.of_nat k + 1) (el_id e)); [lia|].
      by rewrite app_nil_r.
    + apply list_lookup_singleton_Some in Hi as [Hi <-]. cbn.
      unfold at_rest, resting_ok; cbn.
      split_and!; try done; [lia|]. eexists. split_and!; [done|..].
      * pose proof (lastrowid_pos (r_id <$> tbl_resting_periods d1)).
        unfold new, Database.start_resting_period; cbn. lia.
      * unfold new at 2. rewrite open_resting_start.
        change (open_resting_periods d1 (Z.of_nat k + 1))
          with (open_resting_periods (db s) (Z.of_nat k + 1)).
        rewrite H0, Z.eqb_refl. cbn. each done.
  - done.
  - done.
  - by apply at_most_start_resting.
  - intros id Hid. unfold new. rewrite open_resting_start.
    change (open_resting_periods d1 id) with (open_resting_periods (db s) id).
    rewrite Hfresh by lia.
    destruct (Z.eqb_spec (Z.of_nat k + 1) id); [lia|done].
Qed.

Lemma create_elevators_built fl m : forall k s,
  built k s ->
  exists s',
    final (ElevatorSystem.create_elevators
             (seqZ (Z.of_nat k + 1) (Z.of_nat m)) fl s) = s' /\
    built (k + m) s' /\
    num_elevators s' = num_elevators s /\ num_floors s' = num_floors s.
Proof.
  induction m as [|m IH]; intros k s Hb.
  - exists s. rewrite Nat.add_0_r. by cbn.
  - rewrite seqZ_cons by lia. cbn [ElevatorSystem.create_elevators].
    destruct (append_new_built k fl s Hb) as (s1 & Hrun & Hb1 & Hn1 & Hf1).
    replace (Z.succ (Z.of_nat k + 1)) with (Z.of_nat (S k) + 1) by lia.
    replace (Z.pred (Z.of_nat (S m))) with (Z.of_nat m) by lia.
    destruct (IH (S k) s1 Hb1) as (s2 & Hrun2 & Hb2 & Hn2 & Hf2).
    exists s2. split_and!.
    + unfold final. erewrite bind_ok by exact Hrun. cbn. exact Hrun2.
    + by replace (k + S m)%nat with (S k + m)%nat by lia.
    + by rewrite Hn2.
    + by rewrite Hf2.
Qed.

Lemma init_built n fl db0 :
  built (Z.to_nat n) (ElevatorSystem.new n fl db0) /\
  num_elevators (ElevatorSystem.new n fl db0) = n /\
  num_floors (ElevatorSystem.new n fl db0) = fl.
Proof.
  unfold ElevatorSystem.new, ElevatorSystem.__init__.
  set (s0 := with_db (Database.initialize_elevators n fl db0).2
               (ElevatorSystem.blank n fl db0)).
  assert (built 0 s0) as Hb0.
  { split; try done.
    - apply Forall_nil_2.
    - intros id. split; cbn; lia. }
  destruct (create_elevators_built fl (Z.to_nat n) 0 s0 Hb0)
    as (s' & Hrun & Hb & Hn & Hf).
  assert (seqZ (Z.of_nat 0 + 1) (Z.of_nat (Z.to_nat n)) = seqZ 1 n) as Hseq.
  { unfold seqZ. by rewrite Nat2Z.id. }
  rewrite Hseq in Hrun.
  assert (final
    ((s ← get;
      sys_db_call (Database.initialize_elevators
                     (num_elevators s) (num_floors s));;
      ElevatorSystem.create_elevators (seqZ 1 (num_elevators s)) (num_floors s))
       (ElevatorSystem.blank n fl db0)) = s') as ->.
  { unfold final. erewrite bind_ok by reflexivity. cbn [fst snd].
    erewrite bind_ok by reflexivity. cbn [fst snd]. exact Hrun. }
  by rewrite Hn, Hf.
Qed.

Lemma built_wf s :
  built (Z.to_nat (num_elevators s)) s -> wf s.
Proof.
  intros [Hlen Hel Hcl _ Hone _]. split; try done.
  - intros i e Hi. by destruct (Hel _ _ Hi) as (? & _).
  - intros i e Hi. by destruct (Hel _ _ Hi) as (_ & _ & ?).
Qed.

(** ** Reachable states *)

Lemma floors_put s a e' d' :
  floors_in_range s -> 0 <= current_floor e' < num_floors s ->
  floors_in_range (put a (e', d') s).
Proof.
  intros Hr Hfl i x Hi. cbn in *.
  destruct (decide (a = i)) as [<-|Hai].
  - destruct (decide (a < length (elevators s))%nat).
    + rewrite list_lookup_insert_eq in Hi by done. by injection Hi as <-.
    + rewrite list_insert_ge in Hi by lia. by eapply Hr.
  - rewrite list_lookup_insert_ne in Hi by done. by eapply Hr.
Qed.

Lemma ids_put s a e (x : Obj) :
  (forall i e, elevators s !! i = Some e -> el_id e = Z.of_nat i + 1) ->
  elevators s !! a = Some e -> el_id x.1 = el_id e ->
  forall i e, elevators (put a x s) !! i = Some e -> el_id e = Z.of_nat i + 1.
Proof.
  intros Hids Ha Hid i y Hi. cbn in Hi.
  assert (a < length (elevators s))%nat as Hlt by (by eapply lookup_lt_Some).
  destruct (decide (a = i)) as [<-|Hai].
  - rewrite list_lookup_insert_eq in Hi by done. injection Hi as <-.
    rewrite Hid. by apply Hids.
  - rewrite list_lookup_insert_ne in Hi by done. by apply Hids.
Qed.

(** In every reachable state, whether the calls before returned or
    raised: the elevator at position [i] has id [i + 1], the fleet and the
    building have the sizes asked for, and every elevator is on a floor of
    the building. *)
Lemma reachable_inv n fl s :
  reachable n fl s ->
  (forall i e, elevators s !! i = Some e -> el_id e = Z.of_nat i + 1) /\
  length (elevators s) = Z.to_nat n /\
  num_elevators s = n /\ num_floors s = fl /\
  (1 <= fl -> floors_in_range s).
Proof.
  induction 1 as [db0|s o d _ (Hids & Hlen & Hn & Hf & Hr)
                 |s eid f _ (Hids & Hlen & Hn & Hf & Hr)|s _ IH].
  - destruct (init_built n fl db0) as (Hb & Hn & Hf).
    split_and!; try done.
    + intros i e Hi. by destruct (built_el _ _ Hb _ _ Hi) as (? & _).
    + apply (built_len _ _ Hb).
    + intros Hfl i e Hi. destruct (built_el _ _ Hb _ _ Hi) as (_ & -> & _).
      rewrite Hf. lia.
  - destruct (request_final s o d) as [->|(a & e & w & Hv & Ha & ->)]; [done|].
    destruct (serve_shape o d w (e, db s)) as (I & C & _).
    destruct (final (serve o d w (e, db s))) as [e' d'].
    cbn [fst snd] in I, C.
    split_and!; try done.
    + by apply (ids_put s a e).
    + cbn. by rewrite length_insert.
    + intros Hfl. apply floors_put; [by apply Hr|].
      destruct Hv as (_ & Ho & Hd).
      destruct C as [->|[->| ->]]; [|done..]. by apply (Hr Hfl a).
  - destruct (reposition_final s eid f)
      as [->|(j & e & Hfl & Hj & _ & ->)]; [done|].
    destruct (move_general f (e, db s)) as (I & _).
    pose proof (move_outcome f (e, db s)) as C.
    destruct (Elevator.move f (e, db s)) as [[r [e' d']] tr].
    unfold final in *; cbn [fst snd] in *.
    split_and!; try done.
    + by apply (ids_put s j e).
    + cbn. by rewrite length_insert.
    + intros Hfl'. apply floors_put; [by apply Hr|].
      destruct C as [[= _ <- _ _]|(x & tr' & [= _ <- _] & C)];
        [by apply (Hr Hfl' j)|].
      cbn in C. by rewrite C.
  - done.
Qed.

(** A call ends with a period opened on a whole second, or one to come,
    exactly when it began with one. *)
Lemma request_fractional s o d :
  fractional (db (final (ElevatorSystem.request_elevator o d s))) <->
  fractional (db s).
Proof.
  destruct (request_final s o d) as [->|(a & e & w & Hv & Ha & ->)]; [done|].
  by destruct (serve_shape o d w (e, db s)) as (_ & _ & F).
Qed.

Lemma reposition_fractional s elevator_id fl :
  fractional
    (db (final (ElevatorSystem.move_elevator_to_resting_floor
                  elevator_id fl s))) <->
  fractional (db s).
Proof.
  destruct (reposition_final s elevator_id fl)
    as [->|(j & e & Hfl & Hj & _ & ->)]; [done|].
  apply (move_fractional fl (e, db s)).
Qed.

Lemma request_elevator_preserves s o d :
  wf s -> fractional (db s) ->
  wf (final (ElevatorSystem.request_elevator o d s)).
Proof.
  intros Hwf Hfr.
  destruct (valid_request_dec s o d) as [Hv|Hv].
  - destruct (decide (elevators s = [])) as [He|He].
    + by rewrite request_elevator_empty.
    + destruct (request_elevator_spec s o d Hwf Hv He)
        as (a & e & Ha & _ & [(s' & tr & _ & Hnf)
                             |(e' & d' & tr & -> & Hwf' & _)]); done.
  - by destruct (request_elevator_invalid s o d Hv) as (msg & -> & _).
Qed.

Lemma reposition_preserves s elevator_id fl :
  wf s -> fractional (db s) ->
  wf (final (ElevatorSystem.move_elevator_to_resting_floor elevator_id fl s)).
Proof.
  intros Hwf Hfr.
  destruct (reposition_final s elevator_id fl)
    as [->|(j & e & Hfl & Hj & _ & ->)]; [done|].
  destruct (wf_rest s Hwf _ _ Hj) as [Hr Hjn].
  destruct (move_spec e (db s) fl Hr (wf_one s Hwf))
    as (e' & d' & tr & Hrun & Hr' & Hone' & Hid & Hcf & _ & Hj' & Htj &
        _ & Hk & _); [by apply fractional_not_blocked|].
  rewrite Hrun. unfold final; cbn [fst snd].
  eapply wf_put; try done.
  - split; [done|]. by rewrite Hj'.
  - unfold journeys_closed. rewrite Htj. by apply wf_closed.
Qed.

(** In a reachable state with no resting period opened on a whole second
    and none to come, every call so far has returned or was rejected before
    it did anything, and the system is as [__init__] built it. *)
Lemma reachable_calm n fl s :
  reachable n fl s -> fractional (db s) -> wf s.
Proof.
  induction 1 as [db0|s o d _ IH|s eid f _ IH|s _ IH]; intros Hfr.
  - destruct (init_built n fl db0) as (Hb & Hn & Hf).
    apply built_wf. by rewrite Hn.
  - apply request_fractional in Hfr as Hfr0.
    by apply request_elevator_preserves; [apply IH|].
  - apply reposition_fractional in Hfr as Hfr0.
    by apply reposition_preserves; [apply IH|].
  - by apply IH.
Qed.

(** ** Sequences of requests *)

Lemma request_ok_valid s o d r s' tr :
  ElevatorSystem.request_elevator o d s = (Ok r, s', tr) ->
  valid_request s o d /\ elevators s ≠ [].
Proof.
  intros H. destruct (valid_request_dec s o d) as [Hv|Hv].
  - split; [done|]. intros He.
    by rewrite (request_elevator_empty s o d Hv He) in H.
  - destruct (request_elevator_invalid s o d Hv) as (msg & Hm & _).
    by rewrite Hm in H.
Qed.

Lemma request_all_counts reqs : forall s s',
  wf s -> request_all reqs s = Some s' ->
  wf s' /\
  length (tbl_demands (db s')) =
    (length (tbl_demands (db s)) + length reqs)%nat /\
  length (tbl_journeys (db s')) =
    (length (tbl_journeys (db s)) + length reqs)%nat.
Proof.
  induction reqs as [|[o d] reqs IH]; intros s s' Hwf Hrun; cbn in Hrun.
  - injection Hrun as <-. cbn. split_and!; [done|lia..].
  - destruct (ElevatorSystem.request_elevator o d s) as [[[r|ex] s1] tr] eqn:E;
      [|done].
    destruct (request_ok_valid _ _ _ _ _ _ E) as [Hv Hne].
    destruct (request_elevator_spec s o d Hwf Hv Hne)
      as (a & e & _ & _ & [(s2 & tr' & Hrun1 & _)
                          |(e' & d' & tr' & Hrun1 & Hwf1 & _ & _ & _ & Hdem &
                            Hj & _)]);
      rewrite Hrun1 in E; [done|].
    injection E as _ <- _.
    destruct (IH _ _ Hwf1 Hrun) as (Hwf' & Hd' & Hj').
    split; [done|]. rewrite Hd', Hj'. cbn [put db snd].
    rewrite Hdem, Hj, length_app. cbn. lia.
Qed.

Lemma request_all_valid reqs : forall s,
  wf s -> fractional (db s) -> elevators s ≠ [] ->
  Forall (fun r => valid_request s r.1 r.2) reqs ->
  is_Some (request_all reqs s).
Proof.
  induction reqs as [|[o d] reqs IH]; intros s Hwf Hfr Hne Hall; cbn; [done|].
  apply Forall_cons_1 in Hall as [Hv Hall]. cbn in Hv.
  destruct (request_elevator_spec s o d Hwf Hv Hne)
    as (a & e & Ha & _ & [(s2 & tr' & _ & Hnf)
                         |(e' & d' & tr' & -> & Hwf1 & _ & _ & _ & _ & _ &
                           Hfr1 & _)]); [done|].
  apply IH; [done|by apply Hfr1| |].
  - cbn. intros Hnil. apply (f_equal length) in Hnil.
    rewrite length_insert in Hnil. by destruct (elevators s).
  - eapply Forall_impl; [|exact Hall]. by intros [o1 d1].
Qed.

Lemma scan_floors els : forall els' i o acc,
  current_floor <$> els = current_floor <$> els' ->
  ElevatorSystem.scan els i o acc = ElevatorSystem.scan els' i o acc.
Proof.
  induction els as [|e els IH]; intros [|e' els'] i o acc H; try done.
  cbn in H. injection H as He H. cbn. rewrite He. by apply IH.
Qed.

(** ** The system [__init__] builds, row by row *)

Lemma lastrowid_not_in keys : Database.lastrowid keys ∉ keys.
Proof. intros H. apply lastrowid_fresh in H. lia. Qed.

Lemma foldr_max_seqZ k : forall m, 0 <= m ->
  foldr Z.max 0 (seqZ m (Z.of_nat k)) =
  if decide (k = 0%nat) then 0 else m + Z.of_nat k - 1.
Proof.
  induction k as [|k IH]; intros m Hm; [done|].
  rewrite seqZ_cons by lia. cbn [foldr].
  replace (Z.pred (Z.of_nat (S k))) with (Z.of_nat k) by lia.
  rewrite IH by lia. repeat case_decide; lia.
Qed.

Lemma lastrowid_seqZ k : Database.lastrowid (seqZ 1 (Z.of_nat k)) = Z.of_nat k + 1.
Proof.
  unfold Database.lastrowid. rewrite foldr_max_seqZ by lia.
  case_decide; lia.
Qed.

Lemma fresh_resting_keys fl c (ids : list Z) :
  r_id <$> fresh_rows fl c ids = ids.
Proof.
  unfold fresh_rows. rewrite <- list_fmap_compose.
  rewrite <- (list_fmap_id ids) at 2. by apply list_fmap_ext.
Qed.

Lemma update_same_rows i floor st (rows : list ElevatorRow) :
  (forall r, r ∈ rows -> er_id r = i ->
     r = {| er_id := i; er_current_floor := floor; er_status := st |}) ->
  (fun r => if er_id r =? i
            then {| er_id := er_id r; er_current_floor := floor;
                    er_status := st |}
            else r) <$> rows = rows.
Proof.
  intros H. rewrite <- (list_fmap_id rows) at 2.
  apply list_fmap_ext. intros k r Hk. cbn.
  destruct (Z.eqb_spec (er_id r) i) as [Hi|]; [|done].
  rewrite (H r); [done| |done]. by eapply list_elem_of_lookup_2.
Qed.

(** The clock after [k] readings. *)
Lemma later_spec k (c : nat -> bool) j : Nat.iter k tick c j = c (j + k)%nat.
Proof.
  revert j. induction k as [|k IH]; intros j.
  - cbn. by rewrite Nat.add_0_r.
  - change (Nat.iter (S k) tick c j) with (Nat.iter k tick c (S j)).
    rewrite IH. f_equal. lia.
Qed.

Lemma append_new_building n fl c k :
  (append_new (Elevator.__init__ (Z.of_nat k + 1) fl)
     (building n fl c (Z.of_nat k))).1
  = (Ok tt, building n fl c (Z.of_nat (S k))).
Proof.
  unfold append_new. rewrite init_run. cbn zeta. cbn [fst snd].
  f_equal. unfold building, with_elevators, with_db. cbn [db elevators
    num_elevators num_floors].
  assert ((Database.update_elevator_status (Z.of_nat k + 1) 0 idle
             {| tbl_elevators := erow <$> (fresh_elevator fl <$> seqZ 1 n);
                tbl_demands := []; tbl_journeys := [];
                tbl_resting_periods := fresh_rows fl c (seqZ 1 (Z.of_nat k));
                clock := Nat.iter (Z.to_nat (Z.of_nat k)) tick c |}).2
          = {| tbl_elevators := erow <$> (fresh_elevator fl <$> seqZ 1 n);
               tbl_demands := []; tbl_journeys := [];
               tbl_resting_periods := fresh_rows fl c (seqZ 1 (Z.of_nat k));
               clock := Nat.iter (Z.to_nat (Z.of_nat k)) tick c |}) as ->.
  { unfold Database.update_elevator_status; cbn. f_equal.
    apply update_same_rows. intros r Hin Hr.
    apply list_elem_of_fmap in Hin as (e & -> & Hin).
    apply list_elem_of_fmap in Hin as (i & -> & _). cbn in *. by subst. }
  unfold Database.start_resting_period;
    cbn [fst snd tbl_elevators tbl_demands tbl_journeys tbl_resting_periods
         clock].
  rewrite fresh_resting_keys, lastrowid_seqZ, seqZ_S, !Nat2Z.id.
  unfold fresh_rows. rewrite !fmap_app. cbn [fmap list_fmap].
  rewrite later_spec.
  replace (1 + Z.of_nat k) with (Z.of_nat k + 1) by lia.
  replace (Z.to_nat (Z.of_nat k + 1 - 1)) with k by lia.
  done.
Qed.

Lemma create_elevators_building n fl c m : forall k,
  final (ElevatorSystem.create_elevators
           (seqZ (Z.of_nat k + 1) (Z.of_nat m)) fl
           (building n fl c (Z.of_nat k)))
  = building n fl c (Z.of_nat (k + m)).
Proof.
  induction m as [|m IH]; intros k.
  - by rewrite Nat.add_0_r.
  - rewrite seqZ_cons by lia. cbn [ElevatorSystem.create_elevators].
    pose proof (append_new_building n fl c k) as Hstep.
    destruct (append_new _ _) as [[r s1] t1] eqn:E. cbn in Hstep.
    injection Hstep as -> ->.
    unfold final. erewrite bind_ok by exact E. cbn [fst snd].
    replace (Z.succ (Z.of_nat k + 1)) with (Z.of_nat (S k) + 1) by lia.
    replace (Z.pred (Z.of_nat (S m))) with (Z.of_nat m) by lia.
    rewrite <- Nat.add_succ_comm. apply IH.
Qed.

Lemma seqZ_to_nat k : seqZ 1 (Z.of_nat (Z.to_nat k)) = seqZ 1 k.
Proof. unfold seqZ. by rewrite Nat2Z.id. Qed.

Lemma new_is_fresh n fl db0 :
  ElevatorSystem.new n fl db0 = fresh_system n fl (clock db0).
Proof.
  unfold ElevatorSystem.new, ElevatorSystem.__init__, final.
  erewrite bind_ok by reflexivity. cbn [fst snd].
  erewrite bind_ok by reflexivity.
  unfold final. cbn [fst snd num_elevators num_floors db ElevatorSystem.blank].
  change (ElevatorSystem.create_elevators (seqZ 1 n) fl
            (with_db (Database.initialize_elevators n fl db0).2
               (ElevatorSystem.blank n fl db0))).1.2
    with (final (ElevatorSystem.create_elevators (seqZ 1 n) fl
            (with_db (Database.initialize_elevators n fl db0).2
               (ElevatorSystem.blank n fl db0)))).
  assert (with_db (Database.initialize_elevators n fl db0).2
            (ElevatorSystem.blank n fl db0) = building n fl (clock db0) 0)
    as ->.
  { unfold building, with_db, Database.initialize_elevators. cbn.
    f_equal. f_equal. by rewrite <- list_fmap_compose. }
  pose proof (create_elevators_building n fl (clock db0) (Z.to_nat n) 0) as H.
  change (Z.of_nat 0) with 0 in H. change (0 + 1) with 1 in H.
  change (0 + Z.to_nat n)%nat with (Z.to_nat n) in H.
  rewrite seqZ_to_nat in H. rewrite H.
  unfold building, fresh_system. by rewrite seqZ_to_nat, Nat2Z.id.
Qed.

(** Built on a clock that never reads a whole second, the system has no
    resting period opened on one. *)
Lemma new_fractional n fl db0 :
  (forall k, clock db0 k = false) ->
  fractional (db (ElevatorSystem.new n fl db0)).
Proof.
  intros Hc. rewrite new_is_fresh. split; cbn.
  - intros k. rewrite later_spec. apply Hc.
  - unfold fresh_rows. apply Forall_fmap, list.Forall_forall.
    intros i _. apply Hc.
Qed.

Lemma fractional_sys310 : fractional (db sys310).
Proof. by apply new_fractional. Qed.

Lemma reachable_sys310_at5 : reachable 3 10 sys310_at5.
Proof. apply reach_reposition, reach_init. Qed.

(** * The properties of the specification *)

(** ** Open journeys and resting periods *)

(** C1, as stated, fails.  On a fresh fleet of 3 elevators and 10 floors,
    the third state [request_elevator(3, 7)] goes through has elevator 1
    with its journey handle and its resting handle both set, and with an
    open journey and an open resting period in the sink: the journey is
    opened while the elevator still rests.  And on the fleet whose first
    resting period was opened on a whole second, the state after two such
    requests, which both raise, has two open journeys of elevator 1. *)
Lemma journey_and_rest_open_together :
  (exists x e,
     trace (ElevatorSystem.request_elevator 3 7 sys310) !! 2%nat = Some x /\
     elevators x !! 0%nat = Some e /\
     current_journey_id e = Some 1 /\ current_resting_id e = Some 1 /\
     length (open_journeys (db x) (el_id e)) = 1%nat /\
     length (open_resting_periods (db x) (el_id e)) = 1%nat /\
     ~ never_both_open (db x)) /\
  (let s1 := final (ElevatorSystem.request_elevator 3 7 sys310_on_the_second) in
   let s2 := final (ElevatorSystem.request_elevator 3 7 s1) in
   reachable 3 10 s2 /\
   length (open_journeys (db s2) 1) = 2%nat /\
   ~ at_most_one_open (db s2)).
Proof.
  split.
  - eexists _, _. split_and!; try (vm_compute; reflexivity).
    intros H. destruct (H 1) as [H1|H1]; vm_compute in H1; discriminate.
  - cbn zeta. split_and!.
    + do 2 apply reach_request. apply reach_init.
    + by vm_compute.
    + intros H. destruct (H 1) as [H1 _]. vm_compute in H1. lia.
Qed.

(** C1, amended: take a reachable state in which no resting period was
    opened on a whole second and none will be.  Between calls the sink
    holds no open journey and at most one open resting period for every
    elevator id, so a journey and a resting period are never open together
    there.  In every state a call of [request_elevator] or
    [move_elevator_to_resting_floor] goes through from there, the sink
    holds at most one open journey and at most one open resting period for
    every elevator id; [get_elevators_status] goes through no state at
    all. *)
Theorem at_most_one_open_always n fl s :
  reachable n fl s -> fractional (db s) ->
  at_most_one_open (db s) /\
  (forall elevator_id, open_journeys (db s) elevator_id = []) /\
  never_both_open (db s) /\
  (forall o d,
     Forall (fun x => at_most_one_open (db x))
       (trace (ElevatorSystem.request_elevator o d s))) /\
  (forall elevator_id optimal_floor,
     Forall (fun x => at_most_one_open (db x))
       (trace (ElevatorSystem.move_elevator_to_resting_floor
                 elevator_id optimal_floor s))) /\
  trace (ElevatorSystem.get_elevators_status s) = [].
Proof.
  intros Hreach Hfr. pose proof (reachable_calm n fl s Hreach Hfr) as Hwf.
  split_and!.
  - by apply wf_one.
  - intros id. apply journeys_closed_none, (wf_closed s Hwf).
  - intros id. left. apply journeys_closed_none, (wf_closed s Hwf).
  - intros o d. destruct (valid_request_dec s o d) as [Hv|Hv].
    + destruct (decide (elevators s = [])) as [He|He].
      * rewrite request_elevator_empty by done. apply Forall_nil_2.
      * destruct (request_elevator_spec s o d Hwf Hv He)
          as (a & e & _ & _ & [(s' & tr & _ & Hnf)
                              |(e' & d' & tr & -> & _ & _ & _ & _ & _ & _ &
                                _ & Htr)]); [done|].
        exact Htr.
    + destruct (request_elevator_invalid s o d Hv) as (msg & -> & _).
      apply Forall_nil_2.
  - intros eid f.
    destruct (decide (0 <= f < num_floors s)) as [Hfl|Hfl].
    + destruct (first_match eid (elevators s))
        as [Hno|(j & e & Hj & Hm & Hno)].
      * rewrite reposition_not_found by done. apply Forall_nil_2.
      * rewrite (reposition_found s eid f j e) by done.
        destruct (wf_rest s Hwf _ _ Hj) as [Hr _].
        destruct (move_spec e (db s) f Hr (wf_one s Hwf))
          as (e' & d' & tr & -> & _ & _ & _ & _ & _ & _ & _ & _ & _ & _ & Htr);
          [by apply fractional_not_blocked|].
        unfold trace; cbn [snd]. apply Forall_fmap.
        by eapply Forall_impl; [|exact Htr].
    + rewrite reposition_out_of_range by done. apply Forall_nil_2.
  - done.
Qed.

Lemma at_most_one_open_always_witness :
  reachable 3 10 sys310 /\ fractional (db sys310) /\
  at_most_one_open (db sys310) /\ never_both_open (db sys310) /\
  Forall (fun x => at_most_one_open (db x))
    (trace (ElevatorSystem.request_elevator 3 7 sys310)).
Proof.
  split; [apply reach_init|]. split; [exact fractional_sys310|].
  destruct (at_most_one_open_always 3 10 sys310
              (reach_init 3 10 Database.empty) fractional_sys310)
    as (H0 & _ & Hnb & Hreq & _).
  split; [exact H0|]. split; [exact Hnb|apply Hreq].
Defined.

(** ** Starting a journey on a busy elevator *)

(** C2, as stated, fails: [start_journey] on an elevator whose journey 1
    is open returns the new handle 2 instead of raising, the handle of the
    elevator is 2 afterwards, and the sink is left with two open journeys
    for the elevator. *)
Lemma start_journey_overwrites_handle :
  current_journey_id busy_elevator.1 = Some 1 /\
  result (Elevator.start_journey 0 1 busy_elevator) = Ok (Some 2) /\
  current_journey_id (final (Elevator.start_journey 0 1 busy_elevator)).1
    = Some 2 /\
  length (open_journeys (final (Elevator.start_journey 0 1 busy_elevator)).2 1)
    = 2%nat.
Proof. by vm_compute. Qed.

(** C2, amended: [start_journey] has no precondition.  Whatever handle the
    elevator holds, the call returns, appends an open journey row for the
    elevator to the sink, leaves the rows that were there as they are, and
    stores the key of the new row as the handle; that key differs from
    every key in the table, so a handle naming a row of the table is
    replaced. *)
Theorem start_journey_always_opens start_floor passenger_count e d :
  let new := Database.lastrowid (j_id <$> tbl_journeys d) in
  let x := Elevator.start_journey start_floor passenger_count (e, d) in
  result x = Ok (Some new) /\
  current_journey_id (final x).1 = Some new /\
  tbl_journeys (final x).2 = tbl_journeys d ++
    [{| j_id := new; j_elevator_id := el_id e; j_end_time := false;
        j_start_floor := start_floor; j_end_floor := None;
        j_passenger_count := passenger_count |}] /\
  (forall old, current_journey_id e = Some old ->
     old ∈ j_id <$> tbl_journeys d -> new ≠ old).
Proof.
  cbn zeta. rewrite start_journey_run. split_and!; try done.
  intros old _ Hin Heq. apply lastrowid_fresh in Hin. lia.
Qed.

(** ** Repositioning an idle elevator *)

(** C3, as stated, fails twice: a floor out of range raises [ValueError]
    instead of returning false, and sending the idle elevator 2, at floor
    5, to floor 5 returns true although nothing moves. *)
Lemma reposition_raises_and_reports_true :
  result (ElevatorSystem.move_elevator_to_resting_floor 2 10 sys310)
    = Raise (ValueError (FloorBetween 9)) /\
  (current_floor <$> elevators sys310_at5 !! 1%nat) = Some 5 /\
  ElevatorSystem.move_elevator_to_resting_floor 2 5 sys310_at5
    = (Ok true, sys310_at5, []).
Proof. by vm_compute. Qed.

(** C3, amended: [move_elevator_to_resting_floor] raises [ValueError],
    changing nothing, when the floor is outside [0, num_floors).
    Otherwise it returns false, changing nothing, when no elevator is idle
    with that id; and when one is, and the resting period the first such
    elevator holds was not opened on a whole second, it returns true and
    that elevator is idle at the floor asked for (whether or not it had to
    move).  It returns true only when the floor is in range and an idle
    elevator has the id. *)
Theorem reposition_outcomes s elevator_id fl :
  let x := ElevatorSystem.move_elevator_to_resting_floor elevator_id fl s in
  (~ (0 <= fl < num_floors s) ->
     x = (Raise (ValueError (FloorBetween (num_floors s - 1))), s, [])) /\
  (0 <= fl < num_floors s ->
     (forall j e, elevators s !! j = Some e ->
        ~ (el_id e = elevator_id /\ status e = idle)) ->
     x = (Ok false, s, [])) /\
  (0 <= fl < num_floors s ->
     forall j e, elevators s !! j = Some e ->
       el_id e = elevator_id -> status e = idle ->
       (forall k e', (k < j)%nat -> elevators s !! k = Some e' ->
          ~ (el_id e' = elevator_id /\ status e' = idle)) ->
       (forall rid, current_resting_id e = Some rid ->
          whole_second_start (db s) rid = false) ->
       result x = Ok true /\
       exists e', elevators (final x) !! j = Some e' /\
         el_id e' = elevator_id /\ current_floor e' = fl /\
         status e' = idle) /\
  (result x = Ok true ->
     0 <= fl < num_floors s /\
     exists j e, elevators s !! j = Some e /\
       el_id e = elevator_id /\ status e = idle).
Proof.
  cbn zeta.
  assert (forall e, matches elevator_id e = false <->
            ~ (el_id e = elevator_id /\ status e = idle)) as Hnm.
  { intros e. rewrite <- matches_spec. by destruct (matches _ _). }
  split_and!.
  - apply reposition_out_of_range.
  - intros Hfl Hno. apply reposition_not_found; [done|].
    intros j e Hj. apply Hnm. by eapply Hno.
  - intros Hfl j e Hj Hid Hidle Hno Hw.
    rewrite (reposition_found s elevator_id fl j e); try done.
    2:{ by apply matches_spec. }
    2:{ intros k e' Hk He'. apply Hnm. by eapply Hno. }
    assert (move_blocked fl (e, db s) = false) as B.
    { destruct (move_blocked fl (e, db s)) eqn:B; [|done].
      apply move_blocked_spec in B as (_ & _ & rid & Hrid & _ & W).
      by rewrite (Hw rid Hrid) in W. }
    destruct (move_general fl (e, db s)) as (Hid' & _ & _ & _ & _ & H).
    rewrite B in H. destruct H as (R & Hcf & Hst).
    unfold result at 1, final at 1; cbn [fst snd]. rewrite R.
    split; [done|].
    exists (final (Elevator.move fl (e, db s))).1. split_and!.
    + apply put_lookup. by eapply lookup_lt_Some.
    + by rewrite Hid'.
    + done.
    + rewrite Hst. cbn. by destruct (_ =? _).
  - destruct (decide (0 <= fl < num_floors s)) as [Hfl|Hfl].
    2:{ by rewrite reposition_out_of_range. }
    destruct (first_match elevator_id (elevators s))
      as [Hno|(j & e & Hj & Hm & Hno)].
    + by rewrite reposition_not_found.
    + intros _. split; [done|].
      apply matches_spec in Hm. by exists j, e.
Qed.

Lemma reposition_outcomes_witness :
  0 <= 5 < num_floors sys310 /\
  result (ElevatorSystem.move_elevator_to_resting_floor 2 5 sys310) = Ok true /\
  exists e', elevators sys310_at5 !! 1%nat = Some e' /\
    el_id e' = 2 /\ current_floor e' = 5 /\ status e' = idle.
Proof.
  split; [by vm_compute|].
  destruct (reposition_outcomes sys310 2 5) as (_ & _ & H & _).
  refine (H _ 1%nat _ eq_refl eq_refl eq_refl _ _); [by vm_compute| |].
  - intros [|k] e' Hk He'; [|lia].
    vm_compute in He'. injection He' as <-. by intros [? _].
  - intros rid [= <-]. reflexivity.
Defined.

(** ** The result of a request *)

(** C4: the code breaks the claim where a resting period was opened on a
    whole second.  The 3-by-10 fleet built on a database read on a whole
    second for the resting period of elevator 1 is a reachable state;
    there the valid request [request_elevator(3, 7)] raises the
    [ValueError] of [strptime] instead of returning [(1, 7)], and leaves
    elevator 1, the one it assigned, at floor 0 with its journey open; the
    same request made again leaves two journeys of elevator 1 open. *)
Theorem request_elevator_raises_on_the_second :
  let s := sys310_on_the_second in
  let x := ElevatorSystem.request_elevator 3 7 s in
  reachable 3 10 s /\ valid_request s 3 7 /\
  (ElevatorSystem.find_closest (elevators s) 3).1 = Some 0%nat /\
  result x = Raise (ValueError TimeDataFormat) /\
  (exists e, elevators (final x) !! 0%nat = Some e /\
     el_id e = 1 /\ current_floor e = 0 /\ status e = idle /\
     current_journey_id e = Some 1) /\
  length (open_journeys (db (final x)) 1) = 1%nat /\
  length (open_journeys
            (db (final (ElevatorSystem.request_elevator 3 7 (final x)))) 1)
    = 2%nat.
Proof.
  cbn zeta. split_and!.
  - apply reach_init.
  - split_and!; by vm_compute.
  - by vm_compute.
  - by vm_compute.
  - eexists. split_and!; by vm_compute.
  - by vm_compute.
  - by vm_compute.
Qed.

(** ** Rejected requests *)

(** C5: the code breaks the claim where a resting period was opened on a
    whole second.  On the same fleet the request [request_elevator(3, 7)],
    whose floors differ and are in range, raises a [ValueError]; an
    elevator was assigned: the state is not the one before the call, the
    demand is recorded under elevator 1 and a journey of elevator 1 is left
    open. *)
Theorem valid_request_raises_value_error :
  let s := sys310_on_the_second in
  let x := ElevatorSystem.request_elevator 3 7 s in
  3 ≠ 7 /\ 0 <= 3 < num_floors s /\ 0 <= 7 < num_floors s /\
  (exists msg, result x = Raise (ValueError msg)) /\
  final x ≠ s /\
  d_elevator_id <$> tbl_demands (db (final x)) = [1] /\
  length (open_journeys (db (final x)) 1) = 1%nat.
Proof.
  cbn zeta. split_and!; try (by vm_compute).
  by eexists; vm_compute.
Qed.

(** C10: a request that fails validation changes nothing: the call raises
    [ValueError] from the state it was made in, which is also the state
    after it (no demand row, no journey row, every elevator as it was),
    and it goes through no other state (no notification is sent). *)
Theorem request_elevator_rejection_atomic s o d :
  o = d \/ ~ (0 <= o < num_floors s) \/ ~ (0 <= d < num_floors s) ->
  let x := ElevatorSystem.request_elevator o d s in
  (exists msg, result x = Raise (ValueError msg)) /\
  final x = s /\ trace x = [] /\
  tbl_demands (db (final x)) = tbl_demands (db s) /\
  tbl_journeys (db (final x)) = tbl_journeys (db s) /\
  elevators (final x) = elevators s.
Proof.
  intros H. cbn zeta.
  destruct (request_elevator_invalid s o d) as (msg & -> & _).
  { unfold valid_request. tauto. }
  split_and!; try done. by exists msg.
Qed.

Lemma request_elevator_rejection_atomic_witness :
  (3 = 3 \/ ~ (0 <= 3 < num_floors sys310) \/ ~ (0 <= 3 < num_floors sys310)) /\
  final (ElevatorSystem.request_elevator 3 3 sys310) = sys310 /\
  trace (ElevatorSystem.request_elevator 3 3 sys310) = [].
Proof.
  split; [by left|].
  destruct (request_elevator_rejection_atomic sys310 3 3 (or_introl eq_refl))
    as (_ & Hf & Ht & _).
  split; [exact Hf|exact Ht].
Defined.

(** ** Selection *)

(** C6: for a valid request on a fleet that is not empty, in any state of
    the elevators (idle or not), the assigned elevator is at the least
    distance from the origin floor over the whole fleet and strictly nearer
    than every elevator before it in the fleet order, which is the order
    of ascending ids when position [i] holds id [i + 1], as in every fleet
    [__init__] builds; the demand is recorded under its id, and its id is
    the one returned when the call returns.  The selection reads the
    floors only: fleets with the same floors, whatever their statuses, give
    the same selection. *)
Theorem request_elevator_selects_nearest s o d :
  o ≠ d -> 0 <= o < num_floors s -> 0 <= d < num_floors s ->
  elevators s ≠ [] ->
  exists a e,
    elevators s !! a = Some e /\
    ElevatorSystem.find_closest (elevators s) o =
      (Some a, Fin (Z.abs (current_floor e - o))) /\
    (forall r, result (ElevatorSystem.request_elevator o d s) = Ok r ->
       r.1 = el_id e) /\
    trace (ElevatorSystem.request_elevator o d s) !! 0%nat =
      Some (with_db (Database.record_demand o d (el_id e)
                       (Fin (Z.abs (current_floor e - o))) (db s)).2 s) /\
    (forall j e', elevators s !! j = Some e' ->
       Z.abs (current_floor e - o) <= Z.abs (current_floor e' - o)) /\
    (forall j e', (j < a)%nat -> elevators s !! j = Some e' ->
       Z.abs (current_floor e - o) < Z.abs (current_floor e' - o)) /\
    ((forall i x, elevators s !! i = Some x -> el_id x = Z.of_nat i + 1) ->
     forall j e', elevators s !! j = Some e' ->
       Z.abs (current_floor e' - o) = Z.abs (current_floor e - o) ->
       el_id e <= el_id e') /\
    (forall els',
       current_floor <$> els' = current_floor <$> elevators s ->
       ElevatorSystem.find_closest els' o =
       ElevatorSystem.find_closest (elevators s) o).
Proof.
  intros Hne Ho Hd Hnil.
  destruct (request_elevator_outcome s o d (conj Hne (conj Ho Hd)) Hnil)
    as (a & e & r & s' & tr & Ha & Hf & Hmin & Hfirst & Hrun & Hr).
  exists a, e. rewrite Hrun. split_and!; try done.
  - intros r' Hr'. unfold result in Hr'; cbn [fst snd] in Hr'. subst r.
    by destruct Hr as [?|[t [= ->]]].
  - intros Hids j e' Hj Heq.
    destruct (decide (j < a)%nat) as [Hlt|Hge].
    + specialize (Hfirst j e' Hlt Hj). lia.
    + rewrite (Hids _ _ Hj), (Hids _ _ Ha). lia.
  - intros els' Hfl. by apply scan_floors.
Qed.

Lemma request_elevator_selects_nearest_witness :
  3 ≠ 7 /\ 0 <= 3 < num_floors sys310_at5 /\ 0 <= 7 < num_floors sys310_at5 /\
  elevators sys310_at5 ≠ [] /\
  exists a e,
    elevators sys310_at5 !! a = Some e /\
    ElevatorSystem.find_closest (elevators sys310_at5) 3 =
      (Some a, Fin (Z.abs (current_floor e - 3))) /\
    forall r, result (ElevatorSystem.request_elevator 3 7 sys310_at5) = Ok r ->
      r.1 = el_id e.
Proof.
  split; [lia|]. split; [by vm_compute|]. split; [by vm_compute|].
  split; [by vm_compute|].
  destruct (request_elevator_selects_nearest sys310_at5 3 7)
    as (a & e & H1 & H2 & H3 & _);
    [lia|by vm_compute|by vm_compute|by vm_compute|].
  exists a, e. split; [exact H1|]. split; [exact H2|exact H3].
Defined.

(** ** Moving to the floor the elevator is at *)

(** C7: [move] to the current floor returns 0 and leaves the elevator and
    the sink as they were, going through no state: no status change, no
    notification, no resting period closed or opened.  The same holds seen
    from the system the elevator belongs to. *)
Theorem move_same_floor_noop e d :
  Elevator.move (current_floor e) (e, d) = (Ok 0, (e, d), []) /\
  (forall s a, elevators s !! a = Some e ->
     on_elevator a (Elevator.move (current_floor e)) s = (Ok 0, s, [])).
Proof.
  split; [apply move_same|].
  intros s a Ha. rewrite (on_elevator_run a _ s e _ _ _ Ha (move_same e (db s))).
  by rewrite put_same.
Qed.

Lemma move_same_floor_noop_witness :
  on_elevator 1 (Elevator.move 5) sys310_at5 = (Ok 0, sys310_at5, []).
Proof.
  destruct (move_same_floor_noop
              {| el_id := 2; current_floor := 5; status := idle;
                 total_floors := 10; current_resting_id := Some 4;
                 current_journey_id := None |} (db sys310_at5)) as [_ H].
  apply (H sys310_at5 1%nat). by vm_compute.
Defined.

(** ** Sequences of requests *)

(** C8: after a sequence of requests that all returned, made on a fresh
    system, the sink holds as many demand rows and as many journeys as
    there were requests, every one of these journeys is closed, and no
    journey is open for any elevator.  Such sequences exist: on a system
    with at least one elevator, built on a clock that never reads a whole
    second, every sequence of valid requests returns. *)
Theorem sequential_requests n fl db0 reqs :
  (forall s',
     request_all reqs (ElevatorSystem.new n fl db0) = Some s' ->
     length (tbl_demands (db s')) = length reqs /\
     length (tbl_journeys (db s')) = length reqs /\
     length (completed_journeys (db s')) = length reqs /\
     forall elevator_id, open_journeys (db s') elevator_id = []) /\
  (1 <= n -> (forall k, clock db0 k = false) ->
   Forall (fun r : Z * Z => r.1 ≠ r.2 /\ 0 <= r.1 < fl /\ 0 <= r.2 < fl) reqs ->
   is_Some (request_all reqs (ElevatorSystem.new n fl db0))).
Proof.
  destruct (init_built n fl db0) as (Hb & Hn & Hf).
  assert (wf (ElevatorSystem.new n fl db0)) as Hwf.
  { apply built_wf. by rewrite Hn. }
  destruct (built_empty _ _ Hb) as [Hd0 Hj0].
  split.
  - intros s' Hrun.
    destruct (request_all_counts reqs _ _ Hwf Hrun) as (Hwf' & Hd & Hj).
    rewrite Hd0 in Hd. rewrite Hj0 in Hj. cbn in Hd, Hj.
    split_and!; try done.
    + unfold completed_journeys. rewrite filter_all; [done|].
      apply (wf_closed _ Hwf').
    + intros id. apply journeys_closed_none, (wf_closed _ Hwf').
  - intros Hn1 Hc Hall. apply request_all_valid; [done| | |].
    + by apply new_fractional.
    + intros Hnil. pose proof (wf_len _ Hwf) as Hlen.
      rewrite Hnil, Hn in Hlen. cbn in Hlen. lia.
    + eapply Forall_impl; [|exact Hall]. intros [o d] H.
      unfold valid_request. by rewrite Hf.
Qed.

Lemma sequential_requests_witness :
  exists s',
    request_all [(1, 8); (3, 6); (9, 2); (4, 7); (2, 5)] sys310 = Some s' /\
    length (tbl_demands (db s')) = 5%nat /\
    length (completed_journeys (db s')) = 5%nat.
Proof.
  destruct (sequential_requests 3 10 Database.empty
              [(1, 8); (3, 6); (9, 2); (4, 7); (2, 5)]) as [H _].
  eexists. split; [by vm_compute|].
  match goal with
  | |- context [db ?s] => destruct (H s) as (Hd & _ & Hc & _); [by vm_compute|]
  end.
  split; [exact Hd|exact Hc].
Defined.

(** ** Floors stay in the building *)

(** C9: in a system built with at least one floor, every elevator is on a
    floor of the building after [__init__] and after any sequence of calls
    of the public methods, whether they returned or raised, although [move]
    itself goes wherever it is told: whenever it returns, the elevator is
    at the destination, whatever that is. *)
Theorem floors_stay_in_range n fl s :
  1 <= fl -> reachable n fl s ->
  num_floors s = fl /\
  (forall i e, elevators s !! i = Some e ->
     0 <= current_floor e < num_floors s) /\
  (forall dest e d t,
     result (Elevator.move dest (e, d)) = Ok t ->
     current_floor (final (Elevator.move dest (e, d))).1 = dest).
Proof.
  intros Hfl Hreach.
  destruct (reachable_inv n fl s Hreach) as (_ & _ & _ & Hf & Hr).
  split_and!; [done|by apply Hr|].
  intros dest e d t Ht.
  destruct (move_outcome dest (e, d)) as [E|(x & tr & E & C)];
    rewrite E in *; [done|exact C].
Qed.

Lemma floors_stay_in_range_witness :
  1 <= 10 /\ reachable 3 10 sys310_at5 /\
  forall i e, elevators sys310_at5 !! i = Some e ->
    0 <= current_floor e < num_floors sys310_at5.
Proof.
  split; [lia|]. split; [exact reachable_sys310_at5|].
  apply (floors_stay_in_range 3 10 sys310_at5); [lia|exact reachable_sys310_at5].
Defined.

(** * Further properties of the code *)

(** ** database.py: rows, keys and queries *)

Lemma journeys_after_round_trip d elevator_id start_floor passenger_count
    end_floor :
  (fun r => if j_id r =? Database.lastrowid (j_id <$> tbl_journeys d)
            then {| j_id := j_id r; j_elevator_id := j_elevator_id r;
                    j_end_time := true; j_start_floor := j_start_floor r;
                    j_end_floor := Some end_floor;
                    j_passenger_count := j_passenger_count r |}
            else r) <$>
    tbl_journeys (Database.start_journey
                    elevator_id start_floor passenger_count d).2
  = tbl_journeys d ++
    [{| j_id := Database.lastrowid (j_id <$> tbl_journeys d);
        j_elevator_id := elevator_id; j_end_time := true;
        j_start_floor := start_floor; j_end_floor := Some end_floor;
        j_passenger_count := passenger_count |}].
Proof.
  unfold Database.start_journey; cbn.
  rewrite fmap_app. cbn. rewrite Z.eqb_refl.
  by rewrite update_fresh_key by apply lastrowid_not_in.
Qed.

(** X1: a journey opened and then closed through the sink is the last row
    of [journeys], closed, with the floors, the elevator and the passenger
    count given; the rows that were there and the other tables are as
    before. *)
Theorem journey_round_trip d elevator_id start_floor passenger_count end_floor :
  let new := Database.start_journey elevator_id start_floor passenger_count d in
  let d' := (Database.end_journey new.1 end_floor new.2).2 in
  tbl_journeys d' = tbl_journeys d ++
    [{| j_id := Database.lastrowid (j_id <$> tbl_journeys d);
        j_elevator_id := elevator_id; j_end_time := true;
        j_start_floor := start_floor; j_end_floor := Some end_floor;
        j_passenger_count := passenger_count |}] /\
  tbl_elevators d' = tbl_elevators d /\
  tbl_demands d' = tbl_demands d /\
  tbl_resting_periods d' = tbl_resting_periods d.
Proof.
  cbn zeta. split; [|done].
  apply (journeys_after_round_trip d elevator_id start_floor passenger_count
           end_floor).
Qed.

Lemma find_key_absent {A} (key : A -> Z) (k : Z) (l : list A) :
  k ∉ key <$> l -> List.find (fun r => key r =? k) l = None.
Proof.
  induction l as [|r l IH]; intros Hin; [done|].
  rewrite fmap_cons in Hin. apply not_elem_of_cons in Hin as [Hr Hin].
  cbn. destruct (Z.eqb_spec (key r) k); [congruence|]. by apply IH.
Qed.

(** X2: closing a resting period, closing a journey or updating an
    elevator under a key that the table does not hold leaves the database
    as it is; [end_resting_period] returns, as no start time is parsed. *)
Theorem unknown_key_changes_nothing d k :
  (k ∉ r_id <$> tbl_resting_periods d ->
     Database.end_resting_period k d = (Ok tt, d)) /\
  (forall end_floor, k ∉ j_id <$> tbl_journeys d ->
     (Database.end_journey k end_floor d).2 = d) /\
  (forall floor st, k ∉ er_id <$> tbl_elevators d ->
     (Database.update_elevator_status k floor st d).2 = d).
Proof.
  destruct d as [te td tj tr c]. split_and!.
  - intros H. unfold Database.end_resting_period; cbn in *.
    by rewrite (find_key_absent r_id).
  - intros f H. unfold Database.end_journey; cbn in *.
    by rewrite update_fresh_key.
  - intros f st H. unfold Database.update_elevator_status; cbn in *.
    by rewrite update_fresh_key.
Qed.

Lemma unknown_key_changes_nothing_witness :
  (Database.end_resting_period 7 (db sys310)).2 = db sys310 /\
  (Database.end_journey 1 5 (db sys310)).2 = db sys310.
Proof.
  destruct (unknown_key_changes_nothing (db sys310) 7) as (H7 & _).
  destruct (unknown_key_changes_nothing (db sys310) 1) as (_ & H1 & _).
  split.
  - rewrite H7; [reflexivity|]. vm_compute. intros H.
    repeat (apply elem_of_cons in H as [H|H]; [discriminate|]).
    by apply elem_of_nil in H.
  - apply H1. vm_compute. intros H. by apply elem_of_nil in H.
Defined.

Lemma find_updated (i floor : Z) (st : Status) (rows : list ElevatorRow) :
  i ∈ er_id <$> rows ->
  List.find (fun r => er_id r =? i)
    ((fun r => if er_id r =? i
               then {| er_id := er_id r; er_current_floor := floor;
                       er_status := st |}
               else r) <$> rows)
  = Some {| er_id := i; er_current_floor := floor; er_status := st |}.
Proof.
  induction rows as [|r rows IH]; intros Hin.
  - by apply elem_of_nil in Hin.
  - rewrite fmap_cons. cbn [List.find].
    destruct (Z.eqb_spec (er_id r) i) as [Hr|Hr]; cbn.
    + by rewrite Hr, Z.eqb_refl.
    + apply Z.eqb_neq in Hr as Hr'. rewrite Hr'.
      apply IH. rewrite fmap_cons in Hin.
      by apply elem_of_cons in Hin as [Hin|Hin]; [congruence|].
Qed.

Lemma find_other (i j floor : Z) (st : Status) (rows : list ElevatorRow) :
  j ≠ i ->
  List.find (fun r => er_id r =? j)
    ((fun r => if er_id r =? i
               then {| er_id := er_id r; er_current_floor := floor;
                       er_status := st |}
               else r) <$> rows)
  = List.find (fun r => er_id r =? j) rows.
Proof.
  intros Hne. induction rows as [|r rows IH]; [done|].
  rewrite fmap_cons. cbn [List.find]. rewrite IH.
  destruct (Z.eqb_spec (er_id r) i) as [Hr|Hr]; [|done]. cbn.
  destruct (Z.eqb_spec (er_id r) j); [congruence|done].
Qed.

(** X3: [get_elevator_status] reads back what [update_elevator_status]
    wrote: after an update of an id the table holds, the query of that id
    returns the id with the new floor and status, and the query of any
    other id (not 0) returns what it returned before; the query of an id
    the table does not hold returns no row.  The id [0] is read as no id:
    like [None] it returns all the rows. *)
Theorem status_read_back d i floor st :
  i ≠ 0 ->
  let d' := (Database.update_elevator_status i floor st d).2 in
  (i ∈ er_id <$> tbl_elevators d ->
     Database.get_elevator_status (Some i) d' = FetchOne (Some (i, floor, st))) /\
  (forall j, j ≠ 0 -> j ≠ i ->
     Database.get_elevator_status (Some j) d' =
     Database.get_elevator_status (Some j) d) /\
  (i ∉ er_id <$> tbl_elevators d ->
     Database.get_elevator_status (Some i) d = FetchOne None) /\
  Database.get_elevator_status (Some 0) d = Database.get_elevator_status None d.
Proof.
  intros Hi. cbn zeta. apply Z.eqb_neq in Hi as Hi'.
  unfold Database.get_elevator_status, Database.update_elevator_status; cbn.
  rewrite Hi'. cbn. split_and!.
  - intros Hin. by rewrite find_updated.
  - intros j Hj0 Hj. apply Z.eqb_neq in Hj0. rewrite Hj0. cbn.
    by rewrite find_other.
  - intros Hin. by rewrite (find_key_absent er_id).
  - done.
Qed.

Lemma status_read_back_witness :
  2 ≠ 0 /\
  Database.get_elevator_status (Some 2)
    (Database.update_elevator_status 2 7 moving_up (db sys310)).2
  = FetchOne (Some (2, 7, moving_up)).
Proof.
  split; [lia|].
  destruct (status_read_back (db sys310) 2 7 moving_up) as (H & _); [lia|].
  apply H. vm_compute. apply elem_of_cons. right. apply elem_of_cons. by left.
Defined.

Lemma resting_keys_end k d :
  r_id <$> tbl_resting_periods (Database.close_resting_period k d) =
  r_id <$> tbl_resting_periods d.
Proof. by apply (update_keeps_keys r_id). Qed.

Lemma find_updated_twice (i f1 f2 : Z) (st1 st2 : Status) d :
  i ≠ 0 -> i ∈ er_id <$> tbl_elevators d ->
  Database.get_elevator_status (Some i)
    (Database.update_elevator_status i f2 st2
       (Database.update_elevator_status i f1 st1 d).2).2
  = FetchOne (Some (i, f2, st2)).
Proof.
  intros H0 Hin. apply Z.eqb_neq in H0.
  unfold Database.get_elevator_status, Database.update_elevator_status; cbn.
  rewrite H0. cbn. rewrite find_updated; [done|].
  by rewrite (update_keeps_keys er_id).
Qed.

(** ** elevator_model.py: the methods of [Elevator] in any state *)

(** The last steps of [move], from the database [d1] reached after the
    resting period was closed or left. *)
Lemma arrival_steps i cf dest dir d1 :
  let d' := (Database.start_resting_period i dest
               (Database.update_elevator_status i dest idle
                  (Database.update_elevator_status i cf dir d1).2).2).2 in
  tbl_journeys d' = tbl_journeys d1 /\ tbl_demands d' = tbl_demands d1 /\
  tbl_resting_periods d' = tbl_resting_periods d1 ++
    [{| r_id := Database.lastrowid (r_id <$> tbl_resting_periods d1);
        r_elevator_id := i; r_floor := dest;
        r_start_whole_second := clock d1 0%nat; r_end_time := false |}] /\
  (Database.start_resting_period i dest
     (Database.update_elevator_status i dest idle
        (Database.update_elevator_status i cf dir d1).2).2).1
    = Database.lastrowid (r_id <$> tbl_resting_periods d1) /\
  (i ≠ 0 -> i ∈ er_id <$> tbl_elevators d1 ->
     Database.get_elevator_status (Some i) d' = FetchOne (Some (i, dest, idle))).
Proof.
  cbn zeta. split_and!; try done.
  intros H0 Hin.
  change (Database.get_elevator_status (Some i)
            (Database.update_elevator_status i dest idle
               (Database.update_elevator_status i cf dir d1).2).2
          = FetchOne (Some (i, dest, idle))).
  by apply find_updated_twice.
Qed.

(** X4: [move] to another floor, from any state of the elevator.  It is
    blocked exactly when the elevator is idle and holds a truthy resting
    handle whose period was opened on a whole second: it then raises the
    [ValueError] of [strptime] and changes nothing.  Otherwise it returns
    the distance and ends idle at the destination, holding the key of a
    resting period it has just appended to the sink, open, at the
    destination, started at the next reading of the clock; the rows before
    it keep their keys; [journeys] and [demands] are untouched; and when
    the table [elevators] has a row for the elevator (id not 0), the sink
    reports it idle at the destination. *)
Theorem move_reports_arrival dest e d :
  current_floor e ≠ dest ->
  (move_blocked dest (e, d) = true <->
     status e = idle /\
     exists rid, current_resting_id e = Some rid /\ rid ≠ 0 /\
       whole_second_start d rid = true) /\
  (move_blocked dest (e, d) = true ->
     Elevator.move dest (e, d) =
       (Raise (ValueError TimeDataFormat), (e, d), [])) /\
  (move_blocked dest (e, d) = false ->
     let x := final (Elevator.move dest (e, d)) in
     result (Elevator.move dest (e, d)) = Ok (Z.abs (dest - current_floor e)) /\
     current_floor x.1 = dest /\ status x.1 = idle /\
     tbl_journeys x.2 = tbl_journeys d /\ tbl_demands x.2 = tbl_demands d /\
     (exists before,
        r_id <$> before = r_id <$> tbl_resting_periods d /\
        tbl_resting_periods x.2 = before ++
          [rrow (Database.lastrowid (r_id <$> tbl_resting_periods d))
             (clock d 0%nat) x.1] /\
        current_resting_id x.1 =
          Some (Database.lastrowid (r_id <$> tbl_resting_periods d))) /\
     (el_id e ≠ 0 -> el_id e ∈ er_id <$> tbl_elevators d ->
        Database.get_elevator_status (Some (el_id e)) x.2 =
          FetchOne (Some (el_id e, dest, idle)))).
Proof.
  intros Hne. split_and!.
  - rewrite move_blocked_spec. tauto.
  - apply move_raises.
  - intros B. cbn zeta.
    unfold move_blocked in B; cbn [fst snd] in B.
    apply Z.eqb_neq in Hne.
    unfold Elevator.move. run. rewrite Hne in *. cbn in *.
    destruct (status_eqb (status e) idle); cbn in *;
      [destruct (current_resting_id e) as [rid|]; cbn in *;
       [destruct (rid =? 0); cbn in *|]|].
    2:{ rewrite (end_resting_ok _ _ B). cbn.
        destruct (arrival_steps (el_id e) (current_floor e) dest
                    (if dest >? current_floor e then moving_up else moving_down)
                    (Database.close_resting_period rid d))
          as (Hj & Hd & Hr & Hk & Hq).
        rewrite Hk, resting_keys_end. split_and!; try done.
        exists (tbl_resting_periods (Database.close_resting_period rid d)).
        split_and!; [apply resting_keys_end| |done].
        by rewrite Hr, resting_keys_end. }
    all: destruct (arrival_steps (el_id e) (current_floor e) dest
                (if dest >? current_floor e then moving_up else moving_down) d)
      as (Hj & Hd & Hr & Hk & Hq);
      rewrite Hk; split_and!; try done; by exists (tbl_resting_periods d).
Qed.

Lemma move_reports_arrival_witness :
  0 ≠ 5 /\
  move_blocked 5 (fresh_elevator 10 1, db sys310) = false /\
  Database.get_elevator_status (Some 1)
    (final (Elevator.move 5 (fresh_elevator 10 1, db sys310))).2
  = FetchOne (Some (1, 5, idle)).
Proof.
  split; [lia|]. split; [reflexivity|].
  destruct (move_reports_arrival 5 (fresh_elevator 10 1) (db sys310))
    as (_ & _ & H); [cbn; lia|].
  destruct (H eq_refl) as (_ & _ & _ & _ & _ & _ & Hq).
  apply Hq; [cbn; lia|]. vm_compute. apply elem_of_cons. by left.
Defined.

(** X5: [move_to_optimal_resting_floor] on an elevator that is not idle
    returns false and does nothing; so it does on an idle elevator already
    at the floor.  On an idle elevator somewhere else it does what [move]
    does: blocked, it raises the [ValueError] of [strptime] and changes
    nothing; otherwise it returns true and leaves the elevator idle at the
    floor. *)
Theorem move_to_optimal_outcomes optimal_floor e d :
  (status e ≠ idle ->
     Elevator.move_to_optimal_resting_floor optimal_floor (e, d)
       = (Ok false, (e, d), [])) /\
  (status e = idle -> optimal_floor = current_floor e ->
     Elevator.move_to_optimal_resting_floor optimal_floor (e, d)
       = (Ok false, (e, d), [])) /\
  (status e = idle -> move_blocked optimal_floor (e, d) = true ->
     Elevator.move_to_optimal_resting_floor optimal_floor (e, d)
       = (Raise (ValueError TimeDataFormat), (e, d), [])) /\
  (status e = idle -> optimal_floor ≠ current_floor e ->
     move_blocked optimal_floor (e, d) = false ->
     let x := Elevator.move_to_optimal_resting_floor optimal_floor (e, d) in
     result x = Ok true /\
     current_floor (final x).1 = optimal_floor /\
     status (final x).1 = idle).
Proof.
  split_and!.
  - intros Hs. unfold Elevator.move_to_optimal_resting_floor. run.
    by destruct (status e).
  - intros Hs ->. by rewrite (move_to_optimal_idle _ _ _ Hs), move_same.
  - intros Hs B. by rewrite (move_to_optimal_idle _ _ _ Hs), (move_raises _ _ _ B).
  - intros Hs Hne B. cbn zeta. rewrite (move_to_optimal_idle _ _ _ Hs).
    destruct (move_general optimal_floor (e, d)) as (_ & _ & _ & _ & _ & H).
    rewrite B in H. destruct H as (R & Hcf & Hst).
    destruct (Elevator.move optimal_floor (e, d)) as [[r x] tr].
    unfold result, final in *; cbn [fst snd] in *. subst r.
    split_and!.
    + f_equal. apply Z.gtb_lt. lia.
    + done.
    + rewrite Hst, Hs. by destruct (_ =? _).
Qed.

Lemma move_to_optimal_outcomes_witness :
  result (Elevator.move_to_optimal_resting_floor 0
            (fresh_elevator 10 2, db sys310)) = Ok false /\
  result (Elevator.move_to_optimal_resting_floor 5
            (fresh_elevator 10 2, db sys310)) = Ok true.
Proof.
  split.
  - destruct (move_to_optimal_outcomes 0 (fresh_elevator 10 2) (db sys310))
      as (_ & H & _). by rewrite (H eq_refl eq_refl).
  - destruct (move_to_optimal_outcomes 5 (fresh_elevator 10 2) (db sys310))
      as (_ & _ & _ & H). apply (H eq_refl); [cbn; lia|reflexivity].
Defined.

(** X6: [start_resting] opens a resting period only for an idle elevator
    that holds no resting handle, and then the handle is the key of the row
    it appended, open at the current floor of the elevator; in every other
    state it does nothing, so a second call in a row never opens a second
    period.  [end_resting] without a handle does nothing.  With a handle
    whose period was opened on a whole second it raises the [ValueError]
    of [strptime] and changes nothing, the handle included; with any other
    handle it returns, closes every row under that key and drops the
    handle. *)
Theorem resting_period_toggle e d :
  (status e = idle -> current_resting_id e = None ->
     let new := Database.lastrowid (r_id <$> tbl_resting_periods d) in
     let x := final (Elevator.start_resting (e, d)) in
     current_resting_id x.1 = Some new /\
     tbl_resting_periods x.2 =
       tbl_resting_periods d ++ [rrow new (clock d 0%nat) e]) /\
  (status e ≠ idle \/ current_resting_id e ≠ None ->
     Elevator.start_resting (e, d) = (Ok tt, (e, d), [])) /\
  Elevator.start_resting (final (Elevator.start_resting (e, d)))
    = (Ok tt, final (Elevator.start_resting (e, d)), []) /\
  (current_resting_id e = None ->
     Elevator.end_resting (e, d) = (Ok tt, (e, d), [])) /\
  (forall rid, current_resting_id e = Some rid ->
     whole_second_start d rid = true ->
     Elevator.end_resting (e, d) =
       (Raise (ValueError TimeDataFormat), (e, d), [])) /\
  (forall rid, current_resting_id e = Some rid ->
     whole_second_start d rid = false ->
     let x := final (Elevator.end_resting (e, d)) in
     result (Elevator.end_resting (e, d)) = Ok tt /\
     current_resting_id x.1 = None /\
     r_id <$> tbl_resting_periods x.2 = r_id <$> tbl_resting_periods d /\
     forall row, row ∈ tbl_resting_periods x.2 -> r_id row = rid ->
       r_end_time row = true).
Proof.
  split_and!.
  - intros Hs Hr. unfold Elevator.start_resting. run. by rewrite Hs, Hr.
  - intros H. unfold Elevator.start_resting. run.
    destruct H as [H|H]; [by destruct (status e)|].
    destruct (current_resting_id e); [|done]. by rewrite andb_false_r.
  - unfold Elevator.start_resting. run.
    destruct (status e) eqn:Hs; cbn; try by rewrite Hs.
    destruct (current_resting_id e) eqn:Hr; cbn; by rewrite Hs, ?Hr.
  - intros Hr. unfold Elevator.end_resting. run. by rewrite Hr.
  - intros rid Hr W. unfold Elevator.end_resting. run. rewrite Hr. cbn.
    by rewrite (end_resting_raises _ _ W).
  - intros rid Hr W. unfold Elevator.end_resting. run. rewrite Hr. cbn.
    rewrite (end_resting_ok _ _ W). cbn.
    split_and!; [done|done|apply resting_keys_end|].
    unfold Database.close_resting_period; cbn. intros row Hin Hk.
    apply list_elem_of_fmap in Hin as (r0 & -> & _).
    destruct (Z.eqb_spec (r_id r0) rid) as [|Hne]; [done|]. by cbn in Hk.
Qed.

Lemma resting_period_toggle_witness :
  current_resting_id
    (final (Elevator.end_resting (fresh_elevator 10 1, db sys310))).1 = None /\
  Elevator.start_resting (fresh_elevator 10 1, db sys310)
    = (Ok tt, (fresh_elevator 10 1, db sys310), []).
Proof.
  destruct (resting_period_toggle (fresh_elevator 10 1) (db sys310))
    as (_ & H2 & _ & _ & _ & H6).
  split.
  - by destruct (H6 1 eq_refl eq_refl) as (_ & ? & _).
  - apply H2. right. discriminate.
Defined.

(** ** elevator_model.py: construction *)

(** X7: [ElevatorSystem(n, fl, db0)] is the same system whatever the
    tables of the database passed in held: [n] elevators with ids 1 to
    [n], idle at floor 0, elevator [i] holding the resting period [i],
    which starts at the [i]-th reading of the clock; a sink with one row
    per elevator in [elevators], one open resting period per elevator, and
    no demand and no journey.  For [n <= 0] the fleet is empty. *)
Theorem construction_resets n fl db0 :
  ElevatorSystem.new n fl db0 = fresh_system n fl (clock db0) /\
  length (elevators (ElevatorSystem.new n fl db0)) = Z.to_nat n /\
  (n <= 0 -> elevators (ElevatorSystem.new n fl db0) = []).
Proof.
  rewrite new_is_fresh.
  split; [done|]. cbn. rewrite length_fmap, length_seqZ. split; [done|].
  intros Hn. by rewrite seqZ_nil.
Qed.

Lemma construction_resets_witness :
  elevators (ElevatorSystem.new 0 10 (db sys310_at5)) = [] /\
  ElevatorSystem.new 3 10 (db sys310_at5) = sys310.
Proof.
  split.
  - destruct (construction_resets 0 10 (db sys310_at5)) as (_ & _ & H).
    apply H. lia.
  - destruct (construction_resets 3 10 (db sys310_at5)) as (-> & _).
    destruct (construction_resets 3 10 Database.empty) as (H & _).
    unfold sys310. by rewrite H.
Defined.

(** X8: a system built with no elevator ([n <= 0]) raises
    [AttributeError] on every valid request, changing nothing; it answers
    false to every repositioning to a floor of the building and reports an
    empty fleet. *)
Theorem empty_fleet n fl db0 :
  n <= 0 ->
  let s := ElevatorSystem.new n fl db0 in
  (forall o d, o ≠ d -> 0 <= o < fl -> 0 <= d < fl ->
     ElevatorSystem.request_elevator o d s = (Raise AttributeError, s, [])) /\
  (forall elevator_id floor, 0 <= floor < fl ->
     ElevatorSystem.move_elevator_to_resting_floor elevator_id floor s
       = (Ok false, s, [])) /\
  ElevatorSystem.get_elevators_status s = (Ok [], s, []).
Proof.
  intros Hn. cbn zeta. rewrite new_is_fresh.
  assert (elevators (fresh_system n fl (clock db0)) = []) as He
    by (cbn; by rewrite seqZ_nil).
  split_and!.
  - intros o d Hne Ho Hd. by apply request_elevator_empty.
  - intros eid f Hf. apply reposition_not_found; [done|].
    intros j e. by rewrite He.
  - unfold ElevatorSystem.get_elevators_status. run. by rewrite seqZ_nil.
Qed.

Lemma empty_fleet_witness :
  0 <= 0 /\
  ElevatorSystem.request_elevator 3 7 (ElevatorSystem.new 0 10 Database.empty)
    = (Raise AttributeError, ElevatorSystem.new 0 10 Database.empty, []).
Proof.
  split; [lia|].
  destruct (empty_fleet 0 10 Database.empty) as (H & _); [lia|].
  apply H; lia.
Defined.

(** ** The sink in step with the fleet *)

Lemma keys_ok_nil : keys_ok [].
Proof. split; constructor. Qed.

Lemma keys_ok_snoc ks : keys_ok ks -> keys_ok (ks ++ [Database.lastrowid ks]).
Proof.
  intros [Hnd Hpos]. split.
  - apply list.NoDup_app.
    split_and!; [done| |apply NoDup_singleton].
    intros k Hk Hin. apply list_elem_of_singleton in Hin.
    apply lastrowid_fresh in Hk. lia.
  - apply Forall_app_2; [done|]. apply Forall_cons_2; [|apply Forall_nil_2].
    apply lastrowid_pos.
Qed.

Lemma same_key_same_row {A} (key : A -> Z) (l : list A) x y :
  NoDup (key <$> l) -> x ∈ l -> y ∈ l -> key x = key y -> x = y.
Proof.
  intros Hnd Hx Hy Hk.
  apply list_elem_of_lookup_1 in Hx as [i Hi].
  apply list_elem_of_lookup_1 in Hy as [j Hj].
  assert (i = j) as ->.
  { eapply (NoDup_lookup _ _ _ _ Hnd).
    - rewrite list_lookup_fmap, Hi. reflexivity.
    - rewrite list_lookup_fmap, Hj. cbn. by rewrite Hk. }
  congruence.
Qed.

Lemma open_resting_in d id row :
  row ∈ open_resting_periods d id ->
  row ∈ tbl_resting_periods d /\ r_elevator_id row = id.
Proof.
  unfold open_resting_periods. rewrite list_elem_of_In, List.filter_In.
  rewrite <- list_elem_of_In. intros [Hin Hp].
  apply andb_true_iff in Hp as [Hp _]. by apply Z.eqb_eq in Hp.
Qed.

Lemma updated_row i floor st (rows : list ElevatorRow) r :
  r ∈ (fun r => if er_id r =? i
                then {| er_id := er_id r; er_current_floor := floor;
                        er_status := st |}
                else r) <$> rows ->
  er_id r = i ->
  r = {| er_id := i; er_current_floor := floor; er_status := st |}.
Proof.
  intros Hin Hr. apply list_elem_of_fmap in Hin as (r0 & -> & _).
  destruct (Z.eqb_spec (er_id r0) i) as [->|Hne]; [done|]. congruence.
Qed.

Lemma frame_refl id d : frame id d d.
Proof. by split_and!. Qed.

Lemma frame_trans id d1 d2 d3 : frame id d1 d2 -> frame id d2 d3 -> frame id d1 d3.
Proof.
  intros (A1 & B1 & C1) (A2 & B2 & C2). split_and!.
  - intros id' H. by rewrite A2, A1.
  - by rewrite B2.
  - intros k r Hk Hr. apply C2; [|done]. by apply C1.
Qed.

(** A method that changes neither the floor, the status, the id and the
    resting handle of the elevator nor the tables [elevators] and
    [resting_periods] keeps the agreement, provided the keys stay good. *)
Lemma in_sync_ext e d e' d' :
  in_sync (e, d) ->
  el_id e' = el_id e -> current_floor e' = current_floor e ->
  status e' = status e -> current_resting_id e' = current_resting_id e ->
  tbl_elevators d' = tbl_elevators d ->
  tbl_resting_periods d' = tbl_resting_periods d ->
  keys_ok (d_id <$> tbl_demands d') -> keys_ok (j_id <$> tbl_journeys d') ->
  in_sync (e', d') /\ frame (el_id e) d d'.
Proof.
  intros (Hs & (rid & w & Hr & Hopen) & Hmir & (_ & _ & Hkr)) Hid Hcf Hst Hrest
    Hte Htr Hkd Hkj.
  assert (forall id, open_resting_periods d' id = open_resting_periods d id)
    as Hsame by (intros id; unfold open_resting_periods; by rewrite Htr).
  assert (erow e' = erow e) as Herow
    by (unfold erow; by rewrite Hid, Hcf, Hst).
  assert (rrow rid w e' = rrow rid w e) as Hrrow
    by (unfold rrow; by rewrite Hid, Hcf).
  split.
  - split_and!; cbn [fst snd].
    + by rewrite Hst.
    + exists rid, w. by rewrite Hrest, Hsame, Hid, Hrrow.
    + intros r. rewrite Hte, Hid, Herow. apply Hmir.
    + split_and!; try done. by rewrite Htr.
  - split_and!; [intros; apply Hsame|by rewrite Hte|].
    intros k r Hk _. by rewrite Hte.
Qed.

(** [move] keeps the agreement and leaves the rest of the sink alone,
    whether it returns or raises. *)
Lemma in_sync_move dest e d :
  in_sync (e, d) ->
  let x := final (Elevator.move dest (e, d)) in
  in_sync x /\ frame (el_id e) d x.2 /\ el_id x.1 = el_id e.
Proof.
  intros Hsync. cbn zeta.
  destruct (Z.eq_dec (current_floor e) dest) as [Heq|Hne].
  { rewrite <- Heq, move_same. unfold final; cbn.
    split_and!; try done; apply frame_refl. }
  pose proof Hsync as (Hs & (rid & w & Hr & Hopen) & Hmir & (Hkd & Hkj & Hkr)).
  cbn [fst snd] in *.
  assert (rrow rid w e ∈ tbl_resting_periods d) as Hrow.
  { apply (open_resting_in d (el_id e)). rewrite Hopen. by left. }
  assert (rid ≠ 0) as Hnz.
  { destruct Hkr as [_ Hpos].
    eapply list.Forall_forall in Hpos; [|by apply (list_elem_of_fmap_2 r_id), Hrow].
    cbn in Hpos. lia. }
  destruct (whole_second_start d rid) eqn:W.
  { rewrite move_raises.
    - unfold final; cbn. split_and!; try done; apply frame_refl.
    - apply move_blocked_spec. split_and!; try done. by exists rid. }
  rewrite (move_resting e d dest rid Hs Hr Hnz W Hne).
  unfold final; cbn [fst snd]. unfold move_steps. cbn [List.last].
  split_and!; cbn [fst snd]; try done.
  - split_and!; cbn [fst snd]; try done.
    + eexists _, _. split; [reflexivity|]. cbn [el_id set_current_resting_id
        set_status set_current_floor].
      rewrite open_resting_start, !open_resting_update, open_resting_end, Hopen.
      cbn. rewrite !Z.eqb_refl. cbn. reflexivity.
    + intros r Hin Hid.
      unfold Database.start_resting_period, Database.update_elevator_status
        in Hin; cbn in Hin.
      by eapply updated_row.
    + split_and!; try done.
      unfold Database.start_resting_period; cbn [snd tbl_resting_periods].
      rewrite fmap_app. cbn [fmap list_fmap].
      change (tbl_resting_periods
                (Database.update_elevator_status (el_id e) dest idle
                   (Database.update_elevator_status (el_id e) (current_floor e)
                      (if dest >? current_floor e then moving_up
                       else moving_down)
                      (Database.close_resting_period rid d)).2).2)
        with (tbl_resting_periods (Database.close_resting_period rid d)).
      rewrite resting_keys_end. by apply keys_ok_snoc.
  - split_and!.
    + intros id' Hid'.
      rewrite open_resting_start, !open_resting_update, open_resting_end.
      destruct (Z.eqb_spec (el_id e) id'); [congruence|].
      rewrite app_nil_r. apply filter_all. apply list.Forall_forall.
      intros row Hin. apply negb_true_iff, Z.eqb_neq. intros Hk.
      apply open_resting_in in Hin as [Hin Hid].
      assert (row = rrow rid w e) as ->
        by (by apply (same_key_same_row r_id (tbl_resting_periods d));
            [apply Hkr|..]).
      cbn in Hid. congruence.
    + unfold Database.start_resting_period, Database.update_elevator_status;
        cbn. by rewrite !(update_keeps_keys er_id).
    + intros k r Hk Hid.
      unfold Database.start_resting_period, Database.update_elevator_status,
        Database.close_resting_period; cbn.
      rewrite !list_lookup_fmap, Hk. cbn.
      apply Z.eqb_neq in Hid. by rewrite Hid, Hid.
Qed.

Lemma in_sync_end_journey fl e d :
  in_sync (e, d) ->
  let x := final (Elevator.end_journey fl (e, d)) in
  in_sync x /\ frame (el_id e) d x.2 /\ el_id x.1 = el_id e.
Proof.
  intros Hsync. cbn zeta.
  pose proof Hsync as (_ & _ & _ & (Hkd & Hkj & _)). cbn [snd] in *.
  unfold Elevator.end_journey. run.
  destruct (truthy (current_journey_id e));
    [destruct (current_journey_id e) as [jid|]|]; cbn [fst snd].
  - destruct (in_sync_ext e d (set_current_journey_id None e)
                (Database.end_journey jid fl d).2 Hsync) as [H1 H2];
      try done.
    unfold Database.end_journey; cbn [snd tbl_journeys].
    by rewrite (update_keeps_keys j_id).
  - split_and!; try done; apply frame_refl.
  - split_and!; try done; apply frame_refl.
Qed.

(** [serve] keeps the agreement between its elevator and the sink, and
    leaves alone what the sink holds for the other elevators, wherever it
    ends. *)
Lemma in_sync_serve o d w e d0 :
  in_sync (e, d0) ->
  let x := final (serve o d w (e, d0)) in
  in_sync x /\ frame (el_id e) d0 x.2 /\ el_id x.1 = el_id e.
Proof.
  intros Hsync. cbn zeta.
  pose proof (serve_run o d w e d0) as Hrun. cbn zeta in Hrun.
  rewrite Hrun. clear Hrun.
  pose proof Hsync as (_ & _ & _ & (Hkd & Hkj & _)). cbn [snd] in *.
  set (dd := (Database.record_demand o d (el_id e) w d0).2).
  set (new := Database.start_journey (el_id e) (current_floor e) 1 dd).
  destruct (in_sync_ext e d0 (set_current_journey_id (Some new.1) e) new.2 Hsync)
    as [S1 F1]; try done.
  { unfold new, dd, Database.start_journey, Database.record_demand; cbn.
    rewrite fmap_app. by apply keys_ok_snoc. }
  { unfold new, dd, Database.start_journey, Database.record_demand; cbn.
    rewrite fmap_app. by apply keys_ok_snoc. }
  destruct (in_sync_move o _ _ S1) as (S2 & F2 & I2).
  destruct (Elevator.move o _) as [[r2 [e2 d2]] t2].
  unfold final in S2, F2, I2; cbn [fst snd] in S2, F2, I2. cbn in I2.
  assert (frame (el_id e) d0 d2) as G2 by eauto using frame_trans.
  destruct r2 as [t1|ex]; [|by unfold final; cbn [fst snd]].
  destruct (in_sync_move d _ _ S2) as (S3 & F3 & I3).
  destruct (Elevator.move d _) as [[r3 [e3 d3]] t3].
  unfold final in S3, F3, I3; cbn [fst snd] in S3, F3, I3.
  rewrite I2 in F3.
  assert (frame (el_id e) d0 d3) as G3 by eauto using frame_trans.
  destruct r3 as [t2'|ex]; [|unfold final; cbn [fst snd]; split_and!; congruence].
  destruct (in_sync_end_journey d _ _ S3) as (S4 & F4 & I4).
  set (x4 := final (Elevator.end_journey d (e3, d3))) in *.
  unfold final; cbn [fst snd].
  rewrite I3, I2 in F4.
  split; [exact S4|]. split; [|congruence].
  eauto using frame_trans.
Qed.

(** ** The agreement in every reachable state *)

Lemma in_sync_of_synced s a e :
  synced s -> elevators s !! a = Some e -> in_sync (e, db s).
Proof.
  intros [Hids _ Hidle Ht Hr Hk] Ha. split_and!; cbn [fst snd].
  - by apply (Hidle a).
  - by apply (Hr a).
  - intros r Hin Hid. rewrite Ht in Hin.
    apply list_elem_of_fmap in Hin as (e' & -> & Hin).
    apply list_elem_of_lookup_1 in Hin as [k Hk'].
    cbn in Hid. rewrite (Hids _ _ Hk'), (Hids _ _ Ha) in Hid.
    assert (k = a) as -> by lia. congruence.
  - done.
Qed.

Lemma synced_put s a e (x : Obj) :
  synced s -> elevators s !! a = Some e ->
  in_sync x -> frame (el_id e) (db s) x.2 -> el_id x.1 = el_id e ->
  synced (put a x s).
Proof.
  intros [Hids Hlen Hidle Ht Hr Hk] Ha (Hs & Hrest & Hmir & Hkeys)
    (F1 & F2 & F3) Hid.
  assert (a < length (elevators s))%nat as Hlt by (by eapply lookup_lt_Some).
  split; cbn [put db elevators num_elevators].
  - by apply (ids_put s a e).
  - by rewrite length_insert.
  - intros i ei Hi. destruct (decide (a = i)) as [<-|Hai].
    + rewrite list_lookup_insert_eq in Hi by done. by injection Hi as <-.
    + rewrite list_lookup_insert_ne in Hi by done. by apply (Hidle i).
  - rewrite list_fmap_insert. apply list_eq. intros k.
    destruct (decide (k = a)) as [->|Hka].
    + rewrite list_lookup_insert_eq by (by rewrite length_fmap).
      assert ((er_id <$> tbl_elevators x.2) !! a = Some (el_id e)) as Hkey.
      { rewrite F2, Ht, <- list_fmap_compose, list_lookup_fmap, Ha. done. }
      rewrite list_lookup_fmap in Hkey.
      destruct (tbl_elevators x.2 !! a) as [r|] eqn:Hr'; [|done].
      injection Hkey as Hkey. f_equal. apply Hmir.
      * by eapply list_elem_of_lookup_2.
      * congruence.
    + rewrite list_lookup_insert_ne by done.
      rewrite <- Ht. destruct (tbl_elevators (db s) !! k) as [r|] eqn:Hr'.
      * apply F3; [done|].
        rewrite Ht, list_lookup_fmap in Hr'.
        destruct (elevators s !! k) as [ek|] eqn:Hek; [|done].
        injection Hr' as <-. cbn.
        rewrite (Hids _ _ Hek), (Hids _ _ Ha). lia.
      * apply lookup_ge_None. apply lookup_ge_None in Hr'.
        apply (f_equal length) in F2. rewrite !length_fmap in F2. lia.
  - intros i ei Hi. destruct (decide (a = i)) as [<-|Hai].
    + rewrite list_lookup_insert_eq in Hi by done. by injection Hi as <-.
    + rewrite list_lookup_insert_ne in Hi by done.
      destruct (Hr _ _ Hi) as (rid & w & Hrid & Hopen).
      exists rid, w. split; [done|]. rewrite F1; [done|].
      rewrite (Hids _ _ Hi), (Hids _ _ Ha). lia.
  - done.
Qed.

Lemma open_fresh_nat fl c id k :
  List.filter (fun r => (r_elevator_id r =? id) && negb (r_end_time r))
    (fresh_rows fl c (seqZ 1 (Z.of_nat k)))
  = if decide (1 <= id <= Z.of_nat k)
    then [rrow id (c (Z.to_nat (id - 1))) (fresh_elevator fl id)] else [].
Proof.
  induction k as [|k IH]; [by case_decide; [lia|]|].
  unfold fresh_rows in *.
  rewrite seqZ_S, !fmap_app, List.filter_app, IH. cbn.
  destruct (Z.eqb_spec (1 + Z.of_nat k) id) as [<-|Hne]; cbn;
    repeat case_decide; try lia; done.
Qed.

Lemma synced_fresh n fl c : synced (fresh_system n fl c).
Proof.
  split.
  - intros i e Hi. cbn [elevators fresh_system] in Hi.
    rewrite list_lookup_fmap in Hi.
    destruct (seqZ 1 n !! i) as [j|] eqn:Hj; [|done].
    injection Hi as <-. apply lookup_seqZ in Hj as [-> Hlt]. cbn. lia.
  - cbn. by rewrite length_fmap, length_seqZ.
  - intros i e Hi. cbn [elevators fresh_system] in Hi.
    rewrite list_lookup_fmap in Hi.
    destruct (seqZ 1 n !! i) as [j|] eqn:Hj; [|done]. by injection Hi as <-.
  - done.
  - intros i e Hi. cbn [elevators fresh_system] in Hi.
    rewrite list_lookup_fmap in Hi.
    destruct (seqZ 1 n !! i) as [j|] eqn:Hj; [|done].
    injection Hi as <-. apply lookup_seqZ in Hj as [-> Hlt].
    exists (1 + Z.of_nat i), (c (Z.to_nat (1 + Z.of_nat i - 1))).
    split; [done|].
    unfold open_resting_periods.
    cbn [db fresh_system tbl_resting_periods el_id fresh_elevator].
    rewrite <- seqZ_to_nat, open_fresh_nat. case_decide; [done|lia].
  - unfold sink_keys_ok.
    cbn [db fresh_system tbl_demands tbl_journeys tbl_resting_periods].
    split_and!; [apply keys_ok_nil..|].
    rewrite fresh_resting_keys. split; [apply NoDup_seqZ|].
    apply list.Forall_forall. intros k Hk.
    apply list_elem_of_lookup_1 in Hk as [i Hi].
    apply lookup_seqZ in Hi. lia.
Qed.

Lemma reachable_synced n fl s : reachable n fl s -> synced s.
Proof.
  induction 1 as [db0|s o d Hreach IH|s eid f Hreach IH|s _ IH].
  - rewrite new_is_fresh. apply synced_fresh.
  - destruct (request_final s o d) as [->|(a & e & w & Hv & Ha & ->)]; [done|].
    destruct (in_sync_serve o d w e (db s))
      as (S & F & I); [by eapply in_sync_of_synced|].
    by eapply synced_put.
  - destruct (reposition_final s eid f)
      as [->|(j & e & Hfl & Hj & _ & ->)]; [done|].
    destruct (in_sync_move f e (db s)) as (S & F & I);
      [by eapply in_sync_of_synced|].
    by eapply synced_put.
  - done.
Qed.

Lemma find_mirror (els : list Elevator) a e :
  (forall i x, els !! i = Some x -> el_id x = Z.of_nat i + 1) ->
  els !! a = Some e ->
  List.find (fun r => er_id r =? el_id e) (erow <$> els) = Some (erow e).
Proof.
  intros Hids Ha.
  destruct (List.find _ _) as [r|] eqn:Hfind.
  - apply List.find_some in Hfind as [Hin Hr].
    apply list_elem_of_In, list_elem_of_fmap in Hin as (x & -> & Hin).
    apply list_elem_of_lookup_1 in Hin as [k Hk].
    apply Z.eqb_eq in Hr. cbn in Hr.
    rewrite (Hids _ _ Hk), (Hids _ _ Ha) in Hr.
    assert (k = a) as -> by lia. congruence.
  - exfalso. pose proof (List.find_none _ _ Hfind (erow e)) as Hn.
    cbn in Hn. rewrite Z.eqb_refl in Hn. apply diff_true_false, Hn.
    apply list_elem_of_In, list_elem_of_fmap. exists e. split; [done|].
    by eapply list_elem_of_lookup_2.
Qed.

(** X9: in every reachable state the keys of [demands], of [journeys] and
    of [resting_periods] are distinct and positive, so a handle names at
    most one row. *)
Theorem keys_stay_distinct n fl s :
  reachable n fl s ->
  NoDup (d_id <$> tbl_demands (db s)) /\
  NoDup (j_id <$> tbl_journeys (db s)) /\
  NoDup (r_id <$> tbl_resting_periods (db s)) /\
  Forall (fun k => 0 < k)
    ((d_id <$> tbl_demands (db s)) ++ (j_id <$> tbl_journeys (db s)) ++
     (r_id <$> tbl_resting_periods (db s))).
Proof.
  intros Hreach.
  destruct (synced_keys s (reachable_synced n fl s Hreach))
    as ([? ?] & [? ?] & [? ?]).
  split_and!; try done. by repeat apply Forall_app_2.
Qed.

Lemma keys_stay_distinct_witness :
  reachable 3 10 sys310_at5 /\
  NoDup (r_id <$> tbl_resting_periods (db sys310_at5)).
Proof.
  split; [exact reachable_sys310_at5|].
  by destruct (keys_stay_distinct 3 10 sys310_at5 reachable_sys310_at5)
    as (_ & _ & H & _).
Defined.

(** X10: in every reachable state the sink reports the fleet as it is:
    the table [elevators] has exactly one row per elevator, in fleet order,
    with its id, floor and status; the query of all rows returns what
    [get_elevators_status] returns, and the query of the id of an elevator
    returns that elevator's id, floor and status. *)
Theorem sink_reports_fleet n fl s :
  reachable n fl s ->
  tbl_elevators (db s) = erow <$> elevators s /\
  (forall r, result (ElevatorSystem.get_elevators_status s) = Ok r ->
     Database.get_elevator_status None (db s) = FetchAll r) /\
  (forall i e, elevators s !! i = Some e ->
     Database.get_elevator_status (Some (el_id e)) (db s) =
       FetchOne (Some (el_id e, current_floor e, status e))).
Proof.
  intros Hreach.
  destruct (reachable_synced n fl s Hreach) as [Hids _ _ Ht _ _].
  split_and!.
  - done.
  - intros r Hr. unfold ElevatorSystem.get_elevators_status in Hr.
    revert Hr. run. intros [= <-].
    unfold Database.get_elevator_status. rewrite Ht.
    by rewrite <- list_fmap_compose.
  - intros i e Hi. unfold Database.get_elevator_status.
    rewrite (Hids _ _ Hi) at 1.
    replace (Z.of_nat i + 1 =? 0) with false by (symmetry; apply Z.eqb_neq; lia).
    cbn. by rewrite Ht, (find_mirror _ i e).
Qed.

Lemma sink_reports_fleet_witness :
  reachable 3 10 sys310_at5 /\
  Database.get_elevator_status (Some 2) (db sys310_at5)
    = FetchOne (Some (2, 5, idle)).
Proof.
  split; [exact reachable_sys310_at5|].
  destruct (sink_reports_fleet 3 10 sys310_at5 reachable_sys310_at5)
    as (_ & _ & H).
  exact (H 1%nat
           {| el_id := 2; current_floor := 5; status := idle;
              total_floors := 10; current_resting_id := Some 4;
              current_journey_id := None |} eq_refl).
Defined.

(** X11: in every reachable state every elevator is idle and has exactly
    one open resting period in the sink: the one its handle names, recorded
    at the floor the elevator is at. *)
Theorem one_resting_period_each n fl s :
  reachable n fl s ->
  forall i e, elevators s !! i = Some e ->
    status e = idle /\
    exists rid whole, current_resting_id e = Some rid /\
      open_resting_periods (db s) (el_id e) =
        [{| r_id := rid; r_elevator_id := el_id e;
            r_floor := current_floor e; r_start_whole_second := whole;
            r_end_time := false |}].
Proof.
  intros Hreach i e Hi.
  pose proof (reachable_synced n fl s Hreach) as Hs.
  split; [by apply (synced_idle s Hs i)|].
  apply (synced_rest s Hs i e Hi).
Qed.

Lemma one_resting_period_each_witness :
  reachable 3 10 sys310_at5 /\
  open_resting_periods (db sys310_at5) 2 =
    [{| r_id := 4; r_elevator_id := 2; r_floor := 5;
        r_start_whole_second := false; r_end_time := false |}].
Proof.
  split; [exact reachable_sys310_at5|].
  destruct (one_resting_period_each 3 10 sys310_at5 reachable_sys310_at5 1%nat
              {| el_id := 2; current_floor := 5; status := idle;
                 total_floors := 10; current_resting_id := Some 4;
                 current_journey_id := None |} eq_refl)
    as (_ & rid & w & Hrid & Hopen).
  injection Hrid as <-.
  assert (w = false) as ->; [|exact Hopen].
  vm_compute in Hopen. by injection Hopen.
Defined.

(** X12: [get_elevators_status] changes nothing and, in every reachable
    state, lists the elevators in the order of their ids 1, 2, ..., one
    entry each, all idle. *)
Theorem status_report n fl s :
  reachable n fl s ->
  exists report,
    ElevatorSystem.get_elevators_status s = (Ok report, s, []) /\
    length report = Z.to_nat n /\
    forall i entry, report !! i = Some entry ->
      entry.1.1 = Z.of_nat i + 1 /\ entry.2 = idle /\
      exists e, elevators s !! i = Some e /\ entry.1.2 = current_floor e.
Proof.
  intros Hreach.
  destruct (reachable_inv n fl s Hreach) as (Hids & Hlen & _).
  pose proof (reachable_synced n fl s Hreach) as Hs.
  eexists. split; [reflexivity|]. split.
  - by rewrite length_fmap.
  - intros i entry Hi. rewrite list_lookup_fmap in Hi.
    destruct (elevators s !! i) as [e|] eqn:He; [|done].
    injection Hi as <-. cbn. split_and!.
    + by apply Hids.
    + by apply (synced_idle s Hs i).
    + by exists e.
Qed.

Lemma status_report_witness :
  reachable 3 10 sys310_at5 /\
  exists report,
    ElevatorSystem.get_elevators_status sys310_at5
      = (Ok report, sys310_at5, []) /\
    length report = 3%nat.
Proof.
  split; [exact reachable_sys310_at5|].
  destruct (status_report 3 10 sys310_at5 reachable_sys310_at5)
    as (report & H1 & H2 & _).
  exists report. split; [exact H1|exact H2].
Defined.

(** ** What a call leaves in the sink and in the fleet *)

Lemma result_on_elevator {A} a (m : ST Obj A) s e :
  elevators s !! a = Some e ->
  result (on_elevator a m s) = result (m (e, db s)).
Proof. intros H. unfold on_elevator. by rewrite H. Qed.

(** The demand and the journey of [serve], in any state. *)
Lemma serve_books o d w e d0 :
  let y := serve o d w (e, d0) in
  let journey := fun (closed : bool) =>
    {| j_id := Database.lastrowid (j_id <$> tbl_journeys d0);
       j_elevator_id := el_id e; j_end_time := closed;
       j_start_floor := current_floor e;
       j_end_floor := if closed then Some d else None;
       j_passenger_count := 1 |} in
  tbl_demands (final y).2 = tbl_demands d0 ++
    [{| d_id := Database.lastrowid (d_id <$> tbl_demands d0);
        d_origin_floor := o; d_destination_floor := d;
        d_elevator_id := el_id e; d_wait_time_seconds := w |}] /\
  (forall r, result y = Ok r ->
     tbl_journeys (final y).2 = tbl_journeys d0 ++ [journey true]) /\
  (forall ex, result y = Raise ex ->
     tbl_journeys (final y).2 = tbl_journeys d0 ++ [journey false]).
Proof.
  cbn zeta.
  pose proof (serve_run o d w e d0) as Hrun.
  cbn zeta in Hrun. rewrite Hrun. clear Hrun.
  set (dd := (Database.record_demand o d (el_id e) w d0).2).
  set (new := Database.start_journey (el_id e) (current_floor e) 1 dd).
  set (x1 := (set_current_journey_id (Some new.1) e, new.2)).
  destruct (move_general o x1) as (_ & _ & H2 & J2 & D2 & _).
  destruct (Elevator.move o x1) as [[r2 x2] t2].
  unfold final in H2, J2, D2; cbn [fst snd] in H2, J2, D2.
  destruct r2 as [t1|ex].
  2:{ unfold result, final; cbn [fst snd]. rewrite J2, D2. done. }
  destruct (move_general d x2) as (_ & _ & H3 & J3 & D3 & _).
  destruct (Elevator.move d x2) as [[r3 x3] t3].
  unfold final in H3, J3, D3; cbn [fst snd] in H3, J3, D3.
  destruct r3 as [t2'|ex].
  2:{ unfold result, final; cbn [fst snd]. rewrite J3, D3, J2, D2. done. }
  assert (new.1 ≠ 0) as Hnew.
  { pose proof (lastrowid_pos (j_id <$> tbl_journeys dd)).
    unfold new, Database.start_journey; cbn. lia. }
  destruct x3 as [e3 d3]. cbn [fst snd] in *.
  rewrite (end_journey_open d e3 d3 new.1); [|by rewrite H3, H2|done].
  cbn zeta. unfold result, final; cbn [fst snd].
  split_and!.
  - unfold Database.end_journey; cbn. by rewrite D3, D2.
  - intros _ _. unfold Database.end_journey; cbn [snd tbl_journeys].
    rewrite J3, J2.
    apply (journeys_after_round_trip dd (el_id e) (current_floor e) 1 d).
  - done.
Qed.

(** X13: a valid request on a fleet that is not empty, in any state,
    appends exactly one demand (origin, destination, the id of the
    assigned elevator, the pickup distance as wait time) and exactly one
    journey, from the floor the assigned elevator was at, with one
    passenger: closed at the destination when the call returns, left open
    when it raises; the rows that were there and the other elevators are
    untouched. *)
Theorem request_bookkeeping s o d :
  o ≠ d -> 0 <= o < num_floors s -> 0 <= d < num_floors s ->
  elevators s ≠ [] ->
  exists a e,
    elevators s !! a = Some e /\
    (ElevatorSystem.find_closest (elevators s) o).1 = Some a /\
    let x := ElevatorSystem.request_elevator o d s in
    let journey := fun (closed : bool) =>
      {| j_id := Database.lastrowid (j_id <$> tbl_journeys (db s));
         j_elevator_id := el_id e; j_end_time := closed;
         j_start_floor := current_floor e;
         j_end_floor := if closed then Some d else None;
         j_passenger_count := 1 |} in
    tbl_demands (db (final x)) = tbl_demands (db s) ++
      [{| d_id := Database.lastrowid (d_id <$> tbl_demands (db s));
          d_origin_floor := o; d_destination_floor := d;
          d_elevator_id := el_id e;
          d_wait_time_seconds := Fin (Z.abs (current_floor e - o)) |}] /\
    (forall r, result x = Ok r ->
       tbl_journeys (db (final x)) = tbl_journeys (db s) ++ [journey true]) /\
    (forall ex, result x = Raise ex ->
       tbl_journeys (db (final x)) = tbl_journeys (db s) ++ [journey false]) /\
    length (elevators (final x)) = length (elevators s) /\
    (forall j, j ≠ a -> elevators (final x) !! j = elevators s !! j).
Proof.
  intros Hne Ho Hd Hnil.
  destruct (find_closest_some o _ Hnil) as (a & e & Hf & Ha & _).
  exists a, e. rewrite Hf. split; [done|]. split; [done|]. cbn zeta.
  rewrite (request_elevator_serve s o d a _ (conj Hne (conj Ho Hd)) Hf) by done.
  rewrite (final_on_elevator a _ s e Ha), (result_on_elevator a _ s e Ha).
  cbn [put db elevators].
  destruct (serve_books o d (Fin (dist o e)) e (db s)) as (HD & HJ1 & HJ2).
  split_and!; try done.
  - by rewrite length_insert.
  - intros j Hj. by rewrite list_lookup_insert_ne.
Qed.

Lemma request_bookkeeping_witness :
  3 ≠ 7 /\ 0 <= 3 < num_floors sys310_at5 /\ 0 <= 7 < num_floors sys310_at5 /\
  elevators sys310_at5 ≠ [] /\
  exists a e,
    elevators sys310_at5 !! a = Some e /\
    length (tbl_demands
              (db (final (ElevatorSystem.request_elevator 3 7 sys310_at5))))
      = 1%nat.
Proof.
  split; [lia|]. split; [by vm_compute|]. split; [by vm_compute|].
  split; [by vm_compute|].
  destruct (request_bookkeeping sys310_at5 3 7)
    as (a & e & Ha & _ & Hd & _);
    [lia|by vm_compute|by vm_compute|by vm_compute|].
  exists a, e. split; [exact Ha|]. rewrite Hd. reflexivity.
Defined.

(** X14: [move_elevator_to_resting_floor] records no demand and no
    journey, whatever it returns; it leaves untouched every elevator that
    is not idle with the id asked for, and it changes neither the id, the
    journey handle nor the number of floors of any elevator. *)
Theorem reposition_frame s elevator_id floor :
  let s' := final (ElevatorSystem.move_elevator_to_resting_floor
                     elevator_id floor s) in
  tbl_demands (db s') = tbl_demands (db s) /\
  tbl_journeys (db s') = tbl_journeys (db s) /\
  length (elevators s') = length (elevators s) /\
  (forall j e, elevators s !! j = Some e ->
     ~ (el_id e = elevator_id /\ status e = idle) ->
     elevators s' !! j = Some e) /\
  (forall j e, elevators s !! j = Some e ->
     exists e', elevators s' !! j = Some e' /\
       el_id e' = el_id e /\ total_floors e' = total_floors e /\
       current_journey_id e' = current_journey_id e).
Proof.
  cbn zeta.
  destruct (reposition_final s elevator_id floor)
    as [->|(j0 & e0 & Hfl & Hj0 & Hm & ->)].
  { split_and!; try done. intros j e Hj. by exists e. }
  cbn [put db elevators].
  destruct (move_general floor (e0, db s)) as (HI & HT & HH & HJ & HD & _).
  assert (j0 < length (elevators s))%nat as Hlt by (by eapply lookup_lt_Some).
  split_and!; try done.
  - by rewrite length_insert.
  - intros j e Hj Hn. rewrite list_lookup_insert_ne; [done|].
    intros <-. apply Hn, matches_spec. congruence.
  - intros j e Hj. destruct (decide (j0 = j)) as [<-|Hne].
    + rewrite list_lookup_insert_eq by done.
      eexists. split; [done|]. by assert (e = e0) as -> by congruence.
    + rewrite list_lookup_insert_ne by done. by exists e.
Qed.

Lemma reposition_frame_witness :
  elevators sys310_at5 !! 0%nat = elevators sys310 !! 0%nat /\
  tbl_journeys (db sys310_at5) = tbl_journeys (db sys310).
Proof.
  destruct (reposition_frame sys310 2 5) as (_ & Hj & _ & Hkeep & _).
  unfold sys310_at5. split; [|exact Hj].
  rewrite (Hkeep 0%nat (fresh_elevator 10 1)); [done|done|].
  intros [Hid _]. discriminate.
Defined.

(** ** Requests where no resting period starts on a whole second *)

(** X15: on a system built with at least one elevator and driven through
    the public methods, in a state in which no resting period was opened
    on a whole second and none will be, a valid request returns the id of
    the assigned elevator, which lies in [1, num_elevators], and the sum
    of the pickup and delivery distances, which is not negative;
    afterwards the elevator with that id is idle at the destination, and no
    resting period was opened on a whole second. *)
Theorem valid_request_returns n fl s o d :
  reachable n fl s -> fractional (db s) -> 1 <= n ->
  o ≠ d -> 0 <= o < num_floors s -> 0 <= d < num_floors s ->
  let x := ElevatorSystem.request_elevator o d s in
  exists a e,
    elevators s !! a = Some e /\
    (ElevatorSystem.find_closest (elevators s) o).1 = Some a /\
    result x =
      Ok (el_id e, Z.abs (current_floor e - o) + Z.abs (o - d)) /\
    1 <= el_id e <= num_elevators s /\
    0 <= Z.abs (current_floor e - o) + Z.abs (o - d) /\
    (exists e', elevators (final x) !! a = Some e' /\ el_id e' = el_id e) /\
    (forall j e', elevators (final x) !! j = Some e' -> el_id e' = el_id e ->
       current_floor e' = d /\ status e' = idle) /\
    fractional (db (final x)).
Proof.
  intros Hreach Hfr Hn Hne Ho Hd. cbn zeta.
  pose proof (reachable_calm n fl s Hreach Hfr) as Hwf.
  destruct (reachable_inv n fl s Hreach) as (_ & _ & Hnum & _).
  assert (elevators s ≠ []) as Hnil.
  { intros Hnil. pose proof (wf_len s Hwf) as Hlen.
    rewrite Hnil, Hnum in Hlen. cbn in Hlen. lia. }
  destruct (request_elevator_spec s o d Hwf (conj Hne (conj Ho Hd)) Hnil)
    as (a & e & Ha & Hf & [(s' & tr & _ & Hnf)
                          |(e' & d' & tr & Hrun & Hwf' & Hid & Hcf & Hst & _ &
                            _ & Hfr' & _)]); [done|].
  assert (a < length (elevators s))%nat as Hlt by (by eapply lookup_lt_Some).
  exists a, e. rewrite Hrun, Hf. unfold result, final; cbn [fst snd].
  split_and!; try done.
  - rewrite (wf_ids s Hwf _ _ Ha). lia.
  - rewrite (wf_ids s Hwf _ _ Ha). rewrite (wf_len s Hwf) in Hlt. lia.
  - lia.
  - exists e'. split; [|done]. by apply (put_lookup a (e', d') s).
  - intros j x Hj Hx.
    assert (j = a) as ->.
    { rewrite (wf_ids _ Hwf' _ _ Hj), (wf_ids s Hwf _ _ Ha) in Hx. lia. }
    rewrite (put_lookup a (e', d') s Hlt) in Hj. by injection Hj as <-.
  - by apply Hfr'.
Qed.

Lemma valid_request_returns_witness :
  reachable 3 10 sys310 /\ fractional (db sys310) /\ 1 <= 3 /\ 3 ≠ 7 /\
  0 <= 3 < num_floors sys310 /\ 0 <= 7 < num_floors sys310 /\
  exists a e,
    elevators sys310 !! a = Some e /\
    result (ElevatorSystem.request_elevator 3 7 sys310) =
      Ok (el_id e, Z.abs (current_floor e - 3) + Z.abs (3 - 7)).
Proof.
  split; [apply reach_init|]. split; [exact fractional_sys310|].
  split; [lia|]. split; [lia|].
  split; [by vm_compute|]. split; [by vm_compute|].
  destruct (valid_request_returns 3 10 sys310 3 7)
    as (a & e & H1 & _ & H3 & _);
    [apply reach_init|exact fractional_sys310|lia|lia|by vm_compute
    |by vm_compute|].
  exists a, e. split; [exact H1|exact H3].
Defined.

(** X16: the two errors of the validation of [request_elevator], the
    [ValueError] for equal floors and the one for a floor outside the
    building, are raised exactly when the floors are equal or one of them
    is outside [0, num_floors), and then nothing has changed and no state
    was gone through.  Any other exception of a request is the
    [AttributeError] of an empty fleet or the [ValueError] of
    [strptime]. *)
Theorem request_validation_iff s o d :
  let x := ElevatorSystem.request_elevator o d s in
  ((exists ex, result x = Raise ex /\ request_error ex = true) <->
   (o = d \/ ~ (0 <= o < num_floors s) \/ ~ (0 <= d < num_floors s))) /\
  (forall ex, result x = Raise ex -> request_error ex = true ->
     final x = s /\ trace x = []) /\
  (forall ex, result x = Raise ex -> request_error ex = false ->
     ex = AttributeError \/ ex = ValueError TimeDataFormat) /\
  result (ElevatorSystem.request_elevator 3 3 s)
    = Raise (ValueError SameFloors) /\
  (exists ex,
     result (ElevatorSystem.request_elevator 0 (num_floors s) s) = Raise ex /\
     request_error ex = true).
Proof.
  cbn zeta.
  assert (valid_request s o d ->
          forall ex, result (ElevatorSystem.request_elevator o d s) = Raise ex ->
            request_error ex = false /\
            (ex = AttributeError \/ ex = ValueError TimeDataFormat)) as Hvalid.
  { intros Hv ex Hex.
    destruct (decide (elevators s = [])) as [He|He].
    - rewrite request_elevator_empty in Hex by done.
      injection Hex as <-. split; [done|by left].
    - destruct (request_elevator_outcome s o d Hv He)
        as (a & e & r & s' & tr & _ & _ & _ & _ & Hrun & Hr).
      rewrite Hrun in Hex. unfold result in Hex; cbn [fst snd] in Hex.
      subst r. destruct Hr as [[= ->]|[t ?]]; [|done].
      split; [done|by right]. }
  split_and!.
  - split.
    + intros (ex & Hex & Herr).
      destruct (valid_request_dec s o d) as [Hv|Hv].
      * destruct (Hvalid Hv ex Hex) as [Hno _]. congruence.
      * unfold valid_request in Hv.
        destruct (Z.eq_dec o d); [by left|]. right.
        destruct (decide (0 <= o < num_floors s)); [|by left]. right. tauto.
    + intros H.
      destruct (request_elevator_invalid s o d) as (msg & Hm & Herr).
      { unfold valid_request. tauto. }
      exists (ValueError msg). by rewrite Hm.
  - intros ex Hex Herr.
    destruct (valid_request_dec s o d) as [Hv|Hv].
    + destruct (Hvalid Hv ex Hex) as [Hno _]. congruence.
    + by destruct (request_elevator_invalid s o d Hv) as (msg & -> & _).
  - intros ex Hex Herr.
    destruct (valid_request_dec s o d) as [Hv|Hv].
    + by destruct (Hvalid Hv ex Hex) as [_ ?].
    + destruct (request_elevator_invalid s o d Hv) as (msg & Hm & Herr').
      rewrite Hm in Hex. injection Hex as <-. congruence.
  - by rewrite request_elevator_same.
  - destruct (request_elevator_invalid s 0 (num_floors s)) as (msg & Hm & Herr).
    { unfold valid_request. lia. }
    exists (ValueError msg). by rewrite Hm.
Qed.

Lemma request_validation_iff_witness :
  (exists ex, result (ElevatorSystem.request_elevator 3 20 sys310) = Raise ex /\
              request_error ex = true) /\
  final (ElevatorSystem.request_elevator 3 20 sys310) = sys310 /\
  trace (ElevatorSystem.request_elevator 3 20 sys310) = [].
Proof.
  destruct (request_validation_iff sys310 3 20) as ([_ H] & Hsame & _).
  assert (exists ex, result (ElevatorSystem.request_elevator 3 20 sys310)
                       = Raise ex /\ request_error ex = true) as Hm.
  { apply H. right. right. vm_compute. intros [_ Hlt]. discriminate. }
  split; [exact Hm|]. destruct Hm as (ex & Hex & Herr).
  exact (Hsame ex Hex Herr).
Defined.
